(** * Agentic onboarding engine: a shallow embedding

    The development follows the JavaScript sources of the onboarding server:

    - [server/agents/base-agent.js]      the perceive/decide/act/reflect loop
    - [server/agents/hr-agent.js]        HR documents, policies, benefits
    - [server/agents/it-setup-agent.js]  accounts, hardware, access
    - [server/agents/training-agent.js]  learning path and meetings
    - [server/agents/buddy-agent.js]     buddy matching and check-ins
    - [server/agents/orchestrator.js]    fan-out, merge, summary, timeline
    - [server/models/clf.js]             the rule-based classifier
    - [server/models/employee.js]        the in-memory employee store
    - [server/routes/onboarding.js]      the handlers of the routes

    JavaScript objects that are used as open records (the employee, a
    submitted document) are finite maps from property names to values;
    objects built by the program itself with a fixed shape (tasks, log
    entries, catalog entries) are records.  A thrown exception is an
    explicit outcome of the phase that raised it. *)

From Stdlib Require Import ZArith String Ascii List Lia Permutation.
From stdpp Require Import base option list gmap strings pretty.

Set Warnings "-register-all".
#[local] Open Scope string_scope.
#[local] Open Scope Z_scope.

(* ================================================================== *)
(** * 1. Values                                                        *)
(* ================================================================== *)

(** A thrown [Error] object; the orchestrator and the run loop only ever
    read its [message].  The text of a TypeError for a call of
    something that is no function, or for a read from undefined, is
    chosen by the JavaScript engine and names the expression at fault;
    the strings used below for these stand for it, and no theorem
    depends on their text. *)
Record Error := TypeError { message : string }.

(** The message of the TypeError of a conversion to a primitive, as
    V8 words it. *)
Definition not_primitive : string := "Cannot convert object to primitive value".

(** JSON-like values.  A number is kept in tenths: [VNum 50] is 5 and
    [VNum 49] is 4.9.  This covers the integers and the one-decimal
    ratings and scores of the buddy pool.  [VNum n] stands for the
    double nearest to n/10; numbers of more than 15 significant digits,
    whose doubles print with other digits or with an exponent, are
    outside the model, and no theorem depends on how a number prints. *)
Inductive val :=
| VUndef
| VNull
| VBool (b : bool)
| VNum (tenths : Z)
| VStr (s : string)
| VArr (l : list val)
| VObj (o : gmap string val).

(** An object used as an open record. *)
Abbreviation obj := (gmap string val).

Module Js.

(** [!!v] is the negation of this. *)
Definition truthy (v : val) : bool :=
  match v with
  | VUndef | VNull => false
  | VBool b => b
  | VNum n => negb (n =? 0)
  | VStr s => negb (String.eqb s EmptyString)
  | VArr _ | VObj _ => true
  end.

(** [o.k] on an object: a missing property reads as undefined. *)
Definition get (o : obj) (k : string) : val := default VUndef (o !! k).

(** [a || b]. *)
Definition or (a b : val) : val := if truthy a then a else b.

(** [v === s] for a string [s]. *)
Definition is_str (v : val) (s : string) : bool :=
  match v with VStr t => String.eqb t s | _ => false end.

(** ** Strings *)

Definition lower_ascii (c : ascii) : ascii :=
  let n := nat_of_ascii c in
  if ((65 <=? n) && (n <=? 90))%nat then ascii_of_nat (n + 32) else c.

Definition upper_ascii (c : ascii) : ascii :=
  let n := nat_of_ascii c in
  if ((97 <=? n) && (n <=? 122))%nat then ascii_of_nat (n - 32) else c.

(** [s.toLowerCase()] on a string of ASCII characters: the letters A-Z
    are mapped, every other character is left alone.  Strings are
    sequences of 8-bit characters.  The engine also maps the capital
    letters outside ASCII, which this function leaves alone: for a
    string with such letters the result is another one than the
    engine gives.  The theorems that depend on the result take strings
    for which [is_ascii] holds.  (In the engine the lower-case form of
    a string with a character outside ASCII has a character outside
    ASCII, with the one exception of the Kelvin sign, which becomes k;
    no catalog key of the program contains a k, so the lookup of a
    lower-cased department in a catalog finds the same entry or none in
    both.) *)
Fixpoint toLowerCase (s : string) : string :=
  match s with
  | EmptyString => EmptyString
  | String c r => String (lower_ascii c) (toLowerCase r)
  end.

(** The strings all of whose characters are ASCII characters. *)
Fixpoint is_ascii (s : string) : bool :=
  match s with
  | EmptyString => true
  | String c r => (nat_of_ascii c <? 128)%nat && is_ascii r
  end.

(** [s.replace(/[...]+/g, '-')]: every maximal run of characters of the
    class [p] becomes one dash. *)
Fixpoint replace_runs (p : ascii -> bool) (in_run : bool) (s : string) : string :=
  match s with
  | EmptyString => EmptyString
  | String c r =>
      if p c then
        if in_run then replace_runs p true r
        else String "-" (replace_runs p true r)
      else String c (replace_runs p false r)
  end.

(** The class [\s] restricted to 8-bit characters: tab, line feed,
    vertical tab, form feed, carriage return, space. *)
Definition is_space (c : ascii) : bool :=
  let n := nat_of_ascii c in
  ((9 <=? n) && (n <=? 13) || (n =? 32))%nat.

Definition is_char (d : ascii) (c : ascii) : bool := Ascii.eqb c d.

(** The double quote character (code 34). *)
Definition dquote : ascii := ascii_of_nat 34.

(** [s.replace(/_/g, ' ')]. *)
Fixpoint underscores_to_spaces (s : string) : string :=
  match s with
  | EmptyString => EmptyString
  | String c r =>
      String (if Ascii.eqb c "_" then " "%char else c) (underscores_to_spaces r)
  end.

(** The class [\w]: letters, digits and the underscore. *)
Definition is_word (c : ascii) : bool :=
  let n := nat_of_ascii c in
  ((48 <=? n) && (n <=? 57) || (65 <=? n) && (n <=? 90)
   || (97 <=? n) && (n <=? 122) || (n =? 95))%nat.

(** [s.replace(/\b\w/g, c => c.toUpperCase())]: a word character that
    follows the start of the string or a non-word character is put in
    upper case.  [prev_word] tells whether the previous character was a
    word character. *)
Fixpoint capitalize_words (prev_word : bool) (s : string) : string :=
  match s with
  | EmptyString => EmptyString
  | String c r =>
      String (if is_word c && negb prev_word then upper_ascii c else c)
             (capitalize_words (is_word c) r)
  end.

(** [s.includes(p)] on strings. *)
Definition str_includes (s p : string) : bool :=
  match String.index 0 p s with Some _ => true | None => false end.

(** The characters of a string, as [[...s]] yields them. *)
Fixpoint chars (s : string) : list val :=
  match s with
  | EmptyString => []
  | String c r => VStr (String c EmptyString) :: chars r
  end.

(** The decimal rendering of a number given in tenths; [always] keeps
    the decimal digit of an integer, as [n.toFixed(1)] does. *)
Definition decimal (always : bool) (tenths : Z) : string :=
  (if tenths <? 0 then "-" else EmptyString)
  +:+ pretty (Z.abs tenths / 10)
  +:+ (if always || negb (Z.abs tenths mod 10 =? 0)
       then "." +:+ pretty (Z.abs tenths mod 10) else EmptyString).

Definition toFixed1 (tenths : Z) : string := decimal true tenths.

(** Whether the conversion of a value to a primitive returns.  An
    object is converted by its toString method; the values of this
    model hold no function, so an object with a property toString of
    its own has no method to call (nor does valueOf give a primitive)
    and the conversion throws a TypeError.  An array converts each of
    its elements that is not null or undefined. *)
Fixpoint converts (v : val) : bool :=
  match v with
  | VArr l => forallb converts l
  | VObj o => match o !! "toString" with Some _ => false | None => true end
  | _ => true
  end.

(** The string a conversion that returns gives: [`${v}`] in a template
    literal.  An array joins its elements with commas, null and
    undefined elements giving the empty string. *)
Fixpoint to_str (v : val) : string :=
  match v with
  | VUndef => "undefined"
  | VNull => "null"
  | VBool b => if b then "true" else "false"
  | VNum n => decimal false n
  | VStr s => s
  | VArr l =>
      String.concat ","
        (List.map (fun x => match x with
                            | VUndef | VNull => EmptyString
                            | _ => to_str x
                            end) l)
  | VObj _ => "[object Object]"
  end.

(** [l.includes(s)] on an array, for a string [s]. *)
Definition arr_includes (l : list val) (s : string) : bool :=
  existsb (fun v => is_str v s) l.

End Js.

(* ================================================================== *)
(** * 2. Phases: code that logs and may throw                          *)
(* ================================================================== *)

(** A request [this.addLog(action, detail)]. *)
Definition LogReq : Type := string * string.

(** The methods of an agent touch the agent object only through
    [this.addLog] and end by returning or by throwing.  A phase is
    therefore the list of log requests it issued, in order, and its
    outcome.  Requests issued before a throw are kept. *)
Record Phase (A : Type) := MkPhase {
  emitted : list LogReq;
  outcome : Error + A }.
Arguments MkPhase {A} _ _.
Arguments emitted {A} _.
Arguments outcome {A} _.

Definition ret {A} (x : A) : Phase A := MkPhase [] (inr x).

Definition bind {A B} (m : Phase A) (f : A -> Phase B) : Phase B :=
  match outcome m with
  | inl e => MkPhase (emitted m) (inl e)
  | inr x => MkPhase (emitted m ++ emitted (f x)) (outcome (f x))
  end.

Notation "'let*' x ':=' m 'in' k" := (bind m (fun x => k))
  (at level 10, x name, m at level 100, k at level 200).

Definition throw {A} (msg : string) : Phase A := MkPhase [] (inl (TypeError msg)).
Definition addLogReq (action detail : string) : Phase unit :=
  MkPhase [(action, detail)] (inr tt).

(** [l.filter(cb)] for a callback that may throw: the callback runs on
    the elements in order and the first throw ends the loop. *)
Fixpoint filterP {A} (f : A -> Phase bool) (l : list A) : Phase (list A) :=
  match l with
  | [] => ret []
  | x :: r =>
      let* b := f x in
      let* r' := filterP f r in
      ret (if b then x :: r' else r')
  end.

Module JsP.
Import Js.

(** [v.k] for a value of unknown shape: reading a property of null or
    undefined throws; a primitive or an array has none of the properties
    the program asks for (id, name, score). *)
Definition prop (v : val) (k : string) : Phase val :=
  match v with
  | VUndef | VNull => throw "Cannot read properties of undefined"
  | VObj o => ret (get o k)
  | _ => ret VUndef
  end.

(** [`${v}`] with its error: the conversion throws where [converts]
    fails. *)
Definition to_string (v : val) : Phase string :=
  if converts v then ret (to_str v) else throw not_primitive.

(** [(v || dflt).toLowerCase()]: defined on strings only. *)
Definition lower_or (v : val) (dflt : string) : Phase string :=
  match or v (VStr dflt) with
  | VStr s => ret (toLowerCase s)
  | _ => throw "toLowerCase is not a function"
  end.

(** [v?.toLowerCase()] inside a template literal. *)
Definition opt_lower (v : val) : Phase string :=
  match v with
  | VUndef | VNull => ret "undefined"
  | VStr s => ret (toLowerCase s)
  | _ => throw "toLowerCase is not a function"
  end.

(** [v.includes(s)]: array membership, substring test on a string, a
    TypeError on any other value. *)
Definition includes (v : val) (s : string) : Phase bool :=
  match v with
  | VArr l => ret (arr_includes l s)
  | VStr t => ret (str_includes t s)
  | _ => throw "includes is not a function"
  end.

(** [[...v]]: the elements of an array, the characters of a string; any
    other value is not iterable. *)
Definition spread (v : val) : Phase (list val) :=
  match v with
  | VArr l => ret l
  | VStr s => ret (chars s)
  | _ => throw "value is not iterable"
  end.

End JsP.

(* ================================================================== *)
(** * 3. Data model                                                    *)
(* ================================================================== *)

Module Metadata.
Record t := mk { duration : string; format : string }.
End Metadata.

(** A task as the agents build it.  [dueInDays], [note] and [metadata]
    are absent from some task literals. *)
Module Task.
Record t := mk {
  id : string;
  agent : string;
  type : string;
  title : string;
  status : string;
  priority : string;
  dueInDays : option Z;
  category : string;
  note : option string;
  metadata : option Metadata.t }.
End Task.

(** A log entry.  [BaseAgent.addLog] stamps it with the current time (in
    milliseconds since the epoch; the source stores its ISO rendering);
    the entry the orchestrator makes up for a rejected agent has no
    timestamp. *)
Module LogEntry.
Record t := mk {
  timestamp : option Z;
  agent : string;
  action : string;
  detail : string }.
End LogEntry.

Module Doc.
Record t := mk { id : string; label : string }.
End Doc.

(** An entry of the buddy pool, and the scored copy [{...buddy, score}]
    that [BuddyAgent.perceive] builds.  Ratings and scores carry one
    decimal digit in the source (4.6 .. 5.0, plus the bonus 3); they are
    kept in tenths, so 4.9 is 49 and the bonus is 30.  The source adds
    and compares doubles.  For ratings of one decimal digit from 0 to
    10 the doubles are ordered, and equal, exactly as the tenths are,
    with and without the bonus (the sum of the double of 4.9 and 3 is
    the double of 7.9); for other ratings they need not be, as for
    -2.9, whose sum with 3 is greater than the double of 0.1.  The
    theorems on scores take pools for which [rated] holds. *)
Module Buddy.
Record t := mk {
  id : string; name : string; department : string;
  seniority : string; rating : Z }.

(** A rating from 0 to 10. *)
Definition rated (b : t) : Prop := 0 <= rating b <= 100.
End Buddy.

Module Scored.
Record t := mk { buddy : Buddy.t; score : Z }.

(** The object [{...buddy, score}] as a value. *)
Definition to_val (b : t) : val :=
  VObj (<["id" := VStr (Buddy.id (buddy b))]>
       (<["name" := VStr (Buddy.name (buddy b))]>
       (<["department" := VStr (Buddy.department (buddy b))]>
       (<["seniority" := VStr (Buddy.seniority (buddy b))]>
       (<["rating" := VNum (Buddy.rating (buddy b))]>
       (<["score" := VNum (score b)]> ∅)))))).
End Scored.


Module Profile.
Record t := mk {
  software : list string;
  hardware : list string;
  access : list string }.
End Profile.

Module TrainingModule.
Record t := mk { id : string; title : string; duration : string; type : string }.
End TrainingModule.

(** The employee object: its task array, which only the agents and the
    orchestrator fill, and every other property. *)
Record Employee := mkEmployee {
  props : obj;
  tasks : list Task.t }.

Module HRPerception.
Record t := mk {
  requiredDocs : list Doc.t;
  missing : list Doc.t;
  submitted : val }.
End HRPerception.

(** [profile] is [None] when the department names an inherited member of
    the profile table (see [ITSetupAgent.roleProfiles]). *)
Module ITPerception.
Record t := mk {
  profile : option Profile.t;
  department : string;
  existingAccounts : val;
  existingHardware : val }.
End ITPerception.

Module TrainingPerception.
Record t := mk {
  companyWideModules : list TrainingModule.t;
  roleModules : option (list TrainingModule.t);
  completedModules : val;
  department : string }.
End TrainingPerception.

Module BuddyPerception.
Record t := mk {
  candidates : list Scored.t;
  alreadyAssigned : bool }.
End BuddyPerception.

(** The context object handed to an agent: the employee and the scratch
    space each agent adds in [perceive]. *)
Record Context := mkContext {
  employee : Employee;
  hrPerception : option HRPerception.t;
  itPerception : option ITPerception.t;
  trainingPerception : option TrainingPerception.t;
  buddyPerception : option BuddyPerception.t }.

Definition context_of (e : Employee) : Context :=
  mkContext e None None None None.

Definition with_employee (c : Context) (e : Employee) : Context :=
  mkContext e (hrPerception c) (itPerception c) (trainingPerception c)
            (buddyPerception c).

(** [context.employee.k = v]. *)
Definition set_prop (c : Context) (k : string) (v : val) : Context :=
  with_employee c (mkEmployee (<[k := v]> (props (employee c))) (tasks (employee c))).

(** [context.employee.tasks.push(t)]. *)
Definition push_task (c : Context) (t : Task.t) : Context :=
  with_employee c (mkEmployee (props (employee c)) (tasks (employee c) ++ [t])%list).

Definition push_tasks (c : Context) (ts : list Task.t) : Context :=
  fold_left push_task ts c.

(* ================================================================== *)
(** * 4. BaseAgent                                                     *)
(* ================================================================== *)

Module BaseAgent.

(** The mutable fields of an agent object. *)
Record State := mkState {
  status : string;
  log : list LogEntry.t }.

(** The constructor: [status = 'idle'], [log = []]. *)
Definition new : State := mkState "idle" [].

(** The four overridable methods and the name given to the constructor.
    Every method of the repository returns the context object it was
    given, after updating it in place; a method is therefore a function
    from the context to the updated context. *)
Record Impl := mkImpl {
  Action : Type;
  name : string;
  perceive : Context -> Phase Context;
  decide : Context -> Phase (list Action);
  act : Context -> list Action -> Phase Context;
  reflect : Context -> Phase (bool * Context) }.

(** The methods of [BaseAgent] itself. *)
Definition base (name : string) : Impl :=
  mkImpl unit name
    (fun context => ret context)
    (fun _ => ret [])
    (fun context _ => ret context)
    (fun context => ret (true, context)).

Definition set_status (st : string) (s : State) : State := mkState st (log s).

Section Run.

(** [clock k] is the time the agent reads at its [k]-th log entry; the
    log is never cleared, so [k] is the length of the log. *)
Variable clock : nat -> Z.
Variable a : Impl.

Definition addLog (action detail : string) (s : State) : State :=
  mkState (status s)
    (log s ++ [LogEntry.mk (Some (clock (length (log s)))) (name a) action detail]).

(** The log requests of a phase, carried out in order. *)
Definition addLogs (reqs : list LogReq) (s : State) : State :=
  fold_left (fun s r => addLog (fst r) (snd r) s) reqs s.

Inductive PhaseName := Perceive | Decide | Act | Reflect.

(** What a run did, phase call by phase call: a call that returned, with
    the number of intents for [decide] and the completion signal for
    [reflect], or a call that threw.  The trace is an observer of the
    run; nothing reads it. *)
Inductive Event :=
| EvPerceive
| EvDecide (intents : nat)
| EvAct
| EvReflect (complete : bool)
| EvThrow (p : PhaseName) (e : Error).

(** How one pass through the loop body ends. *)
Inductive Control :=
| Next (context : Context)
| Done (context : Context)
| Raise (e : Error).

(** The body of the [for] loop of [run].  Every [perceive] of the
    repository writes its perception into the context object it is
    given and returns that same object, so when the loop breaks on an
    empty [decide] the variable [context] of the source denotes the
    object [perceivedCtx] denotes: the perceived context is what [run]
    returns there. *)
Definition iteration (context : Context) (s : State)
  : Control * State * list Event :=
  let p := perceive a context in
  let s1 := addLogs (emitted p) s in
  match outcome p with
  | inl e => (Raise e, s1, [EvThrow Perceive e])
  | inr perceivedCtx =>
      let d := decide a perceivedCtx in
      let s2 := addLogs (emitted d) s1 in
      match outcome d with
      | inl e => (Raise e, s2, [EvPerceive; EvThrow Decide e])
      | inr [] =>
          (Done perceivedCtx,
           addLog "no-actions" "No further actions required" s2,
           [EvPerceive; EvDecide 0])
      | inr actions =>
          let c := act a perceivedCtx actions in
          let s3 := addLogs (emitted c) s2 in
          match outcome c with
          | inl e =>
              (Raise e, s3,
               [EvPerceive; EvDecide (length actions); EvThrow Act e])
          | inr context1 =>
              let r := reflect a context1 in
              let s4 := addLogs (emitted r) s3 in
              match outcome r with
              | inl e =>
                  (Raise e, s4,
                   [EvPerceive; EvDecide (length actions); EvAct;
                    EvThrow Reflect e])
              | inr (complete, context2) =>
                  (if complete then Done context2 else Next context2, s4,
                   [EvPerceive; EvDecide (length actions); EvAct;
                    EvReflect complete])
              end
          end
      end
  end.

(** [for (let i = 0; i < MAX_ITERATIONS; i++)], by the number of
    iterations left. *)
Fixpoint loop (left : nat) (context : Context) (s : State)
  : (Error + Context) * State * list Event :=
  match left with
  | O => (inr context, s, [])
  | S left' =>
      match iteration context s with
      | (Raise e, s', ev) => (inl e, s', ev)
      | (Done context', s', ev) => (inr context', s', ev)
      | (Next context', s', ev) =>
          match loop left' context' s' with
          | (r, s'', ev') => (r, s'', (ev ++ ev')%list)
          end
      end
  end.

Definition MAX_ITERATIONS : nat := 5.

(** [run(context)]: the result is the settled promise ([inl] rejected,
    [inr] fulfilled with the context; the [log] of the returned pair is
    the agent's own log array, found in the state), the state of the
    agent afterwards, and the trace. *)
Definition run (context : Context) (s : State)
  : (Error + Context) * State * list Event :=
  let s0 := addLog "start" ("Agent " +:+ name a +:+ " starting")
                   (set_status "running" s) in
  match loop MAX_ITERATIONS context s0 with
  | (inr context', s1, ev) =>
      (inr context',
       addLog "complete" ("Agent " +:+ name a +:+ " finished successfully")
              (set_status "completed" s1),
       ev)
  | (inl err, s1, ev) =>
      (inl err, addLog "error" (message err) (set_status "error" s1), ev)
  end.

(** How one pass of the loop body ends depends on the context alone:
    the methods never read the fields of the agent. *)
Definition pass (context : Context) : Control :=
  match outcome (perceive a context) with
  | inl e => Raise e
  | inr perceivedCtx =>
      match outcome (decide a perceivedCtx) with
      | inl e => Raise e
      | inr [] => Done perceivedCtx
      | inr actions =>
          match outcome (act a perceivedCtx actions) with
          | inl e => Raise e
          | inr context1 =>
              match outcome (reflect a context1) with
              | inl e => Raise e
              | inr (complete, context2) =>
                  if complete then Done context2 else Next context2
              end
          end
      end
  end.

(** The outcome of the loop depends on the context alone. *)
Fixpoint passes (n : nat) (context : Context) : Error + Context :=
  match n with
  | O => inr context
  | S n' =>
      match pass context with
      | Raise e => inl e
      | Done context' => inr context'
      | Next context' => passes n' context'
      end
  end.

Definition is_perceive (e : Event) : bool :=
  match e with EvPerceive => true | _ => false end.

Definition is_act (e : Event) : bool :=
  match e with EvAct => true | _ => false end.

(** The traces one pass can leave, with how the pass ends. *)
Inductive pass_trace : Control -> list Event -> Prop :=
| pt_perceive_throws e :
    pass_trace (Raise e) [EvThrow Perceive e]
| pt_decide_throws e :
    pass_trace (Raise e) [EvPerceive; EvThrow Decide e]
| pt_no_actions c :
    pass_trace (Done c) [EvPerceive; EvDecide 0]
| pt_act_throws e n :
    pass_trace (Raise e) [EvPerceive; EvDecide (S n); EvThrow Act e]
| pt_reflect_throws e n :
    pass_trace (Raise e) [EvPerceive; EvDecide (S n); EvAct; EvThrow Reflect e]
| pt_complete c n :
    pass_trace (Done c) [EvPerceive; EvDecide (S n); EvAct; EvReflect true]
| pt_continue c n :
    pass_trace (Next c) [EvPerceive; EvDecide (S n); EvAct; EvReflect false].

End Run.

End BaseAgent.

(* ================================================================== *)
(** * 5. The four agents                                               *)
(* ================================================================== *)

(** [for (const x of l) { ... }] with a body that may log and throw. *)
Fixpoint foldP {A B} (f : A -> B -> Phase A) (l : list B) (a : A) : Phase A :=
  match l with
  | [] => ret a
  | x :: r => let* a' := f a x in foldP f r a'
  end.

(** [l.filter(f).length]. *)
Definition count {A} (f : A -> bool) (l : list A) : nat := length (List.filter f l).

(** [table[k]] on an object literal: an own entry, a member inherited
    from [Object.prototype] (each of them a truthy value that is no entry
    of the table), or nothing. *)
Inductive Lookup (A : Type) :=
| Own (x : A)
| Inherited
| Absent.
Arguments Own {A} _.
Arguments Inherited {A}.
Arguments Absent {A}.

Definition object_prototype_members : list string :=
  [ "constructor"; "__proto__"; "hasOwnProperty"; "isPrototypeOf";
    "propertyIsEnumerable"; "toLocaleString"; "toString"; "valueOf";
    "__defineGetter__"; "__defineSetter__"; "__lookupGetter__";
    "__lookupSetter__" ].

Fixpoint assoc {A} (table : list (string * A)) (k : string) : option A :=
  match table with
  | [] => None
  | (k', x) :: r => if String.eqb k' k then Some x else assoc r k
  end.

Definition literal_lookup {A} (table : list (string * A)) (k : string) : Lookup A :=
  match assoc table k with
  | Some x => Own x
  | None =>
      if existsb (String.eqb k) object_prototype_members then Inherited
      else Absent
  end.

(* ------------------------------------------------------------------ *)
(** ** 5.1 HRAgent                                                     *)
(* ------------------------------------------------------------------ *)

Module HRAgent.
Import Js JsP.

Definition name : string := "HR Agent".

Inductive Action :=
| request_documents (documents : list Doc.t)
| assign_policy_acknowledgments (policies : list string)
| initiate_benefits_enrollment.

Definition requiredDocs : list Doc.t :=
  [ Doc.mk "government_id" "Government-issued ID";
    Doc.mk "tax_w4" "W-4 Tax Withholding Form";
    Doc.mk "i9_form" "I-9 Employment Eligibility";
    Doc.mk "direct_deposit" "Direct Deposit Authorization";
    Doc.mk "emergency_contact" "Emergency Contact Form";
    Doc.mk "nda" "Non-Disclosure Agreement" ].

Definition policies : list string :=
  [ "code_of_conduct"; "data_privacy"; "remote_work"; "anti_harassment" ].

(** [l.find((d) => d.id === id)], as the test [!l.find(...)] reads it:
    whether an element was found.  The callback reads [d.id] of every
    element up to the first match. *)
Fixpoint find_id (l : list val) (id : string) : Phase bool :=
  match l with
  | [] => ret false
  | d :: r =>
      let* v := prop d "id" in
      if is_str v id then ret true else find_id r id
  end.

(** [submitted.find(...)]: only an array has [find]. *)
Definition submitted_has (submitted : val) (id : string) : Phase bool :=
  match submitted with
  | VArr l => find_id l id
  | _ => throw "submitted.find is not a function"
  end.

Definition perceive (context : Context) : Phase Context :=
  let employee := employee context in
  let submitted := or (get (props employee) "documents") (VArr []) in
  let* missing :=
    filterP (fun doc => let* found := submitted_has submitted (Doc.id doc) in
                        ret (negb found)) requiredDocs in
  ret (mkContext employee
         (Some (HRPerception.mk requiredDocs missing submitted))
         (itPerception context) (trainingPerception context)
         (buddyPerception context)).

Definition decide (context : Context) : Phase (list Action) :=
  match hrPerception context with
  | None => throw "Cannot destructure property 'missing' of undefined"
  | Some p =>
      let missing := HRPerception.missing p in
      let actions1 :=
        if (0 <? length missing)%nat then [request_documents missing] else [] in
      let acknowledged :=
        or (get (props (employee context)) "policiesAcknowledged") (VArr []) in
      let* pendingPolicies :=
        filterP (fun p => let* b := includes acknowledged p in ret (negb b))
                policies in
      let actions2 :=
        if (0 <? length pendingPolicies)%nat
        then [assign_policy_acknowledgments pendingPolicies] else [] in
      let actions3 :=
        if truthy (get (props (employee context)) "benefitsEnrollmentStarted")
        then [] else [initiate_benefits_enrollment] in
      ret (actions1 ++ actions2 ++ actions3)%list
  end.

Definition document_task (doc : Doc.t) : Task.t :=
  Task.mk ("hr-doc-" +:+ Doc.id doc) name "document_upload"
          ("Upload: " +:+ Doc.label doc) "pending" "high" (Some 3)
          "HR Documents" None None.

Definition policy_label (policy : string) : string :=
  capitalize_words false (underscores_to_spaces policy).

Definition policy_task (policy : string) : Task.t :=
  Task.mk ("hr-policy-" +:+ policy) name "policy_acknowledgment"
          ("Acknowledge: " +:+ policy_label policy +:+ " Policy") "pending"
          "medium" (Some 5) "Policies" None None.

Definition benefits_task : Task.t :=
  Task.mk "hr-benefits-enrollment" name "benefits_enrollment"
          "Complete Benefits Enrollment" "pending" "medium" (Some 14)
          "Benefits" None None.

(** One round of the [switch] in [act]. *)
Definition act_on (context : Context) (action : Action) : Phase Context :=
  match action with
  | request_documents documents =>
      let context := push_tasks context (List.map document_task documents) in
      let* _ := addLogReq "request_documents"
                  ("Requested " +:+ pretty (length documents) +:+ " documents") in
      ret context
  | assign_policy_acknowledgments policies =>
      let context := push_tasks context (List.map policy_task policies) in
      let* _ := addLogReq "assign_policies"
                  ("Assigned " +:+ pretty (length policies)
                   +:+ " policy acknowledgments") in
      ret context
  | initiate_benefits_enrollment =>
      let context := set_prop context "benefitsEnrollmentStarted" (VBool true) in
      let context := push_task context benefits_task in
      let* _ := addLogReq "benefits_enrollment" "Initiated benefits enrollment" in
      ret context
  end.

Definition act (context : Context) (actions : list Action) : Phase Context :=
  foldP act_on actions context.

Definition reflect (context : Context) : Phase (bool * Context) :=
  let hrTasks :=
    List.filter (fun t => String.eqb (Task.agent t) name)
                (tasks (employee context)) in
  let pendingCount := count (fun t => String.eqb (Task.status t) "pending") hrTasks in
  let* _ := addLogReq "reflect"
              ("HR onboarding: " +:+ pretty (length hrTasks)
               +:+ " tasks created, " +:+ pretty pendingCount +:+ " pending") in
  ret (true, context).

(** The tasks an action adds, and the ids of all the tasks the agent
    can create. *)
Definition action_tasks (action : Action) : list Task.t :=
  match action with
  | request_documents documents => List.map document_task documents
  | assign_policy_acknowledgments policies => List.map policy_task policies
  | initiate_benefits_enrollment => [benefits_task]
  end.

Definition ids : list string :=
  (List.map (fun doc => Task.id (document_task doc)) requiredDocs
   ++ List.map (fun policy => Task.id (policy_task policy)) policies
   ++ [Task.id benefits_task])%list.

(** An employee for whom HR has nothing left to ask: every required
    document is among the submitted ones (an array of objects, none of
    them null or undefined), every policy is acknowledged, and the
    benefits enrollment has started. *)
Definition satisfied (e : obj) : Prop :=
  (exists docs,
      get e "documents" = VArr docs
      /\ Forall (fun d => d <> VUndef /\ d <> VNull) docs
      /\ Forall (fun doc => exists o, In (VObj o) docs
                                      /\ get o "id" = VStr (Doc.id doc))
                requiredDocs)
  /\ (exists acknowledged,
        get e "policiesAcknowledged" = VArr acknowledged
        /\ Forall (fun policy => In (VStr policy) acknowledged) policies)
  /\ truthy (get e "benefitsEnrollmentStarted") = true.

Definition impl : BaseAgent.Impl :=
  BaseAgent.mkImpl Action name perceive decide act reflect.

End HRAgent.

(* ------------------------------------------------------------------ *)
(** ** 5.2 ITSetupAgent                                                *)
(* ------------------------------------------------------------------ *)

Module ITSetupAgent.
Import Js JsP.

Definition name : string := "IT Setup Agent".

Inductive Action :=
| provision_email (email : string)
| assign_software (software : list string)
| request_hardware (hardware : list string)
| configure_access (access : list string).

(** A size in inches, written with the inch mark. *)
Definition inch (s : string) : string := s +:+ String dquote EmptyString.

Definition engineering : Profile.t :=
  Profile.mk
    [ "IDE License"; "GitHub Enterprise"; "Jira"; "Slack"; "AWS Console" ]
    [ inch "MacBook Pro 16"; inch "External Monitor 27"; "Mechanical Keyboard";
      "USB-C Hub" ]
    [ "VPN"; "CI/CD Pipeline"; "Staging Servers"; "Code Repositories" ].

Definition design : Profile.t :=
  Profile.mk
    [ "Figma Enterprise"; "Adobe Creative Suite"; "Slack"; "Jira" ]
    [ inch "MacBook Pro 16"; inch "External Monitor 32" +:+ " 4K";
      "Wacom Tablet" ]
    [ "VPN"; "Design Asset Library"; "Brand Portal" ].

Definition product : Profile.t :=
  Profile.mk
    [ "Jira"; "Confluence"; "Slack"; "Amplitude"; "Mixpanel" ]
    [ inch "MacBook Pro 14"; inch "External Monitor 27" ]
    [ "VPN"; "Analytics Dashboard"; "Customer Feedback Portal" ].

Definition sales : Profile.t :=
  Profile.mk
    [ "Salesforce"; "Slack"; "Zoom Pro"; "DocuSign" ]
    [ "MacBook Air"; inch "External Monitor 24" ]
    [ "VPN"; "CRM"; "Sales Playbook" ].

Definition default : Profile.t :=
  Profile.mk
    [ "Slack"; "Google Workspace"; "Zoom" ]
    [ "Laptop"; inch "External Monitor 24" ]
    [ "VPN"; "Company Intranet" ].

Definition roleProfiles : list (string * Profile.t) :=
  [ ("engineering", engineering); ("design", design); ("product", product);
    ("sales", sales); ("default", default) ].

(** [roleProfiles[department] || roleProfiles.default].  An inherited
    member is truthy and is kept; it has no software, hardware or access
    property, which [None] records. *)
Definition profile_for (department : string) : option Profile.t :=
  match literal_lookup roleProfiles department with
  | Own p => Some p
  | Inherited => None
  | Absent => Some default
  end.

Definition perceive (context : Context) : Phase Context :=
  let employee := employee context in
  let* department := lower_or (get (props employee) "department") "default" in
  ret (mkContext employee (hrPerception context)
         (Some (ITPerception.mk (profile_for department) department
                  (or (get (props employee) "accounts") (VArr []))
                  (or (get (props employee) "hardware") (VArr []))))
         (trainingPerception context) (buddyPerception context)).

(** [l.filter((s) => !existing.includes(s))]. *)
Definition not_in (existing : val) (l : list string) : Phase (list string) :=
  filterP (fun s => let* b := includes existing s in ret (negb b)) l.

Definition decide (context : Context) : Phase (list Action) :=
  match itPerception context with
  | None => throw "Cannot destructure property 'profile' of undefined"
  | Some p =>
      let employee := employee context in
      let* actions1 :=
        if truthy (get (props employee) "emailProvisioned") then ret []
        else
          let* first := opt_lower (get (props employee) "firstName") in
          let* last := opt_lower (get (props employee) "lastName") in
          ret [provision_email (first +:+ "." +:+ last +:+ "@company.com")] in
      match ITPerception.profile p with
      | None => throw "Cannot read properties of undefined (reading 'filter')"
      | Some profile =>
          let* neededSoftware :=
            not_in (ITPerception.existingAccounts p) (Profile.software profile) in
          let actions2 :=
            if (0 <? length neededSoftware)%nat
            then [assign_software neededSoftware] else [] in
          let* neededHardware :=
            not_in (ITPerception.existingHardware p) (Profile.hardware profile) in
          let actions3 :=
            if (0 <? length neededHardware)%nat
            then [request_hardware neededHardware] else [] in
          ret (actions1 ++ actions2 ++ actions3
               ++ [configure_access (Profile.access profile)])%list
      end
  end.

Definition email_task (email : string) : Task.t :=
  Task.mk "it-email-setup" name "auto_provisioned"
          ("Email provisioned: " +:+ email) "completed" "high" None
          "IT Accounts" None None.

(** [sw.toLowerCase().replace(/\s+/g, '-')]. *)
Definition software_slug (sw : string) : string :=
  replace_runs is_space false (toLowerCase sw).

Definition software_task (sw : string) : Task.t :=
  Task.mk ("it-sw-" +:+ software_slug sw) name "auto_provisioned"
          ("License assigned: " +:+ sw) "completed" "medium" None
          "Software Licenses" None None.

(** [hw.toLowerCase()] with every run of blanks and double quotes
    replaced by a dash. *)
Definition hardware_slug (hw : string) : string :=
  replace_runs (fun c => is_space c || is_char dquote c) false (toLowerCase hw).

Definition hardware_task (hw : string) : Task.t :=
  Task.mk ("it-hw-" +:+ hardware_slug hw) name "hardware_request"
          ("Hardware: " +:+ hw) "in_progress" "high" (Some 5) "Hardware"
          (Some "Procurement order placed – shipping in progress") None.

(** [acc.toLowerCase().replace(/[\s/]+/g, '-')]. *)
Definition access_slug (acc : string) : string :=
  replace_runs (fun c => is_space c || is_char "/" c) false (toLowerCase acc).

Definition access_task (acc : string) : Task.t :=
  Task.mk ("it-access-" +:+ access_slug acc) name "auto_provisioned"
          ("Access granted: " +:+ acc) "completed" "high" None
          "Security & Access" None None.

Definition act_on (context : Context) (action : Action) : Phase Context :=
  match action with
  | provision_email email =>
      let context := set_prop context "emailProvisioned" (VBool true) in
      let context := set_prop context "email" (VStr email) in
      let context := push_task context (email_task email) in
      let* _ := addLogReq "provision_email" ("Created email: " +:+ email) in
      ret context
  | assign_software software =>
      let context := push_tasks context (List.map software_task software) in
      let* accounts :=
        spread (or (get (props (employee context)) "accounts") (VArr [])) in
      let context :=
        set_prop context "accounts" (VArr (accounts ++ List.map VStr software)) in
      let* _ := addLogReq "assign_software"
                  ("Assigned " +:+ pretty (length software) +:+ " licenses") in
      ret context
  | request_hardware hardware =>
      let context := push_tasks context (List.map hardware_task hardware) in
      let* _ := addLogReq "request_hardware"
                  ("Requested " +:+ pretty (length hardware)
                   +:+ " hardware items") in
      ret context
  | configure_access access =>
      let context := push_tasks context (List.map access_task access) in
      let* _ := addLogReq "configure_access"
                  ("Configured " +:+ pretty (length access) +:+ " access grants") in
      ret context
  end.

Definition act (context : Context) (actions : list Action) : Phase Context :=
  foldP act_on actions context.

Definition reflect (context : Context) : Phase (bool * Context) :=
  let itTasks :=
    List.filter (fun t => String.eqb (Task.agent t) name)
                (tasks (employee context)) in
  let auto := count (fun t => String.eqb (Task.type t) "auto_provisioned") itTasks in
  let pending :=
    count (fun t => negb (String.eqb (Task.status t) "completed")) itTasks in
  let* _ := addLogReq "reflect"
              ("IT setup: " +:+ pretty auto +:+ " auto-provisioned, "
               +:+ pretty pending +:+ " awaiting fulfillment") in
  ret (true, context).

(** The tasks an action adds, and the ids of all the tasks the agent
    can create for a profile. *)
Definition action_tasks (action : Action) : list Task.t :=
  match action with
  | provision_email email => [email_task email]
  | assign_software software => List.map software_task software
  | request_hardware hardware => List.map hardware_task hardware
  | configure_access access => List.map access_task access
  end.

Definition ids (profile : Profile.t) : list string :=
  ([Task.id (email_task EmptyString)]
   ++ List.map (fun sw => Task.id (software_task sw)) (Profile.software profile)
   ++ List.map (fun hw => Task.id (hardware_task hw)) (Profile.hardware profile)
   ++ List.map (fun acc => Task.id (access_task acc)) (Profile.access profile))%list.

(** An employee of the given profile for whom IT has no gap left: the
    email is provisioned, every software of the profile is among the
    accounts and every hardware of the profile among the hardware. *)
Definition satisfied (e : obj) (profile : Profile.t) : Prop :=
  (exists department,
      or (get e "department") (VStr "default") = VStr department
      /\ profile_for (toLowerCase department) = Some profile)
  /\ truthy (get e "emailProvisioned") = true
  /\ (exists accounts,
        get e "accounts" = VArr accounts
        /\ Forall (fun sw => In (VStr sw) accounts) (Profile.software profile))
  /\ (exists hardware,
        get e "hardware" = VArr hardware
        /\ Forall (fun hw => In (VStr hw) hardware) (Profile.hardware profile)).

Definition impl : BaseAgent.Impl :=
  BaseAgent.mkImpl Action name perceive decide act reflect.

End ITSetupAgent.

(* ------------------------------------------------------------------ *)
(** ** 5.3 TrainingAgent                                               *)
(* ------------------------------------------------------------------ *)

Module TrainingAgent.
Import Js JsP.

Definition name : string := "Training Agent".

Inductive Action :=
| assign_modules (modules : list TrainingModule.t)
| schedule_manager_meeting
| schedule_team_intro.

Definition companyWideModules : list TrainingModule.t :=
  [ TrainingModule.mk "company-overview" "Company Overview & Mission" "45 min" "video";
    TrainingModule.mk "security-awareness" "Security Awareness Training" "30 min" "interactive";
    TrainingModule.mk "dei-training" "Diversity, Equity & Inclusion" "60 min" "workshop";
    TrainingModule.mk "tools-intro" "Internal Tools & Systems Overview" "90 min" "hands-on" ].

Definition engineering : list TrainingModule.t :=
  [ TrainingModule.mk "eng-architecture" "System Architecture Deep Dive" "120 min" "hands-on";
    TrainingModule.mk "eng-git-workflow" "Git Workflow & Code Review Process" "60 min" "hands-on";
    TrainingModule.mk "eng-ci-cd" "CI/CD Pipeline Walkthrough" "45 min" "video";
    TrainingModule.mk "eng-oncall" "On-Call Procedures & Incident Response" "60 min" "interactive" ].

Definition design : list TrainingModule.t :=
  [ TrainingModule.mk "des-system" "Design System & Brand Guidelines" "90 min" "workshop";
    TrainingModule.mk "des-research" "User Research Methods" "60 min" "video";
    TrainingModule.mk "des-accessibility" "Accessibility Standards (WCAG)" "45 min" "interactive" ].

Definition product : list TrainingModule.t :=
  [ TrainingModule.mk "pm-roadmap" "Product Roadmap & Strategy" "90 min" "workshop";
    TrainingModule.mk "pm-analytics" "Analytics & Data-Driven Decisions" "60 min" "hands-on";
    TrainingModule.mk "pm-customer" "Customer Journey Mapping" "45 min" "interactive" ].

Definition sales : list TrainingModule.t :=
  [ TrainingModule.mk "sales-product" "Product Knowledge Bootcamp" "120 min" "workshop";
    TrainingModule.mk "sales-crm" "CRM & Sales Tools Training" "60 min" "hands-on";
    TrainingModule.mk "sales-pitch" "Sales Pitch & Demo Skills" "90 min" "workshop" ].

Definition roleModules : list (string * list TrainingModule.t) :=
  [ ("engineering", engineering); ("design", design); ("product", product);
    ("sales", sales); ("default", []) ].

(** [roleModules[department] || roleModules.default]; every own entry is
    an array and so truthy, the empty one included. *)
Definition rolePath_for (department : string) : option (list TrainingModule.t) :=
  match literal_lookup roleModules department with
  | Own l => Some l
  | Inherited => None
  | Absent => Some []
  end.

Definition perceive (context : Context) : Phase Context :=
  let employee := employee context in
  let* department := lower_or (get (props employee) "department") "default" in
  ret (mkContext employee (hrPerception context) (itPerception context)
         (Some (TrainingPerception.mk companyWideModules
                  (rolePath_for department)
                  (or (get (props employee) "completedTraining") (VArr []))
                  department))
         (buddyPerception context)).

Definition decide (context : Context) : Phase (list Action) :=
  match trainingPerception context with
  | None => throw "Cannot destructure property 'companyWideModules' of undefined"
  | Some p =>
      match TrainingPerception.roleModules p with
      | None => throw "roleModules is not iterable"
      | Some roleModules =>
          let allModules :=
            (TrainingPerception.companyWideModules p ++ roleModules)%list in
          let* pendingModules :=
            filterP (fun m =>
                       let* b := includes (TrainingPerception.completedModules p)
                                          (TrainingModule.id m) in
                       ret (negb b)) allModules in
          let actions1 :=
            if (0 <? length pendingModules)%nat
            then [assign_modules pendingModules] else [] in
          let actions2 :=
            if truthy (get (props (employee context)) "managerMeetingScheduled")
            then [] else [schedule_manager_meeting] in
          let actions3 :=
            if truthy (get (props (employee context)) "teamIntroScheduled")
            then [] else [schedule_team_intro] in
          ret (actions1 ++ actions2 ++ actions3)%list
      end
  end.

Definition module_task (priority : string) (due : Z) (category : string)
    (mod_ : TrainingModule.t) : Task.t :=
  Task.mk ("training-" +:+ TrainingModule.id mod_) name "training_module"
          (TrainingModule.title mod_) "pending" priority (Some due) category None
          (Some (Metadata.mk (TrainingModule.duration mod_)
                             (TrainingModule.type mod_))).

Definition manager_task : Task.t :=
  Task.mk "training-manager-1on1" name "meeting" "1:1 Meeting with Manager"
          "pending" "high" (Some 2) "Meetings"
          (Some "Introductory 1:1 – discuss role expectations, goals, and questions")
          None.

Definition team_intro_task : Task.t :=
  Task.mk "training-team-intro" name "meeting" "Team Introduction Session"
          "pending" "medium" (Some 3) "Meetings"
          (Some "Meet the team – informal introduction and Q&A") None.

Definition act_on (context : Context) (action : Action) : Phase Context :=
  match action with
  | assign_modules modules =>
      let weekOne := firstn 4 modules in
      let weekTwo := skipn 4 modules in
      let context :=
        push_tasks context
          (List.map (module_task "high" 7 "Week 1 Training") weekOne) in
      let context :=
        push_tasks context
          (List.map (module_task "medium" 14 "Week 2 Training") weekTwo) in
      let* _ := addLogReq "assign_modules"
                  ("Assigned " +:+ pretty (length modules)
                   +:+ " training modules") in
      ret context
  | schedule_manager_meeting =>
      let context := set_prop context "managerMeetingScheduled" (VBool true) in
      let context := push_task context manager_task in
      let* _ := addLogReq "schedule_meeting" "Scheduled manager 1:1" in
      ret context
  | schedule_team_intro =>
      let context := set_prop context "teamIntroScheduled" (VBool true) in
      let context := push_task context team_intro_task in
      let* _ := addLogReq "schedule_meeting" "Scheduled team introduction" in
      ret context
  end.

Definition act (context : Context) (actions : list Action) : Phase Context :=
  foldP act_on actions context.

Definition reflect (context : Context) : Phase (bool * Context) :=
  let trainingTasks :=
    List.filter (fun t => String.eqb (Task.agent t) name)
                (tasks (employee context)) in
  let modules :=
    count (fun t => String.eqb (Task.type t) "training_module") trainingTasks in
  let meetings := count (fun t => String.eqb (Task.type t) "meeting") trainingTasks in
  let* _ := addLogReq "reflect"
              ("Training plan: " +:+ pretty modules +:+ " modules + "
               +:+ pretty meetings +:+ " meetings assigned") in
  ret (true, context).

(** The tasks an action adds, and the ids of all the tasks the agent
    can create for a role path. *)
Definition action_tasks (action : Action) : list Task.t :=
  match action with
  | assign_modules modules =>
      (List.map (module_task "high" 7 "Week 1 Training") (firstn 4 modules)
       ++ List.map (module_task "medium" 14 "Week 2 Training") (skipn 4 modules))%list
  | schedule_manager_meeting => [manager_task]
  | schedule_team_intro => [team_intro_task]
  end.

Definition ids (rolePath : list TrainingModule.t) : list string :=
  (List.map (fun m => "training-" +:+ TrainingModule.id m)
            (companyWideModules ++ rolePath)
   ++ [Task.id manager_task; Task.id team_intro_task])%list.

(** An employee of the given role path for whom Training has nothing
    left to assign: every module, company-wide or of the role, is among
    the completed ones, and both meetings are scheduled. *)
Definition satisfied (e : obj) (rolePath : list TrainingModule.t) : Prop :=
  (exists department,
      or (get e "department") (VStr "default") = VStr department
      /\ rolePath_for (toLowerCase department) = Some rolePath)
  /\ (exists completed,
        get e "completedTraining" = VArr completed
        /\ Forall (fun m => In (VStr (TrainingModule.id m)) completed)
                  (companyWideModules ++ rolePath))
  /\ truthy (get e "managerMeetingScheduled") = true
  /\ truthy (get e "teamIntroScheduled") = true.

Definition impl : BaseAgent.Impl :=
  BaseAgent.mkImpl Action name perceive decide act reflect.

End TrainingAgent.

(* ------------------------------------------------------------------ *)
(** ** 5.4 BuddyAgent                                                  *)
(* ------------------------------------------------------------------ *)

Module BuddyAgent.
Import Js JsP.

Definition name : string := "Buddy Agent".

(** The action [assign_buddy] carries [candidates[0]], which is
    undefined when there is no candidate. *)
Inductive Action :=
| assign_buddy (buddy : option Scored.t)
| schedule_check_ins.

(** The pool the constructor installs in [this.buddyPool]. *)
Definition buddyPool : list Buddy.t :=
  [ Buddy.mk "b1" "Sarah Chen" "engineering" "senior" 49;
    Buddy.mk "b2" "Marcus Johnson" "engineering" "lead" 48;
    Buddy.mk "b3" "Priya Patel" "design" "senior" 49;
    Buddy.mk "b4" "Alex Rivera" "product" "senior" 47;
    Buddy.mk "b5" "Jordan Kim" "sales" "lead" 48;
    Buddy.mk "b6" "Emily Thompson" "engineering" "staff" 50;
    Buddy.mk "b7" "David O'Brien" "product" "director" 46;
    Buddy.mk "b8" "Lisa Nakamura" "design" "lead" 49 ].

(** The callback of [this.buddyPool.map]: the rating, plus 3 when the
    department of the buddy is the (lower-cased) department of the
    employee. *)
Definition score_buddy (department : string) (buddy : Buddy.t) : Scored.t :=
  let score := Buddy.rating buddy in
  let score :=
    if String.eqb (Buddy.department buddy) department then score + 30 else score in
  Scored.mk buddy score.

(** [scored.sort((a, b) => b.score - a.score)].  The sort of an array is
    stable, and the result of a stable sort is determined by the
    comparison; it is computed here by insertion, an element going in
    front of the first one whose score is not greater than its own. *)
Fixpoint insert_by_score (x : Scored.t) (l : list Scored.t) : list Scored.t :=
  match l with
  | [] => [x]
  | y :: r =>
      if Scored.score x <? Scored.score y then y :: insert_by_score x r
      else x :: y :: r
  end.

Fixpoint sort_by_score (l : list Scored.t) : list Scored.t :=
  match l with
  | [] => []
  | x :: r => insert_by_score x (sort_by_score r)
  end.

Section WithPool.

Variable pool : list Buddy.t.

Definition perceive (context : Context) : Phase Context :=
  let employee := employee context in
  let* department := lower_or (get (props employee) "department") EmptyString in
  let scored := sort_by_score (List.map (score_buddy department) pool) in
  ret (mkContext employee (hrPerception context) (itPerception context)
         (trainingPerception context)
         (Some (BuddyPerception.mk (firstn 3 scored)
                  (truthy (get (props employee) "buddy"))))).

Definition decide (context : Context) : Phase (list Action) :=
  match buddyPerception context with
  | None => throw "Cannot read properties of undefined (reading 'alreadyAssigned')"
  | Some p =>
      let actions1 :=
        if BuddyPerception.alreadyAssigned p then []
        else [assign_buddy (head (BuddyPerception.candidates p))] in
      let actions2 :=
        if truthy (get (props (employee context)) "checkInsScheduled") then []
        else [schedule_check_ins] in
      ret (actions1 ++ actions2)%list
  end.

Definition intro_task (buddy : Scored.t) : Task.t :=
  let b := Scored.buddy buddy in
  Task.mk "buddy-intro-meeting" name "meeting"
          ("Meet your buddy: " +:+ Buddy.name b) "pending" "high" (Some 2)
          "Buddy Program"
          (Some (Buddy.name b +:+ " (" +:+ Buddy.department b +:+ ", "
                 +:+ Buddy.seniority b
                 +:+ ") will be your onboarding buddy for the first 90 days"))
          None.

Definition checkIns : list (Z * string) :=
  [ (7, "Week 1 Check-in with Buddy");
    (14, "Week 2 Check-in with Buddy");
    (30, "Day 30 Review with Buddy & Manager");
    (60, "Day 60 Mid-Point Review");
    (90, "Day 90 Final Onboarding Review") ].

Definition checkin_task (ci : Z * string) : Task.t :=
  Task.mk ("buddy-checkin-day" +:+ pretty (fst ci)) name "check_in" (snd ci)
          "pending" (if fst ci <=? 14 then "medium" else "low") (Some (fst ci))
          "Buddy Program" None None.

Definition act_on (context : Context) (action : Action) : Phase Context :=
  match action with
  | assign_buddy None =>
      throw "Cannot read properties of undefined (reading 'name')"
  | assign_buddy (Some buddy) =>
      let context := set_prop context "buddy" (Scored.to_val buddy) in
      let context := push_task context (intro_task buddy) in
      let* _ := addLogReq "assign_buddy"
                  ("Matched with buddy: " +:+ Buddy.name (Scored.buddy buddy)) in
      ret context
  | schedule_check_ins =>
      let context := set_prop context "checkInsScheduled" (VBool true) in
      let context := push_tasks context (List.map checkin_task checkIns) in
      let* _ := addLogReq "schedule_check_ins"
                  "Scheduled 5 check-ins over 90 days" in
      ret context
  end.

Definition act (context : Context) (actions : list Action) : Phase Context :=
  foldP act_on actions context.

(** [buddy.score?.toFixed(1)] inside the template literal. *)
Definition score_text (buddy : val) : Phase string :=
  let* score := prop buddy "score" in
  match score with
  | VUndef | VNull => ret "undefined"
  | VNum n => ret (toFixed1 n)
  | _ => throw "toFixed is not a function"
  end.

Definition reflect (context : Context) : Phase (bool * Context) :=
  let buddy := get (props (employee context)) "buddy" in
  let* detail :=
    if truthy buddy then
      let* name := prop buddy "name" in
      let* name := to_string name in
      let* score := score_text buddy in
      ret ("Buddy assigned: " +:+ name +:+ " (score: " +:+ score +:+ ")")
    else ret "No buddy assignment needed" in
  let* _ := addLogReq "reflect" detail in
  ret (true, context).

(** An employee for whom the Buddy agent has nothing left to do: a
    buddy is assigned and the check-ins are scheduled. *)
Definition satisfied (e : obj) : Prop :=
  (exists department,
      or (get e "department") (VStr EmptyString) = VStr department)
  /\ truthy (get e "buddy") = true
  /\ truthy (get e "checkInsScheduled") = true.

(** The tasks an action adds, and the ids of all the tasks the agent
    can create. *)
Definition action_tasks (action : Action) : list Task.t :=
  match action with
  | assign_buddy None => []
  | assign_buddy (Some buddy) => [intro_task buddy]
  | schedule_check_ins => List.map checkin_task checkIns
  end.

Definition ids : list string :=
  ("buddy-intro-meeting" :: List.map (fun ci => Task.id (checkin_task ci)) checkIns)%list.

Definition impl : BaseAgent.Impl :=
  BaseAgent.mkImpl Action name perceive decide act reflect.

End WithPool.

End BuddyAgent.

(** [starts_with p s]: the string [s] begins with [p]. *)
Fixpoint starts_with (p s : string) : bool :=
  match p, s with
  | EmptyString, _ => true
  | String a p, String b s => Ascii.eqb a b && starts_with p s
  | String _ _, EmptyString => false
  end.

(** The prefix each agent gives to the ids of its tasks. *)
Definition namespace (agent : string) : string :=
  if String.eqb agent HRAgent.name then "hr-"
  else if String.eqb agent ITSetupAgent.name then "it-"
  else if String.eqb agent TrainingAgent.name then "training-"
  else if String.eqb agent BuddyAgent.name then "buddy-"
  else EmptyString.

(** A task of one of the four agents whose id starts with the prefix of
    that agent. *)
Definition namespaced (t : Task.t) : Prop :=
  namespace (Task.agent t) <> EmptyString
  /\ starts_with (namespace (Task.agent t)) (Task.id t) = true.

(** The three values the program gives to the status of a task. *)
Definition known_status (t : Task.t) : Prop :=
  In (Task.status t) [ "pending"; "in_progress"; "completed" ].

(* ================================================================== *)
(** * 6. Orchestrator                                                  *)
(* ================================================================== *)

(** The state of a promise. *)
Inductive Promise (A : Type) :=
| Pending
| Rejected (reason : Error)
| Fulfilled (value : A).
Arguments Pending {A}.
Arguments Rejected {A} _.
Arguments Fulfilled {A} _.

(** [Promise.allSettled(promises)].  [outcomes] lists, in the order of
    the input array, how each promise settles, and [settled] the order in
    which they do so.  Every settlement is written to the slot of its own
    promise; the result exists once every slot is filled, and the
    combined promise stays pending otherwise. *)
Definition settle {A} (outcomes : list A) (slots : list (option A)) (i : nat)
  : list (option A) :=
  match outcomes !! i with
  | Some r => <[i := Some r]> slots
  | None => slots
  end.

Definition allSettled {A} (outcomes : list A) (settled : list nat)
  : option (list A) :=
  mapM id (fold_left (settle outcomes) settled
                     (replicate (length outcomes) None)).

Module Agent.
(** An agent object: its class and its mutable fields. *)
Record t := mk { impl : BaseAgent.Impl; state : BaseAgent.State }.
End Agent.

Module AgentSummary.
Record t := mk {
  totalActions : nat;
  status : string;
  keyEvents : list string }.
End AgentSummary.

Module Summary.
Record t := mk {
  employeeName : string;
  department : val;
  totalTasks : nat;
  completed : nat;
  inProgress : nat;
  pending : nat;
  orchestrationTimeMs : Z;
  agentSummaries : gmap string AgentSummary.t }.
End Summary.

Module TimelineEntry.
Record t := mk {
  title : string;
  category : string;
  status : string;
  agent : string }.
End TimelineEntry.

Module Orchestrator.
Import Js JsP.

Inductive AgentKey := key_hr | key_it | key_training | key_buddy.

(** [this.agents]. *)
Record t := mk {
  hr : Agent.t;
  it : Agent.t;
  training : Agent.t;
  buddy : Agent.t }.

Definition agent (o : t) (k : AgentKey) : Agent.t :=
  match k with
  | key_hr => hr o
  | key_it => it o
  | key_training => training o
  | key_buddy => buddy o
  end.

(** The constructor. *)
Definition new : t :=
  mk (Agent.mk HRAgent.impl BaseAgent.new)
     (Agent.mk ITSetupAgent.impl BaseAgent.new)
     (Agent.mk TrainingAgent.impl BaseAgent.new)
     (Agent.mk (BuddyAgent.impl BuddyAgent.buddyPool) BaseAgent.new).

(** A value of [agentLogs]: the log array of an agent itself (the array
    is shared with the agent, which keeps appending to it), or the
    one-entry array made up for a rejected run. *)
Inductive Logs :=
| LogOf (k : AgentKey)
| Entries (l : list LogEntry.t).

(** The entries of a value of [agentLogs], read while the orchestrator
    is in state [o]. *)
Definition entries (o : t) (l : Logs) : list LogEntry.t :=
  match l with
  | LogOf k => BaseAgent.log (Agent.state (agent o k))
  | Entries l => l
  end.

Module Plan.
Record t := mk {
  employee : Employee;
  summary : Summary.t;
  agentLogs : gmap string Logs;
  timeline : gmap string (list TimelineEntry.t) }.
End Plan.

(** What one call of [onboard] takes from outside the program: the
    three readings of the clock by [onboard] and [buildSummary], the
    clock of each agent, and the order in which the four runs settle. *)
Record Env := mkEnv {
  startTime : Z;
  onboardingStarted : string;
  endTime : Z;
  clock : AgentKey -> nat -> Z;
  settled : list nat }.

Definition agentNames : list (AgentKey * string) :=
  [ (key_hr, "hr"); (key_it, "it"); (key_training, "training");
    (key_buddy, "buddy") ].

(** [context.employee] as [onboard] first builds it.  The [tasks] array
    is the [tasks] field of the record. *)
Definition initial_employee (env : Env) (employeeData : obj) : Employee :=
  mkEmployee
    (<["onboardingStarted" := VStr (onboardingStarted env)]>
     (<["hardware" := or (get employeeData "hardware") (VArr [])]>
     (<["accounts" := or (get employeeData "accounts") (VArr [])]>
     (<["documents" := or (get employeeData "documents") (VArr [])]>
     (delete "tasks" employeeData)))))
    [].

(** [copyFor()]: a copy of the context whose employee has an empty task
    array and copies of the accounts and hardware arrays. *)
Definition copyFor (context : Context) : Phase Context :=
  let e := employee context in
  let* accounts := spread (get (props e) "accounts") in
  let* hardware := spread (get (props e) "hardware") in
  ret (with_employee context
         (mkEmployee
            (<["hardware" := VArr hardware]>
              (<["accounts" := VArr accounts]> (props e)))
            [])).

(** [Object.assign(target, source)] on employees: every property of the
    source is written to the target, the task array among them. *)
Definition assign (target source : Employee) : Employee :=
  mkEmployee (props source ∪ props target) (tasks source).

(** The state of the merge loop: [context.employee], [mergedTasks] and
    [agentLogs]. *)
Record Merge := mkMerge {
  m_employee : Employee;
  mergedTasks : list Task.t;
  agentLogs : gmap string Logs }.

(** The callback of [results.forEach]. *)
Definition merge_result (m : Merge)
    (x : AgentKey * string * (Error + Context)) : Merge :=
  match x with
  | (k, name, inr context) =>
      mkMerge (assign (m_employee m) (employee context))
              (mergedTasks m ++ tasks (employee context))
              (<[name := LogOf k]> (agentLogs m))
  | (k, name, inl reason) =>
      mkMerge (m_employee m) (mergedTasks m)
              (<[name := Entries [LogEntry.mk None name "error" (message reason)]]>
                 (agentLogs m))
  end.

Definition merge (e : Employee) (results : list (Error + Context)) : Merge :=
  fold_left merge_result (zip agentNames results) (mkMerge e [] ∅).

Definition has_action (a : string) (l : LogEntry.t) : bool :=
  String.eqb (LogEntry.action l) a.

Definition agent_summary (logs : list LogEntry.t) : AgentSummary.t :=
  AgentSummary.mk
    (length logs)
    (if existsb (has_action "error") logs then "error" else "success")
    (List.map LogEntry.detail
       (List.filter
          (fun l => negb (existsb (String.eqb (LogEntry.action l))
                                  ["start"; "complete"]))
          logs)).

Definition has_status (s : string) (t : Task.t) : bool :=
  String.eqb (Task.status t) s.

(** The object [buildSummary] returns, given the string its template
    literal has made of the two names; the log arrays are read in the
    state [o] of the orchestrator. *)
Definition summary_of (o : t) (env : Env) (e : Employee)
    (agentLogs : gmap string Logs) (employeeName : string) : Summary.t :=
  let tasks := tasks e in
  Summary.mk
    employeeName
    (get (props e) "department")
    (length tasks)
    (count (has_status "completed") tasks)
    (count (has_status "in_progress") tasks)
    (count (has_status "pending") tasks)
    (endTime env - startTime env)
    (agent_summary ∘ entries o <$> agentLogs).

(** [buildSummary(context, agentLogs, startTime)].  The template literal
    of [employeeName] converts the first name and then the last name to
    a string, and throws when one of them does not convert. *)
Definition buildSummary (o : t) (env : Env) (e : Employee)
    (agentLogs : gmap string Logs) : Phase Summary.t :=
  let* firstName := to_string (get (props e) "firstName") in
  let* lastName := to_string (get (props e) "lastName") in
  ret (summary_of o env e agentLogs (firstName +:+ " " +:+ lastName)).

(** An employee whose two names convert to strings. *)
Definition printable (e : Employee) : bool :=
  converts (get (props e) "firstName") && converts (get (props e) "lastName").

(** The name in the summary of a printable employee. *)
Definition employeeName (e : Employee) : string :=
  to_str (get (props e) "firstName") +:+ " "
  +:+ to_str (get (props e) "lastName").

(** The bucket of a task: [task.dueInDays ? ... : 'Immediate']. *)
Definition bucket (task : Task.t) : string :=
  match Task.dueInDays task with
  | None => "Immediate"
  | Some d =>
      if d =? 0 then "Immediate"
      else if d <=? 3 then "Day 1-3"
      else if d <=? 7 then "Week 1"
      else if d <=? 14 then "Week 2"
      else if d <=? 30 then "Month 1"
      else "Month 2-3"
  end.

Definition timeline_entry (task : Task.t) : TimelineEntry.t :=
  TimelineEntry.mk (Task.title task) (Task.category task) (Task.status task)
                   (Task.agent task).

Definition buildTimeline (tasks : list Task.t)
  : gmap string (list TimelineEntry.t) :=
  fold_left
    (fun timeline task =>
       <[bucket task :=
           (default [] (timeline !! bucket task) ++ [timeline_entry task])%list]>
         timeline)
    tasks ∅.

(** The entries of the tasks of one bucket, in the order of the tasks. *)
Definition in_bucket (b : string) (tasks : list Task.t) : list TimelineEntry.t :=
  List.map timeline_entry (List.filter (fun t => String.eqb (bucket t) b) tasks).

Definition run_agent (env : Env) (o : t) (k : AgentKey) (context : Context)
  : (Error + Context) * Agent.t :=
  let a := agent o k in
  match BaseAgent.run (clock env k) (Agent.impl a) context (Agent.state a) with
  | (r, s, _) => (r, Agent.mk (Agent.impl a) s)
  end.

(** [onboard(employeeData)]: the promise it returns and the orchestrator
    afterwards.  The four runs work on separate copies of the context
    and on separate agent objects, so each is carried out as a whole.
    A throw of [buildSummary] rejects the promise. *)
Definition onboard (o : t) (env : Env) (employeeData : obj)
  : Promise Plan.t * t :=
  let context := context_of (initial_employee env employeeData) in
  match outcome (copyFor context) with
  | inl e => (Rejected e, o)
  | inr copy =>
      let '(r1, a1) := run_agent env o key_hr copy in
      let '(r2, a2) := run_agent env o key_it copy in
      let '(r3, a3) := run_agent env o key_training copy in
      let '(r4, a4) := run_agent env o key_buddy copy in
      let o' := mk a1 a2 a3 a4 in
      match allSettled [r1; r2; r3; r4] (settled env) with
      | None => (Pending, o')
      | Some results =>
          let m := merge (employee context) results in
          let e := mkEmployee (props (m_employee m)) (mergedTasks m) in
          match outcome (buildSummary o' env e (agentLogs m)) with
          | inl err => (Rejected err, o')
          | inr summary =>
              (Fulfilled
                 (Plan.mk e summary (agentLogs m) (buildTimeline (mergedTasks m))),
               o')
          end
      end
  end.

(** The four runs of one call, seen from outside: their outcomes in the
    order of the array handed to [Promise.allSettled], and the
    orchestrator once they are over. *)
Definition keys : list AgentKey := [key_hr; key_it; key_training; key_buddy].

Definition key_name (k : AgentKey) : string :=
  match k with
  | key_hr => "hr"
  | key_it => "it"
  | key_training => "training"
  | key_buddy => "buddy"
  end.

Definition key_eqb (k1 k2 : AgentKey) : bool :=
  match k1, k2 with
  | key_hr, key_hr | key_it, key_it | key_training, key_training
  | key_buddy, key_buddy => true
  | _, _ => false
  end.

Definition others (k : AgentKey) : list AgentKey :=
  List.filter (fun k' => negb (key_eqb k' k)) keys.

Definition outcomes (env : Env) (o : t) (copy : Context)
  : list (Error + Context) :=
  List.map (fun k => fst (run_agent env o k copy)) keys.

Definition after (env : Env) (o : t) (copy : Context) : t :=
  mk (snd (run_agent env o key_hr copy)) (snd (run_agent env o key_it copy))
     (snd (run_agent env o key_training copy))
     (snd (run_agent env o key_buddy copy)).

(** The value of [agentLogs] for one agent. *)
Definition logs_for (k : AgentKey) (r : Error + Context) : Logs :=
  match r with
  | inr _ => LogOf k
  | inl reason => Entries [LogEntry.mk None (key_name k) "error" (message reason)]
  end.

(** What a settled run adds to [mergedTasks]. *)
Definition tasks_of (r : Error + Context) : list Task.t :=
  match r with
  | inr context => tasks (employee context)
  | inl _ => []
  end.

(** The employee merged from the settled outcomes, and the plan
    [onboard] returns when that employee is printable. *)
Definition merged (e0 : Employee) (results : list (Error + Context)) : Employee :=
  let m := merge e0 results in
  mkEmployee (props (m_employee m)) (mergedTasks m).

Definition plan_of (env : Env) (o' : t) (e0 : Employee)
    (results : list (Error + Context)) : Plan.t :=
  let m := merge e0 results in
  let e := mkEmployee (props (m_employee m)) (mergedTasks m) in
  Plan.mk e (summary_of o' env e (agentLogs m) (employeeName e)) (agentLogs m)
          (buildTimeline (mergedTasks m)).

(** The orchestrator that [new Orchestrator()] has become after some
    calls: the four agents of the constructor, in any state. *)
Definition in_states (s1 s2 s3 s4 : BaseAgent.State) : t :=
  mk (Agent.mk HRAgent.impl s1) (Agent.mk ITSetupAgent.impl s2)
     (Agent.mk TrainingAgent.impl s3)
     (Agent.mk (BuddyAgent.impl BuddyAgent.buddyPool) s4).

End Orchestrator.

(* ================================================================== *)
(** * 7. The employee store and the classifier                         *)
(* ================================================================== *)

(** An employee object of the store.  The property [onboardingPlan] is
    null until the onboarding route puts the plan there; [fields] holds
    every other property. *)
Module Stored.
Record t := mk {
  fields : obj;
  onboardingPlan : option Orchestrator.Plan.t }.
End Stored.

Module EmployeeStore.
Import Js.

(** [createEmployee(data)]: the record the onboarding route hands to
    [onboard].  [id] is the fresh uuid, [today] the current date and
    [createdAt] the current time, as the store reads them. *)
Definition createEmployee (id today createdAt : string) (data : obj) : obj :=
  <["id" := VStr id]>
  (<["firstName" := get data "firstName"]>
  (<["lastName" := get data "lastName"]>
  (<["email" := or (get data "email") VNull]>
  (<["department" := or (get data "department") (VStr "default")]>
  (<["role" := or (get data "role") (VStr EmptyString)]>
  (<["startDate" := or (get data "startDate") (VStr today)]>
  (<["manager" := or (get data "manager") (VStr EmptyString)]>
  (<["location" := or (get data "location") (VStr "Remote")]>
  (<["documents" := VArr []]>
  (<["accounts" := VArr []]>
  (<["hardware" := VArr []]>
  (<["tasks" := VArr []]>
  (<["policiesAcknowledged" := VArr []]>
  (<["completedTraining" := VArr []]>
  (<["buddy" := VNull]>
  (<["onboardingPlan" := VNull]>
  (<["createdAt" := VStr createdAt]> ∅))))))))))))))))).

(** The Map [employees]: the ids with their employee objects, in the
    order of insertion. *)
Definition Employees : Type := list (string * Stored.t).

(** [employees.set(id, employee)]: a new key goes to the end, a key that
    is present keeps its place. *)
Fixpoint employees_set (id : string) (employee : Stored.t)
    (employees : Employees) : Employees :=
  match employees with
  | [] => [(id, employee)]
  | (id', e) :: r =>
      if String.eqb id' id then (id, employee) :: r
      else (id', e) :: employees_set id employee r
  end.

(** [createEmployee(data)] with its effect on the Map: the new employee
    object and the Map afterwards. *)
Definition createEmployee_in (id today createdAt : string) (data : obj)
    (employees : Employees) : Stored.t * Employees :=
  let employee :=
    Stored.mk (delete "onboardingPlan" (createEmployee id today createdAt data))
              None in
  (employee, employees_set id employee employees).

(** [employees.get(id) || null]; [None] is null. *)
Definition getEmployee (employees : Employees) (id : string) : option Stored.t :=
  assoc employees id.

(** [Array.from(employees.values())]. *)
Definition getAllEmployees (employees : Employees) : list Stored.t :=
  List.map snd employees.

Definition with_status (status : string) (t : Task.t) : Task.t :=
  Task.mk (Task.id t) (Task.agent t) (Task.type t) (Task.title t) status
          (Task.priority t) (Task.dueInDays t) (Task.category t) (Task.note t)
          (Task.metadata t).

(** [tasks.find((t) => t.id === taskId)] followed by
    [task.status = status]: the first task of that id, updated, and the
    array with that task updated in place; [None] when no task has the
    id. *)
Fixpoint find_and_set (taskId status : string) (tasks : list Task.t)
  : option (Task.t * list Task.t) :=
  match tasks with
  | [] => None
  | t :: r =>
      if String.eqb (Task.id t) taskId then
        Some (with_status status t, with_status status t :: r)
      else
        match find_and_set taskId status r with
        | Some (task, r') => Some (task, t :: r')
        | None => None
        end
  end.

(** What [updateTaskStatus] returns: null, undefined (the result of a
    [find] that found nothing), or the task. *)
Inductive TaskResult :=
| ResNull
| ResUndefined
| ResTask (task : Task.t).

Definition with_tasks (plan : Orchestrator.Plan.t) (ts : list Task.t)
  : Orchestrator.Plan.t :=
  Orchestrator.Plan.mk
    (mkEmployee (props (Orchestrator.Plan.employee plan)) ts)
    (Orchestrator.Plan.summary plan) (Orchestrator.Plan.agentLogs plan)
    (Orchestrator.Plan.timeline plan).

(** [updateTaskStatus(employeeId, taskId, status)]: the value returned
    and the Map afterwards. *)
Definition updateTaskStatus (employees : Employees)
    (employeeId taskId status : string) : TaskResult * Employees :=
  match assoc employees employeeId with
  | None => (ResNull, employees)
  | Some emp =>
      match Stored.onboardingPlan emp with
      | None => (ResNull, employees)
      | Some plan =>
          match find_and_set taskId status
                  (tasks (Orchestrator.Plan.employee plan)) with
          | None => (ResUndefined, employees)
          | Some (task, ts) =>
              (ResTask task,
               employees_set employeeId
                 (Stored.mk (Stored.fields emp) (Some (with_tasks plan ts)))
                 employees)
          end
      end
  end.

End EmployeeStore.

(** The result of [classify]. *)
Module Classification.
Record t := mk {
  tier : string;
  riskLevel : string;
  onboardingIntensity : option Z;
  estimatedCompletionDays : option Z;
  focusAreas : list string;
  confidence : Z;
  classifiedAt : string;
  modelVersion : string }.
End Classification.

Module ClfModel.
Import Js.

Section Risk.

(** [new Date(v)] in milliseconds since the epoch, [None] for an invalid
    date, and the start of the current day; both are read from the
    runtime.  [new Date(v)] converts an object to a primitive first and
    throws where that conversion does; [Date_of] is the date in every
    other case, and the throw is part of [classifyRisk_call] below. *)
Variable Date_of : val -> option Z.
Variable today : Z.

(** [Math.floor((start - today) / (1000 * 60 * 60 * 24))]; an invalid
    date gives NaN, which [None] stands for. *)
Definition _leadDays (dateStr : val) : option Z :=
  match Date_of dateStr with
  | Some start => Some ((start - today) / (1000 * 60 * 60 * 24))
  | None => None
  end.

(** The penalty of the start-date branch of [_classifyRisk].  Every
    comparison with NaN is false. *)
Definition startDate_penalty (startDate : val) : Z :=
  if truthy startDate then
    match _leadDays startDate with
    | Some leadDays =>
        if leadDays <? 0 then 3
        else if leadDays <? 3 then 2
        else if leadDays <? 7 then 1
        else 0
    | None => 0
    end
  else 1.

Definition missing_penalty (employee : obj) (field : string) (penalty : Z) : Z :=
  if truthy (get employee field) then 0 else penalty.

(** The value of [score] when [_classifyRisk] reaches its thresholds. *)
Definition riskScore (employee : obj) : Z :=
  0 + missing_penalty employee "email" 2
    + missing_penalty employee "role" 2
    + missing_penalty employee "department" 2
    + missing_penalty employee "manager" 1
    + missing_penalty employee "location" 1
    + startDate_penalty (get employee "startDate").

Definition level (score : Z) : string :=
  if 5 <=? score then "high"
  else if 2 <=? score then "medium"
  else "low".

Definition _classifyRisk (employee : obj) : string := level (riskScore employee).

End Risk.

(** The order of the risk levels. *)
Definition rank (riskLevel : string) : nat :=
  if String.eqb riskLevel "high" then 2
  else if String.eqb riskLevel "medium" then 1
  else 0.

Definition version : string := "1.0.0".

Definition _executiveKeywords : list string :=
  [ "ceo"; "cto"; "coo"; "cfo"; "ciso"; "vp"; "vice president"; "director";
    "head of"; "chief"; "president"; "partner"; "principal" ].

Definition _technicalDepts : list string :=
  [ "engineering"; "data"; "devops"; "platform"; "infrastructure"; "ml"; "ai";
    "security"; "sre"; "backend"; "frontend"; "fullstack" ].

Definition _tierBaseDays : list (string * Z) :=
  [ ("executive", 60); ("technical", 45); ("remote-intensive", 35);
    ("standard", 30) ].

Definition _tierBaseIntensity : list (string * Z) :=
  [ ("executive", 4); ("technical", 4); ("remote-intensive", 3);
    ("standard", 2) ].

(** [_classifyTier(employee)].  The three fields are put in lower case
    before any of them is looked at, so a field that is no string makes
    the call throw whatever the others hold. *)
Definition _classifyTier (employee : obj) : Phase string :=
  let* role := JsP.lower_or (get employee "role") EmptyString in
  let* department := JsP.lower_or (get employee "department") EmptyString in
  let* location := JsP.lower_or (get employee "location") EmptyString in
  ret (if existsb (str_includes role) _executiveKeywords then "executive"
       else if existsb (str_includes department) _technicalDepts then "technical"
       else if String.eqb location "remote" || String.eqb location "hybrid"
            then "remote-intensive"
       else "standard").

(** [_scoreIntensity(tier, riskLevel)].  [None] is NaN: for a tier that
    names an inherited member of the table, [??] keeps that member, the
    sum is a string and [Math.min] makes NaN of it. *)
Definition _scoreIntensity (tier riskLevel : string) : option Z :=
  let riskBonus := if String.eqb riskLevel "high" then 1 else 0 in
  match literal_lookup _tierBaseIntensity tier with
  | Own base => Some (Z.min 5 (base + riskBonus))
  | Absent => Some (Z.min 5 (2 + riskBonus))
  | Inherited => None
  end.

(** [_estimateDays(tier, intensity)].  [None] is a result that is no
    number: NaN for the intensity NaN, a string for a tier that names an
    inherited member of the table. *)
Definition _estimateDays (tier : string) (intensity : option Z) : option Z :=
  match literal_lookup _tierBaseDays tier, intensity with
  | Own base, Some intensity => Some (base + (intensity - 2) * 5)
  | Absent, Some intensity => Some (30 + (intensity - 2) * 5)
  | _, _ => None
  end.

(** [[...new Set(areas)]]: the elements in the order of their first
    occurrence; [seen] are the elements met so far. *)
Fixpoint distinct (seen areas : list string) : list string :=
  match areas with
  | [] => []
  | a :: r =>
      if existsb (String.eqb a) seen then distinct seen r
      else a :: distinct (a :: seen) r
  end.

(** The array [areas] of [_determineFocusAreas] when the function
    reaches its last line. *)
Definition pushed_areas (tier riskLevel : string) (employee : obj) : list string :=
  ((if String.eqb riskLevel "high"
    then ["document-collection"; "account-provisioning"] else [])
   ++ (if String.eqb tier "executive"
       then ["strategic-alignment"; "stakeholder-meetings";
             "leadership-integration"]
       else if String.eqb tier "technical"
       then ["system-access"; "technical-training"; "code-review-process"]
       else if String.eqb tier "remote-intensive"
       then ["communication-setup"; "buddy-program"; "async-workflows"]
       else ["company-culture"; "team-integration"; "tools-training"])
   ++ (if String.eqb riskLevel "medium" then ["document-collection"] else [])
   ++ (if truthy (get employee "manager") then [] else ["manager-assignment"]))%list.

Definition _determineFocusAreas (tier riskLevel : string) (employee : obj)
  : list string :=
  distinct [] (pushed_areas tier riskLevel employee).

Definition scoredFields : list (string * Z) :=
  [ ("firstName", 1); ("lastName", 1); ("department", 2); ("role", 2);
    ("location", 1); ("startDate", 1); ("manager", 1); ("email", 1) ].

(** [fields.reduce((s, f) => s + f.weight, 0)]. *)
Definition weight_sum (fields : list (string * Z)) : Z :=
  fold_left (fun s f => s + snd f) fields 0.

(** [Math.round(n / d)] for integers [n >= 0] and [d > 0]: the nearest
    integer, a half going up. *)
Definition round_div (n d : Z) : Z := (2 * n + d) / (2 * d).

(** [_computeConfidence(employee)].  The source computes
    [(earnedWeight / totalWeight) * 100] in floating point; the weights
    are small integers, the exact value is a multiple of ten and the
    computed one is within a billionth of it, so rounding the exact
    value gives the same integer. *)
Definition _computeConfidence (employee : obj) : Z :=
  let totalWeight := weight_sum scoredFields in
  let earnedWeight :=
    weight_sum (List.filter (fun f => truthy (get employee (fst f))) scoredFields) in
  round_div (earnedWeight * 100) totalWeight.

Section Classify.

(** As for [_classifyRisk], and [now], the time [classify] reads. *)
Variable Date_of : val -> option Z.
Variable today : Z.
Variable now : string.

(** The call of [_classifyRisk] with its error: for a truthy start date
    [_leadDays] makes a Date of it, which throws for a value that does
    not convert to a primitive. *)
Definition classifyRisk_call (employee : obj) : Phase string :=
  let startDate := get employee "startDate" in
  if truthy startDate && negb (converts startDate)
  then throw not_primitive
  else ret (_classifyRisk Date_of today employee).

Definition classify (employee : obj) : Phase Classification.t :=
  let* tier := _classifyTier employee in
  let* riskLevel := classifyRisk_call employee in
  let onboardingIntensity := _scoreIntensity tier riskLevel in
  let estimatedCompletionDays := _estimateDays tier onboardingIntensity in
  let focusAreas := _determineFocusAreas tier riskLevel employee in
  let confidence := _computeConfidence employee in
  ret (Classification.mk tier riskLevel onboardingIntensity
         estimatedCompletionDays focusAreas confidence now version).

End Classify.

End ClfModel.

(* ------------------------------------------------------------------ *)
(** ** 7.1 The routes                                                  *)
(* ------------------------------------------------------------------ *)

(** The handlers of [server/routes/onboarding.js], for requests that are
    served one after the other: a handler has sent its response before
    the next request is taken up.  The body of a request is the object
    the JSON parser of the server has made of it, the empty object for
    a request without one. *)
Module Routes.
Import Js.

(** The state behind the routes: the Map of the employee store and the
    one [orchestrator] the module creates when it is loaded. *)
Record Server := mkServer {
  employees : EmployeeStore.Employees;
  orchestrator : Orchestrator.t }.

(** What the handler of the onboarding route reads from outside: the
    uuid, date and time [createEmployee] reads, and what [onboard]
    reads. *)
Record Runtime := mkRuntime {
  uuid : string;
  today : string;
  createdAt : string;
  env : Orchestrator.Env }.

(** An element of the list of employees. *)
Module Row.
Record t := mk {
  id : val;
  firstName : val;
  lastName : val;
  department : val;
  role : val;
  startDate : val;
  tasksTotal : nat;
  tasksCompleted : nat;
  createdAt : val }.
End Row.

(** A plan as [res.json] writes it.  The log arrays of a plan are the
    arrays of the agents themselves, so each is written with the
    entries it holds when the response is sent. *)
Record Written := mkWritten {
  plan : Orchestrator.Plan.t;
  logs : gmap string (list LogEntry.t) }.

Definition written (o : Orchestrator.t) (plan : Orchestrator.Plan.t) : Written :=
  mkWritten plan (Orchestrator.entries o <$> Orchestrator.Plan.agentLogs plan).

(** The objects given to [res.json]; an employee is written with its
    fields and its plan, if it has one. *)
Inductive Body :=
| error_body (error : string)
| failure_body (error detail : string)
| onboard_body (employeeId : val) (plan : Written)
| list_body (rows : list Row.t)
| employee_body (fields : obj) (plan : option Written)
| task_body (task : Task.t).

(** A response: the status code (200 when the handler sets none) and
    the body. *)
Record Response := mkResponse {
  status : Z;
  body : Body }.

(** The object [{ firstName, lastName, department, role, startDate,
    manager, location }] made of the fields taken from the body. *)
Definition onboard_data (body : obj) : obj :=
  <["firstName" := get body "firstName"]>
  (<["lastName" := get body "lastName"]>
  (<["department" := get body "department"]>
  (<["role" := get body "role"]>
  (<["startDate" := get body "startDate"]>
  (<["manager" := get body "manager"]>
  (<["location" := get body "location"]> ∅)))))).

(** [POST /onboard].  No response is sent while [onboard] is pending;
    a rejection of [onboard] is caught and answered with 500, the
    employee staying in the store without a plan. *)
Definition post_onboard (rt : Runtime) (s : Server) (body : obj)
  : option Response * Server :=
  if negb (truthy (get body "firstName")) || negb (truthy (get body "lastName"))
  then (Some (mkResponse 400 (error_body "firstName and lastName are required")), s)
  else
    let data := onboard_data body in
    let '(employee, employees) :=
      EmployeeStore.createEmployee_in (uuid rt) (today rt) (createdAt rt) data
                                      (employees s) in
    match Orchestrator.onboard (orchestrator s) (env rt)
            (EmployeeStore.createEmployee (uuid rt) (today rt) (createdAt rt) data)
    with
    | (Fulfilled plan, o) =>
        (Some (mkResponse 200
                 (onboard_body (get (Stored.fields employee) "id")
                               (written o plan))),
         mkServer
           (EmployeeStore.employees_set (uuid rt)
              (Stored.mk (Stored.fields employee) (Some plan)) employees)
           o)
    | (Rejected err, o) =>
        (Some (mkResponse 500
                 (failure_body "Onboarding orchestration failed" (message err))),
         mkServer employees o)
    | (Pending, o) => (None, mkServer employees o)
    end.

Definition row (emp : Stored.t) : Row.t :=
  let f := Stored.fields emp in
  Row.mk (get f "id") (get f "firstName") (get f "lastName")
         (get f "department") (get f "role") (get f "startDate")
         (match Stored.onboardingPlan emp with
          | Some plan => Summary.totalTasks (Orchestrator.Plan.summary plan)
          | None => 0%nat
          end)
         (match Stored.onboardingPlan emp with
          | Some plan => Summary.completed (Orchestrator.Plan.summary plan)
          | None => 0%nat
          end)
         (get f "createdAt").

(** [GET /employees]. *)
Definition get_employees (s : Server) : Response :=
  mkResponse 200
    (list_body (List.map row (EmployeeStore.getAllEmployees (employees s)))).

(** [GET /employees/:id]. *)
Definition get_employee (s : Server) (id : string) : Response :=
  match EmployeeStore.getEmployee (employees s) id with
  | None => mkResponse 404 (error_body "Employee not found")
  | Some emp =>
      mkResponse 200
        (employee_body (Stored.fields emp)
           (written (orchestrator s) <$> Stored.onboardingPlan emp))
  end.

Definition statuses : list string := [ "pending"; "in_progress"; "completed" ].

(** The three counts of the summary, taken again from the tasks. *)
Definition recount (plan : Orchestrator.Plan.t) : Orchestrator.Plan.t :=
  let tasks := tasks (Orchestrator.Plan.employee plan) in
  let summary := Orchestrator.Plan.summary plan in
  Orchestrator.Plan.mk
    (Orchestrator.Plan.employee plan)
    (Summary.mk (Summary.employeeName summary) (Summary.department summary)
       (Summary.totalTasks summary)
       (count (Orchestrator.has_status "completed") tasks)
       (count (Orchestrator.has_status "in_progress") tasks)
       (count (Orchestrator.has_status "pending") tasks)
       (Summary.orchestrationTimeMs summary) (Summary.agentSummaries summary))
    (Orchestrator.Plan.agentLogs plan) (Orchestrator.Plan.timeline plan).

(** [PATCH /employees/:id/tasks/:taskId].  [includes] compares with
    [===], so only a string passes the first test. *)
Definition patch_task (s : Server) (id taskId : string) (body : obj)
  : Response * Server :=
  match get body "status" with
  | VStr status =>
      if existsb (String.eqb status) statuses then
        match EmployeeStore.updateTaskStatus (employees s) id taskId status with
        | (EmployeeStore.ResTask task, employees) =>
            let employees :=
              match EmployeeStore.getEmployee employees id with
              | Some emp =>
                  match Stored.onboardingPlan emp with
                  | Some plan =>
                      EmployeeStore.employees_set id
                        (Stored.mk (Stored.fields emp) (Some (recount plan)))
                        employees
                  | None => employees
                  end
              | None => employees
              end in
            (mkResponse 200 (task_body task), mkServer employees (orchestrator s))
        | (_, employees) =>
            (mkResponse 404 (error_body "Employee or task not found"),
             mkServer employees (orchestrator s))
        end
      else (mkResponse 400 (error_body "Invalid status"), s)
  | _ => (mkResponse 400 (error_body "Invalid status"), s)
  end.

(** A request to one of the routes that change the state, and the
    state after a list of them, each served with its own readings of
    the runtime. *)
Inductive Request :=
| PostOnboard (rt : Runtime) (body : obj)
| PatchTask (id taskId : string) (body : obj).

Definition serve (s : Server) (r : Request) : Server :=
  match r with
  | PostOnboard rt body => snd (post_onboard rt s body)
  | PatchTask id taskId body => snd (patch_task s id taskId body)
  end.

Definition serve_all (s : Server) (requests : list Request) : Server :=
  fold_left serve requests s.

(** The server when the module has just been loaded. *)
Definition start : Server := mkServer [] Orchestrator.new.

End Routes.

(* ------------------------------------------------------------------ *)
(** ** 7.2 New employees, plans and the states of the server           *)
(* ------------------------------------------------------------------ *)

(** The copy [copyFor] makes of the context of an employee of the
    store, whose accounts and hardware are empty arrays. *)
Definition stored_copy (env : Orchestrator.Env) (e : obj) : Context :=
  let c := context_of (Orchestrator.initial_employee env e) in
  with_employee c
    (mkEmployee
       (<["hardware" := VArr []]> (<["accounts" := VArr []]> (props (employee c))))
       []).

(** An employee for whom nothing has been done yet, as [createEmployee]
    makes them: no document, account, hardware, acknowledged policy or
    completed training, no buddy, and none of the flags the agents
    set. *)
Definition fresh (e : obj) : Prop :=
  Js.get e "documents" = VArr []
  /\ Js.get e "policiesAcknowledged" = VArr []
  /\ Js.get e "completedTraining" = VArr []
  /\ Js.get e "accounts" = VArr []
  /\ Js.get e "hardware" = VArr []
  /\ Forall (fun flag => Js.truthy (Js.get e flag) = false)
            [ "benefitsEnrollmentStarted"; "emailProvisioned";
              "managerMeetingScheduled"; "teamIntroScheduled";
              "checkInsScheduled"; "buddy" ].

(** A plan whose summary agrees with its tasks, whose tasks have one of
    the three statuses and whose task ids are distinct. *)
Definition consistent (plan : Orchestrator.Plan.t) : Prop :=
  let ts := tasks (Orchestrator.Plan.employee plan) in
  let summary := Orchestrator.Plan.summary plan in
  Summary.totalTasks summary = length ts
  /\ Summary.completed summary = count (Orchestrator.has_status "completed") ts
  /\ Summary.inProgress summary = count (Orchestrator.has_status "in_progress") ts
  /\ Summary.pending summary = count (Orchestrator.has_status "pending") ts
  /\ Forall known_status ts
  /\ NoDup (List.map Task.id ts).

(** An entry of the Map whose employee carries its key as id and a
    consistent plan, if any. *)
Definition sound_entry (e : string * Stored.t) : Prop :=
  Js.get (Stored.fields (snd e)) "id" = VStr (fst e)
  /\ forall plan, Stored.onboardingPlan (snd e) = Some plan -> consistent plan.

(** What holds of the server between two requests: the orchestrator is
    the one of the constructor in some state, the keys of the Map are
    distinct and every entry is sound. *)
Definition Inv (s : Routes.Server) : Prop :=
  (exists s1 s2 s3 s4,
      Routes.orchestrator s = Orchestrator.in_states s1 s2 s3 s4)
  /\ NoDup (List.map fst (Routes.employees s))
  /\ Forall sound_entry (Routes.employees s).

(** The six names [buildTimeline] files tasks under. *)
Definition sections : list string :=
  [ "Immediate"; "Day 1-3"; "Week 1"; "Week 2"; "Month 1"; "Month 2-3" ].

(* ================================================================== *)
(** * 8. Sample runs                                                   *)
(* ================================================================== *)

Module Sample.
Import Js.

(** A call in which the Training run settles first and the IT run
    last, and a later one in which the runs settle in their own order. *)
Definition env : Orchestrator.Env :=
  Orchestrator.mkEnv 1000 "2026-01-05T09:00:00.000Z" 1002
                     (fun _ k => 1000 + Z.of_nat k) [2; 0; 3; 1]%nat.

Definition later : Orchestrator.Env :=
  Orchestrator.mkEnv 5000 "2026-01-05T09:00:04.000Z" 5001
                     (fun _ k => 5000 + Z.of_nat k) [0; 1; 2; 3]%nat.

(** The body of a request to the onboarding route. *)
Definition body : obj :=
  <["firstName" := VStr "Ana"]> (<["lastName" := VStr "Lopez"]>
  (<["department" := VStr "Engineering"]> ∅)).

Definition ana : obj :=
  EmployeeStore.createEmployee "e-1" "2026-01-05" "2026-01-05T09:00:00.000Z" body.

Definition document_task_done : Task.t :=
  Task.mk "hr-doc-nda" "HR Agent" "document_upload"
          "Upload: Non-Disclosure Agreement" "completed" "high" (Some 3)
          "HR Documents" None None.

(** The same request with a number for a first name: the IT agent
    cannot put it in lower case. *)
Definition numbered : obj :=
  EmployeeStore.createEmployee "e-2" "2026-01-05" "2026-01-05T09:00:00.000Z"
    (<["firstName" := VNum 50]> body).

Definition empty_plan : Orchestrator.Plan.t :=
  Orchestrator.Plan.mk (mkEmployee ∅ [])
    (Summary.mk EmptyString VUndef 0 0 0 0 0 ∅) ∅ ∅.

(** The plan of a fulfilled call and the context of a fulfilled run. *)
Definition plan_of (p : Promise Orchestrator.Plan.t) : Orchestrator.Plan.t :=
  match p with
  | Fulfilled plan => plan
  | _ => empty_plan
  end.

Definition context_or_empty (r : Error + Context) : Context :=
  match r with
  | inr c => c
  | inl _ => context_of (mkEmployee ∅ [])
  end.

(** The copy of the context the four runs of a call start from, and the
    context each run returns. *)
Definition copy (env : Orchestrator.Env) (employeeData : obj) : Context :=
  context_or_empty
    (outcome (Orchestrator.copyFor
                (context_of (Orchestrator.initial_employee env employeeData)))).

Definition returned (employeeData : obj) (k : Orchestrator.AgentKey) : Context :=
  context_or_empty
    (fst (Orchestrator.run_agent env Orchestrator.new k (copy env employeeData))).

(** Two calls in a row for the same request: the orchestrator after
    each, and the plan each returns. *)
Definition first_call : Promise Orchestrator.Plan.t * Orchestrator.t :=
  Orchestrator.onboard Orchestrator.new env ana.

Definition o1 : Orchestrator.t :=
  Orchestrator.after env Orchestrator.new (copy env ana).

Definition plan1 : Orchestrator.Plan.t :=
  Orchestrator.plan_of env o1 (Orchestrator.initial_employee env ana)
    (Orchestrator.outcomes env Orchestrator.new (copy env ana)).

Definition o2 : Orchestrator.t := Orchestrator.after later o1 (copy later ana).

Definition plan2 : Orchestrator.Plan.t :=
  Orchestrator.plan_of later o2 (Orchestrator.initial_employee later ana)
    (Orchestrator.outcomes later o1 (copy later ana)).

(** An employee who has handed in every document, acknowledged every
    policy and started the benefits enrollment. *)
Definition document (id : string) : val := VObj (<["id" := VStr id]> ∅).

Definition settled_in : Context :=
  context_of
    (mkEmployee
       (<["documents" :=
            VArr (List.map (fun doc => document (Doc.id doc)) HRAgent.requiredDocs)]>
       (<["policiesAcknowledged" := VArr (List.map VStr HRAgent.policies)]>
       (<["benefitsEnrollmentStarted" := VBool true]> ∅)))
       [document_task_done]).

(** A task that is due today. *)
Definition due_today : Task.t :=
  Task.mk "t-0" "HR Agent" "document_upload" "Sign here" "pending" "high"
          (Some 0) "HR Documents" None None.

(** A profile with every field the classifier asks for except the start
    date, and a runtime for which the date 0 was yesterday. *)
Definition complete_but_startDate : obj :=
  <["email" := VStr "ana@company.com"]> (<["role" := VStr "Engineer"]>
  (<["department" := VStr "engineering"]> (<["manager" := VStr "Bo"]>
  (<["location" := VStr "remote"]> ∅)))).

Definition epoch : val -> option Z := fun _ => Some 0.
Definition next_day : Z := 86400000.


Definition engineer : Context :=
  context_of (mkEmployee (<["department" := VStr "engineering"]> ∅) []).

(** An employee of no particular department whose email, software and
    hardware are all in place. *)
Definition provisioned : Context :=
  context_of
    (mkEmployee
       (<["emailProvisioned" := VBool true]>
       (<["accounts" := VArr [VStr "Slack"; VStr "Google Workspace"; VStr "Zoom"]]>
       (<["hardware" :=
            VArr [VStr "Laptop";
                  VStr (ITSetupAgent.inch "External Monitor 24")]]> ∅)))
       []).

End Sample.

(** Requests to the routes and to the classifier. *)
Module Scenario.
Import Js.

(** What the onboarding route reads from outside for the sample
    request. *)
Definition rt : Routes.Runtime :=
  Routes.mkRuntime "e-1" "2026-01-05" "2026-01-05T09:00:00.000Z" Sample.env.

(** A plan of two pending tasks, and a server whose store holds one
    employee with that plan. *)
Definition two_tasks : Orchestrator.Plan.t :=
  Orchestrator.Plan.mk
    (mkEmployee ∅ [HRAgent.benefits_task; Sample.due_today])
    (Summary.mk "Ana Lopez" (VStr "Engineering") 2 0 0 2 2 ∅) ∅ ∅.

Definition filed : Routes.Server :=
  Routes.mkServer
    [("e-1", Stored.mk (delete "onboardingPlan" Sample.ana) (Some two_tasks))]
    Orchestrator.new.

(** The body of a request that marks a task as completed. *)
Definition completed_body : obj := <["status" := VStr "completed"]> ∅.

(** Two calls in a row on a new orchestrator: the first for the request
    whose first name is a number, the second for the sample request. *)
Definition after_numbered : Orchestrator.t :=
  Orchestrator.after Sample.env Orchestrator.new
    (Sample.copy Sample.env Sample.numbered).

Definition plan_numbered : Orchestrator.Plan.t :=
  Orchestrator.plan_of Sample.env after_numbered
    (Orchestrator.initial_employee Sample.env Sample.numbered)
    (Orchestrator.outcomes Sample.env Orchestrator.new
       (Sample.copy Sample.env Sample.numbered)).

Definition after_ana : Orchestrator.t :=
  Orchestrator.after Sample.later after_numbered
    (Sample.copy Sample.later Sample.ana).

Definition plan_ana : Orchestrator.Plan.t :=
  Orchestrator.plan_of Sample.later after_ana
    (Orchestrator.initial_employee Sample.later Sample.ana)
    (Orchestrator.outcomes Sample.later after_numbered
       (Sample.copy Sample.later Sample.ana)).

(** The sample request for a department that is named like a member
    every object inherits. *)
Definition heir : obj :=
  EmployeeStore.createEmployee "e-3" "2026-01-05" "2026-01-05T09:00:00.000Z"
    (<["department" := VStr "Constructor"]> Sample.body).

(** The sample request with an object for a first name that has a
    property toString of its own, as the JSON text of a request can
    hold it. *)
Definition unprintable : obj :=
  EmployeeStore.createEmployee "e-4" "2026-01-05" "2026-01-05T09:00:00.000Z"
    (<["firstName" := VObj (<["toString" := VNum 10]> ∅)]> Sample.body).

(** The classification of the profile without a start date. *)
Definition unclassified : Classification.t :=
  Classification.mk EmptyString EmptyString None None [] 0 EmptyString
                    EmptyString.

Definition classified : Classification.t :=
  match outcome (ClfModel.classify Sample.epoch Sample.next_day
                   "2026-01-05T09:00:00.000Z" Sample.complete_but_startDate) with
  | inr c => c
  | inl _ => unclassified
  end.

End Scenario.

(* ================================================================== *)
(** * 8b. The specification, where it is compared with the code        *)
(* ================================================================== *)

Module Claimed.

(** The timeline buckets as the specification words them: no dueInDays
    is Immediate, up to 3 is Day 1-3 (zero included), 4 to 7 is Week 1,
    8 to 14 is Week 2, 15 to 30 is Month 1, above 30 is Month 2-3. *)
Definition bucket (task : Task.t) : string :=
  match Task.dueInDays task with
  | None => "Immediate"
  | Some d =>
      if d <=? 3 then "Day 1-3"
      else if d <=? 7 then "Week 1"
      else if d <=? 14 then "Week 2"
      else if d <=? 30 then "Month 1"
      else "Month 2-3"
  end.

(** The buddy score as the specification words it: the base rating, plus
    3 when the two departments are equal without regard to case. *)
Definition score (employee_department : string) (buddy : Buddy.t) : Z :=
  Buddy.rating buddy
  + (if String.eqb (Js.toLowerCase (Buddy.department buddy))
                   (Js.toLowerCase employee_department)
     then 30 else 0).

End Claimed.

(* ================================================================== *)
(** * 9. Properties of the run loop                                    *)
(* ================================================================== *)

Section RunLoop.
Import BaseAgent.

Variable clock : nat -> Z.
Variable a : Impl.

Lemma addLog_log (action detail : string) (s : State) :
  log (addLog clock a action detail s)
  = (log s ++ [LogEntry.mk (Some (clock (length (log s)))) (name a) action detail])%list.
Proof. reflexivity. Qed.

Lemma addLog_status (action detail : string) (s : State) :
  status (addLog clock a action detail s) = status s.
Proof. reflexivity. Qed.

(** Carrying out log requests only appends to the log, one entry per
    request, each with the action and detail asked for. *)
Lemma addLogs_log (reqs : list LogReq) (s : State) :
  exists l, log (addLogs clock a reqs s) = (log s ++ l)%list
            /\ List.map (fun e => (LogEntry.action e, LogEntry.detail e)) l = reqs.
Proof.
  revert s. induction reqs as [|[action detail] reqs IH]; intros s.
  - exists []. simpl. now rewrite app_nil_r.
  - simpl. destruct (IH (addLog clock a action detail s)) as (l & Hl & Hm).
    eexists (_ :: l). rewrite Hl, addLog_log, <- app_assoc. simpl.
    split; [reflexivity|]. now rewrite Hm.
Qed.

Lemma addLogs_status (reqs : list LogReq) (s : State) :
  status (addLogs clock a reqs s) = status s.
Proof.
  revert s. induction reqs as [|r reqs IH]; intros s; [reflexivity|].
  simpl. now rewrite IH.
Qed.

Lemma iteration_pass (context : Context) (s : State) :
  fst (fst (iteration clock a context s)) = pass a context.
Proof.
  unfold iteration, pass.
  destruct (outcome (perceive a context)) as [e|pc]; [reflexivity|].
  destruct (outcome (decide a pc)) as [e|[|x acts]]; [reflexivity..|].
  destruct (outcome (act a pc (x :: acts))) as [e|c1]; [reflexivity|].
  destruct (outcome (reflect a c1)) as [e|[complete c2]]; reflexivity.
Qed.

(** A pass appends to the log and leaves the status alone. *)
Lemma iteration_log (context : Context) (s : State) :
  exists l, log (snd (fst (iteration clock a context s))) = (log s ++ l)%list.
Proof.
  unfold iteration.
  destruct (addLogs_log (emitted (perceive a context)) s) as (l1 & H1 & _).
  destruct (outcome (perceive a context)) as [e|pc]; simpl; [eauto|].
  destruct (addLogs_log (emitted (decide a pc))
              (addLogs clock a (emitted (perceive a context)) s)) as (l2 & H2 & _).
  destruct (outcome (decide a pc)) as [e|[|x acts]]; simpl.
  - rewrite H2, H1, <- app_assoc. eauto.
  - rewrite H2, H1, <- !app_assoc. eauto.
  - destruct (addLogs_log (emitted (act a pc (x :: acts)))
                (addLogs clock a (emitted (decide a pc))
                   (addLogs clock a (emitted (perceive a context)) s)))
      as (l3 & H3 & _).
    destruct (outcome (act a pc (x :: acts))) as [e|c1]; simpl.
    + rewrite H3, H2, H1, <- !app_assoc. eauto.
    + destruct (addLogs_log (emitted (reflect a c1))
                  (addLogs clock a (emitted (act a pc (x :: acts)))
                     (addLogs clock a (emitted (decide a pc))
                        (addLogs clock a (emitted (perceive a context)) s))))
        as (l4 & H4 & _).
      destruct (outcome (reflect a c1)) as [e|[complete c2]]; simpl;
        rewrite H4, H3, H2, H1, <- !app_assoc; eauto.
Qed.

Lemma loop_log (n : nat) (context : Context) (s : State) :
  exists l, log (snd (fst (loop clock a n context s))) = (log s ++ l)%list.
Proof.
  revert context s. induction n as [|n IH]; intros context s; simpl.
  - exists []. now rewrite app_nil_r.
  - destruct (iteration_log context s) as (l1 & H1).
    destruct (iteration clock a context s) as [[c s1] ev]; simpl in H1.
    destruct c as [c1|c1|e]; simpl; eauto.
    destruct (IH c1 s1) as (l2 & H2).
    destruct (loop clock a n c1 s1) as [[r s2] ev2]; simpl in *.
    rewrite H2, H1, <- app_assoc. eauto.
Qed.

(** A run appends to the log of the agent, never less than its start
    entry and its complete or error entry. *)
Lemma run_log (context : Context) (s : State) :
  exists l, log (snd (fst (run clock a context s))) = (log s ++ l)%list
            /\ (2 <= length l)%nat.
Proof.
  unfold run.
  destruct (loop_log MAX_ITERATIONS context
              (addLog clock a "start" ("Agent " +:+ name a +:+ " starting")
                 (set_status "running" s))) as (l & Hl).
  destruct (loop clock a MAX_ITERATIONS context _) as [[[e|c] s1] ev];
    simpl in *; rewrite Hl; simpl; rewrite <- !app_assoc;
    eexists; (split; [reflexivity|]); rewrite !length_app; simpl; lia.
Qed.

Lemma loop_passes (n : nat) (context : Context) (s : State) :
  fst (fst (loop clock a n context s)) = passes a n context.
Proof.
  revert context s. induction n as [|n IH]; intros context s; [reflexivity|].
  simpl. rewrite <- (iteration_pass context s).
  destruct (iteration clock a context s) as [[c s1] ev]; simpl.
  destruct c as [c1|c1|e]; try reflexivity.
  rewrite <- (IH c1 s1). now destruct (loop clock a n c1 s1) as [[r s2] ev2].
Qed.

Lemma run_passes (context : Context) (s : State) :
  fst (fst (run clock a context s)) = passes a MAX_ITERATIONS context.
Proof.
  unfold run. rewrite <- (loop_passes MAX_ITERATIONS context
    (addLog clock a "start" ("Agent " +:+ name a +:+ " starting")
            (set_status "running" s))).
  now destruct (loop clock a MAX_ITERATIONS context _) as [[[e|c] s1] ev].
Qed.

Lemma iteration_trace (context : Context) (s : State) :
  pass_trace (fst (fst (iteration clock a context s)))
             (snd (iteration clock a context s)).
Proof.
  unfold iteration.
  destruct (outcome (perceive a context)) as [e|pc]; [constructor|].
  destruct (outcome (decide a pc)) as [e|[|x acts]]; [constructor..|].
  destruct (outcome (act a pc (x :: acts))) as [e|c1]; [constructor|].
  destruct (outcome (reflect a c1)) as [e|[[] c2]]; constructor.
Qed.

(** A pass that ends with an empty list of intents has just logged the
    no-actions entry. *)
Lemma iteration_no_actions (context : Context) (s : State) :
  In (EvDecide 0) (snd (iteration clock a context s)) ->
  exists l t,
    log (snd (fst (iteration clock a context s)))
    = (l ++ [LogEntry.mk t (name a) "no-actions" "No further actions required"])%list.
Proof.
  unfold iteration.
  destruct (outcome (perceive a context)) as [e|pc]; simpl;
    [intros [H|[]]; discriminate|].
  destruct (outcome (decide a pc)) as [e|[|x acts]]; simpl.
  - intros [H|[H|[]]]; discriminate.
  - intros _. do 2 eexists. reflexivity.
  - destruct (outcome (act a pc (x :: acts))) as [e|c1]; simpl;
      [intros [H|[H|[H|[]]]]; discriminate|].
    destruct (outcome (reflect a c1)) as [e|[complete c2]]; simpl;
      intros [H|[H|[H|[H|[]]]]]; discriminate.
Qed.

(** What the trace of the loop looks like: no more passes than allowed;
    an empty decision or a throw is the last thing that happens; a
    rejection stems from a throw. *)
Lemma loop_trace (n : nat) (context : Context) (s : State) :
  let r := fst (fst (loop clock a n context s)) in
  let s' := snd (fst (loop clock a n context s)) in
  let tr := snd (loop clock a n context s) in
  (count is_perceive tr <= n)%nat /\ (length tr <= 4 * n)%nat
  /\ (count is_act tr <= count is_perceive tr)%nat
  /\ (forall i, tr !! i = Some (EvDecide 0) ->
        S i = length tr /\ (exists c, r = inr c)
        /\ exists l t,
             log s' = (l ++ [LogEntry.mk t (name a) "no-actions"
                                         "No further actions required"])%list)
  /\ (forall i p e, tr !! i = Some (EvThrow p e) -> S i = length tr /\ r = inl e)
  /\ (forall e, r = inl e -> exists p, last tr = Some (EvThrow p e)).
Proof.
  unfold count. revert context s. induction n as [|n IH]; intros context s; simpl.
  - repeat split; try lia; try discriminate; intros i; intros; now destruct i.
  - pose proof (iteration_trace context s) as Ht.
    pose proof (iteration_no_actions context s) as Hn.
    destruct (iteration clock a context s) as [[ctl s1] ev]; simpl in Ht, Hn.
    inversion Ht as [e|e|c|e k|e k|c k|c k]; subst; simpl.
    1-6: (split; [lia|]); (split; [lia|]); (split; [lia|]); split; [|split];
      [ intros i Hi;
        repeat (destruct i as [|i]; simpl in Hi; try discriminate Hi);
        repeat split; eauto; apply Hn; simpl; tauto
      | intros i p e' Hi;
        repeat (destruct i as [|i]; simpl in Hi; try discriminate Hi);
        injection Hi as <- <-; split; reflexivity
      | intros e' He; try discriminate He; injection He as <-; eauto ].
    specialize (IH c s1).
    destruct (loop clock a n c s1) as [[r s2] tr]; simpl in *.
    destruct IH as (I1 & I2 & I3 & I4 & I5 & I6).
    (split; [lia|]); (split; [lia|]); (split; [lia|]); split; [|split].
    + intros i Hi. destruct i as [|[|[|[|i]]]]; try discriminate Hi.
      simpl in Hi. destruct (I4 i Hi) as (? & ? & ?).
      repeat split; auto; lia.
    + intros i p e Hi. destruct i as [|[|[|[|i]]]]; try discriminate Hi.
      simpl in Hi. destruct (I5 i p e Hi). split; auto; lia.
    + intros e He. destruct (I6 e He) as (p & Hp). exists p.
      destruct tr as [|x tr]; [discriminate|]. exact Hp.
Qed.

End RunLoop.

(** C9.  Whatever the agent and the context, [run] makes at most five
    passes through perceive, decide, act and reflect (and act is called
    no more often than perceive).  An empty list of intents is the last
    thing that happens in a run: the loop logs the no-actions entry, act
    is not called, the run is fulfilled, the agent is in state completed
    and the complete entry follows.  A throw of any phase is likewise the
    last thing that happens: the agent is in state error, the error entry
    with the message of the error closes the log, and the run is rejected
    with that very error; a run is rejected only so.  The last five
    clauses read the same off the phases of the first pass. *)
Theorem C9_run_loop_bounded
    (clock : nat -> Z) (a : BaseAgent.Impl) (context : Context)
    (s : BaseAgent.State) :
  let result := fst (fst (BaseAgent.run clock a context s)) in
  let s' := snd (fst (BaseAgent.run clock a context s)) in
  let tr := snd (BaseAgent.run clock a context s) in
  ((count BaseAgent.is_perceive tr <= 5)%nat
   /\ (count BaseAgent.is_act tr <= count BaseAgent.is_perceive tr)%nat
   /\ (length tr <= 20)%nat)
  /\ (forall i, tr !! i = Some (BaseAgent.EvDecide 0) ->
        S i = length tr
        /\ (exists c, result = inr c)
        /\ BaseAgent.status s' = "completed"
        /\ exists l t1 t2,
             BaseAgent.log s'
             = (l ++ [LogEntry.mk t1 (BaseAgent.name a) "no-actions"
                                  "No further actions required";
                      LogEntry.mk t2 (BaseAgent.name a) "complete"
                                  ("Agent " +:+ BaseAgent.name a
                                   +:+ " finished successfully")])%list)
  /\ (forall i p e, tr !! i = Some (BaseAgent.EvThrow p e) ->
        S i = length tr
        /\ result = inl e
        /\ BaseAgent.status s' = "error"
        /\ exists l t,
             BaseAgent.log s'
             = (BaseAgent.log s ++ l
                ++ [LogEntry.mk t (BaseAgent.name a) "error" (message e)])%list)
  /\ (forall e, result = inl e ->
        exists p, last tr = Some (BaseAgent.EvThrow p e))
  /\ (forall pc,
        outcome (BaseAgent.perceive a context) = inr pc ->
        outcome (BaseAgent.decide a pc) = inr [] ->
        result = inr pc /\ tr = [BaseAgent.EvPerceive; BaseAgent.EvDecide 0])
  /\ (forall e,
        outcome (BaseAgent.perceive a context) = inl e ->
        result = inl e /\ tr = [BaseAgent.EvThrow BaseAgent.Perceive e])
  /\ (forall pc e,
        outcome (BaseAgent.perceive a context) = inr pc ->
        outcome (BaseAgent.decide a pc) = inl e ->
        result = inl e
        /\ tr = [BaseAgent.EvPerceive; BaseAgent.EvThrow BaseAgent.Decide e])
  /\ (forall pc x actions e,
        outcome (BaseAgent.perceive a context) = inr pc ->
        outcome (BaseAgent.decide a pc) = inr (x :: actions) ->
        outcome (BaseAgent.act a pc (x :: actions)) = inl e ->
        result = inl e
        /\ tr = [BaseAgent.EvPerceive; BaseAgent.EvDecide (S (length actions));
                 BaseAgent.EvThrow BaseAgent.Act e])
  /\ (forall pc x actions c e,
        outcome (BaseAgent.perceive a context) = inr pc ->
        outcome (BaseAgent.decide a pc) = inr (x :: actions) ->
        outcome (BaseAgent.act a pc (x :: actions)) = inr c ->
        outcome (BaseAgent.reflect a c) = inl e ->
        result = inl e
        /\ tr = [BaseAgent.EvPerceive; BaseAgent.EvDecide (S (length actions));
                 BaseAgent.EvAct; BaseAgent.EvThrow BaseAgent.Reflect e]).
Proof.
  cbv zeta.
  split; [|split; [|split; [|split]]].
  - unfold BaseAgent.run.
    destruct (loop_trace clock a BaseAgent.MAX_ITERATIONS context
                (BaseAgent.addLog clock a "start"
                   ("Agent " +:+ BaseAgent.name a +:+ " starting")
                   (BaseAgent.set_status "running" s))) as (H1 & H2 & H3 & _).
    destruct (BaseAgent.loop clock a BaseAgent.MAX_ITERATIONS context _)
      as [[[e|c] s1] ev]; simpl in *; unfold BaseAgent.MAX_ITERATIONS in *; lia.
  - intros i Hi. unfold BaseAgent.run in *.
    destruct (loop_trace clock a BaseAgent.MAX_ITERATIONS context
                (BaseAgent.addLog clock a "start"
                   ("Agent " +:+ BaseAgent.name a +:+ " starting")
                   (BaseAgent.set_status "running" s))) as (_ & _ & _ & H4 & _).
    destruct (BaseAgent.loop clock a BaseAgent.MAX_ITERATIONS context _)
      as [[[e|c] s1] ev]; simpl in *;
      destruct (H4 i Hi) as (Hlen & (c' & Hc) & (l & t & Hl)); [discriminate|].
    repeat split; eauto. rewrite Hl. simpl. rewrite <- app_assoc. simpl. eauto.
  - intros i p e Hi. unfold BaseAgent.run in *.
    destruct (loop_log clock a BaseAgent.MAX_ITERATIONS context
                (BaseAgent.addLog clock a "start"
                   ("Agent " +:+ BaseAgent.name a +:+ " starting")
                   (BaseAgent.set_status "running" s))) as (l & Hl).
    destruct (loop_trace clock a BaseAgent.MAX_ITERATIONS context
                (BaseAgent.addLog clock a "start"
                   ("Agent " +:+ BaseAgent.name a +:+ " starting")
                   (BaseAgent.set_status "running" s))) as (_ & _ & _ & _ & H5 & _).
    destruct (BaseAgent.loop clock a BaseAgent.MAX_ITERATIONS context _)
      as [[[e'|c] s1] ev]; simpl in *;
      destruct (H5 i p e Hi) as (Hlen & He); [|discriminate].
    injection He as ->. repeat split; auto.
    rewrite Hl. simpl. rewrite <- !app_assoc. simpl.
    eexists (_ :: l), _. reflexivity.
  - intros e He. unfold BaseAgent.run in *.
    destruct (loop_trace clock a BaseAgent.MAX_ITERATIONS context
                (BaseAgent.addLog clock a "start"
                   ("Agent " +:+ BaseAgent.name a +:+ " starting")
                   (BaseAgent.set_status "running" s)))
      as (_ & _ & _ & _ & _ & H6).
    destruct (BaseAgent.loop clock a BaseAgent.MAX_ITERATIONS context _)
      as [[[e'|c] s1] ev]; simpl in *; [|discriminate].
    injection He as ->. now apply H6.
  - unfold BaseAgent.run, BaseAgent.MAX_ITERATIONS. simpl.
    unfold BaseAgent.iteration.
    repeat split; intros.
    all: repeat match goal with
         | H : outcome _ = _ |- _ => rewrite H; clear H
         end; reflexivity.
Qed.

(* ================================================================== *)
(** * 10. Properties of the merge                                      *)
(* ================================================================== *)

Section AllSettled.

Context {A : Type}.
Variable outcomes : list A.

Lemma settle_length (slots : list (option A)) (i : nat) :
  length (settle outcomes slots i) = length slots.
Proof.
  unfold settle. destruct (outcomes !! i); [apply length_insert|reflexivity].
Qed.

Lemma fold_settle_length (settled : list nat) (slots : list (option A)) :
  length (fold_left (settle outcomes) settled slots) = length slots.
Proof.
  revert slots. induction settled as [|j settled IH]; intros slots; [reflexivity|].
  simpl. now rewrite IH, settle_length.
Qed.

(** A slot holds the outcome of its promise once the promise has
    settled. *)
Lemma fold_settle_lookup (settled : list nat) (slots : list (option A))
    (i : nat) (r : A) :
  length slots = length outcomes ->
  outcomes !! i = Some r ->
  (slots !! i = Some (Some r) \/ In i settled) ->
  fold_left (settle outcomes) settled slots !! i = Some (Some r).
Proof.
  revert slots. induction settled as [|j settled IH]; intros slots Hlen Hr Hi.
  - destruct Hi as [Hi|[]]. exact Hi.
  - simpl. apply IH; [now rewrite settle_length|exact Hr|].
    destruct (decide (i = j)) as [->|Hne].
    + left. unfold settle. rewrite Hr. apply list_lookup_insert_eq.
      rewrite Hlen. now apply lookup_lt_Some with r.
    + destruct Hi as [Hi|[Hi|Hi]]; [|congruence|now right].
      left. unfold settle. destruct (outcomes !! j); [|exact Hi].
      rewrite list_lookup_insert_ne; [exact Hi|congruence].
Qed.

(** A slot never holds anything but the outcome of its promise. *)
Lemma fold_settle_sound (settled : list nat) (slots : list (option A)) :
  (forall i r, slots !! i = Some (Some r) -> outcomes !! i = Some r) ->
  forall i r,
    fold_left (settle outcomes) settled slots !! i = Some (Some r) ->
    outcomes !! i = Some r.
Proof.
  revert slots. induction settled as [|j settled IH]; intros slots Hs;
    [exact Hs|].
  simpl. apply IH. intros i r Hi. unfold settle in Hi.
  destruct (outcomes !! j) as [rj|] eqn:Hj; [|now apply Hs].
  destruct (decide (i = j)) as [->|Hne].
  - destruct (decide (j < length slots)%nat) as [Hlt|Hge].
    + rewrite list_lookup_insert_eq in Hi by exact Hlt. congruence.
    + rewrite list_insert_ge in Hi by lia. now apply Hs.
  - rewrite list_lookup_insert_ne in Hi by congruence. now apply Hs.
Qed.

(** The barrier: once every promise has settled, in whatever order, the
    result lists the outcomes in the order of the promises. *)
Lemma allSettled_any_order (settled : list nat) :
  Permutation settled (seq 0 (length outcomes)) ->
  allSettled outcomes settled = Some outcomes.
Proof.
  intros Hp. unfold allSettled. apply mapM_Some_2.
  apply Forall2_same_length_lookup_2.
  - now rewrite fold_settle_length, length_replicate.
  - intros i x y Hx Hy.
    rewrite (fold_settle_lookup settled _ i y) in Hx.
    + now injection Hx as ->.
    + apply length_replicate.
    + exact Hy.
    + right. apply Permutation_in with (seq 0 (length outcomes)).
      * now symmetry.
      * apply in_seq. apply lookup_lt_Some in Hy. lia.
Qed.

(** Whatever the barrier hands over is the list of outcomes. *)
Lemma allSettled_Some (settled : list nat) (results : list A) :
  allSettled outcomes settled = Some results -> results = outcomes.
Proof.
  unfold allSettled. intros H. apply mapM_Some_1 in H.
  apply list_eq_same_length with (length outcomes); auto.
  - apply Forall2_length in H.
    now rewrite <- H, fold_settle_length, length_replicate.
  - intros i x y Hi Hx Hy.
    destruct (Forall2_lookup_r _ _ _ _ _ H Hx) as (z & Hz & Hzx).
    simpl in Hzx. subst z.
    apply fold_settle_sound in Hz; [congruence|].
    intros j r Hj. apply lookup_replicate in Hj as [Hj _]. discriminate.
Qed.

End AllSettled.

Section Merge.
Import Orchestrator.

Lemma to_string_outcome (v : val) :
  outcome (JsP.to_string v)
  = if Js.converts v then inr (Js.to_str v) else inl (TypeError not_primitive).
Proof. unfold JsP.to_string. now destruct (Js.converts v). Qed.

(** [buildSummary] throws exactly for an employee that is not
    printable. *)
Lemma buildSummary_outcome (o : t) (env : Env) (e : Employee)
    (logs : gmap string Logs) :
  outcome (buildSummary o env e logs)
  = if printable e then inr (summary_of o env e logs (employeeName e))
    else inl (TypeError not_primitive).
Proof.
  unfold buildSummary, printable, employeeName, bind, JsP.to_string.
  destruct (Js.converts (Js.get (props e) "firstName")); [|reflexivity].
  cbn [outcome ret andb].
  destruct (Js.converts (Js.get (props e) "lastName")); reflexivity.
Qed.

(** [onboard] unfolded: it rejects when a copy cannot be made, stays
    pending when a run never settles, rejects when the merged employee
    is not printable, and otherwise returns the plan merged from the
    four outcomes. *)
Lemma onboard_unfold (o : t) (env : Env) (employeeData : obj) :
  onboard o env employeeData
  = match outcome (copyFor (context_of (initial_employee env employeeData))) with
    | inl e => (Rejected e, o)
    | inr copy =>
        match allSettled (outcomes env o copy) (settled env) with
        | None => (Pending, after env o copy)
        | Some results =>
            if printable (merged (initial_employee env employeeData) results)
            then (Fulfilled (plan_of env (after env o copy)
                               (initial_employee env employeeData) results),
                  after env o copy)
            else (Rejected (TypeError not_primitive), after env o copy)
        end
    end.
Proof.
  unfold onboard, outcomes, after, plan_of, merged, keys.
  cbn [List.map employee context_of].
  destruct (outcome (copyFor _)) as [e|copy]; [reflexivity|].
  destruct (run_agent env o key_hr copy) as [r1 a1].
  destruct (run_agent env o key_it copy) as [r2 a2].
  destruct (run_agent env o key_training copy) as [r3 a3].
  destruct (run_agent env o key_buddy copy) as [r4 a4].
  cbn [fst snd].
  destruct (allSettled _ _) as [results|]; [|reflexivity].
  cbv zeta. rewrite buildSummary_outcome.
  destruct (printable _); reflexivity.
Qed.

Lemma onboard_fulfilled (o : t) (env : Env) (employeeData : obj) (copy : Context) :
  outcome (copyFor (context_of (initial_employee env employeeData))) = inr copy ->
  Permutation (settled env) [0; 1; 2; 3]%nat ->
  printable (merged (initial_employee env employeeData) (outcomes env o copy))
  = true ->
  onboard o env employeeData
  = (Fulfilled (plan_of env (after env o copy)
                  (initial_employee env employeeData) (outcomes env o copy)),
     after env o copy).
Proof.
  intros Hc Hp Hn. rewrite onboard_unfold, Hc.
  now rewrite (allSettled_any_order (outcomes env o copy) (settled env) Hp), Hn.
Qed.

Lemma onboard_rejected (o : t) (env : Env) (employeeData : obj) (copy : Context) :
  outcome (copyFor (context_of (initial_employee env employeeData))) = inr copy ->
  Permutation (settled env) [0; 1; 2; 3]%nat ->
  printable (merged (initial_employee env employeeData) (outcomes env o copy))
  = false ->
  onboard o env employeeData
  = (Rejected (TypeError not_primitive), after env o copy).
Proof.
  intros Hc Hp Hn. rewrite onboard_unfold, Hc.
  now rewrite (allSettled_any_order (outcomes env o copy) (settled env) Hp), Hn.
Qed.

Lemma onboard_inv (o : t) (env : Env) (employeeData : obj) (plan : Plan.t) (o' : t) :
  onboard o env employeeData = (Fulfilled plan, o') ->
  exists copy,
    outcome (copyFor (context_of (initial_employee env employeeData))) = inr copy
    /\ o' = after env o copy
    /\ plan = plan_of env o' (initial_employee env employeeData)
                      (outcomes env o copy).
Proof.
  rewrite onboard_unfold.
  destruct (outcome (copyFor _)) as [e|copy]; [discriminate|].
  destruct (allSettled _ _) as [results|] eqn:Ha; [|discriminate].
  apply allSettled_Some in Ha. subst results.
  destruct (printable _); [|discriminate].
  intros [= <- <-]. eauto.
Qed.

(** The orchestrator after a call whose copy could be made. *)
Lemma onboard_after (o : t) (env : Env) (employeeData : obj) (copy : Context) :
  outcome (copyFor (context_of (initial_employee env employeeData))) = inr copy ->
  snd (onboard o env employeeData) = after env o copy.
Proof.
  intros Hc. rewrite onboard_unfold, Hc.
  destruct (allSettled _ _) as [results|]; [|reflexivity].
  now destruct (printable _).
Qed.

Lemma merge_agentLogs (e : Employee) (r1 r2 r3 r4 : Error + Context) :
  agentLogs (merge e [r1; r2; r3; r4])
  = <["buddy" := logs_for key_buddy r4]>
      (<["training" := logs_for key_training r3]>
         (<["it" := logs_for key_it r2]>
            (<["hr" := logs_for key_hr r1]> ∅))).
Proof. destruct r1, r2, r3, r4; reflexivity. Qed.

Lemma merge_mergedTasks (e : Employee) (r1 r2 r3 r4 : Error + Context) :
  mergedTasks (merge e [r1; r2; r3; r4])
  = (tasks_of r1 ++ tasks_of r2 ++ tasks_of r3 ++ tasks_of r4)%list.
Proof.
  destruct r1, r2, r3, r4; simpl; rewrite ?app_nil_r, <- ?app_assoc; reflexivity.
Qed.

End Merge.

(* ================================================================== *)
(** * 11. The orchestrator: merge order, failure isolation, logs       *)
(* ================================================================== *)

(** C1.  When the four runs are fulfilled, the task list of the employee
    [onboard] returns is the task list of the HR run, then that of the
    IT run, then Training, then Buddy, each as the run returned it on
    its own copy of the context; the order in which the four promises
    settle plays no part.  [onboard] returns that employee when the two
    names of the merged employee convert to strings; when one does not,
    the summary throws and [onboard] rejects, so that no employee is
    returned. *)
Theorem C1_merge_order
    (o : Orchestrator.t) (env : Orchestrator.Env) (employeeData : obj)
    (copy c1 c2 c3 c4 : Context) :
  Permutation (Orchestrator.settled env) [0; 1; 2; 3]%nat ->
  outcome (Orchestrator.copyFor
             (context_of (Orchestrator.initial_employee env employeeData)))
  = inr copy ->
  fst (Orchestrator.run_agent env o Orchestrator.key_hr copy) = inr c1 ->
  fst (Orchestrator.run_agent env o Orchestrator.key_it copy) = inr c2 ->
  fst (Orchestrator.run_agent env o Orchestrator.key_training copy) = inr c3 ->
  fst (Orchestrator.run_agent env o Orchestrator.key_buddy copy) = inr c4 ->
  let merged :=
    Orchestrator.merged (Orchestrator.initial_employee env employeeData)
      [inr c1; inr c2; inr c3; inr c4] in
  (forall plan o',
      Orchestrator.onboard o env employeeData = (Fulfilled plan, o') ->
      tasks (Orchestrator.Plan.employee plan)
      = (tasks (employee c1) ++ tasks (employee c2)
         ++ tasks (employee c3) ++ tasks (employee c4))%list)
  /\ (Orchestrator.printable merged = true ->
      exists plan o',
        Orchestrator.onboard o env employeeData = (Fulfilled plan, o')
        /\ tasks (Orchestrator.Plan.employee plan)
           = (tasks (employee c1) ++ tasks (employee c2)
              ++ tasks (employee c3) ++ tasks (employee c4))%list)
  /\ (Orchestrator.printable merged = false ->
      Orchestrator.onboard o env employeeData
      = (Rejected (TypeError not_primitive), Orchestrator.after env o copy)).
Proof.
  intros Hp Hc H1 H2 H3 H4 merged.
  assert (Ho : Orchestrator.outcomes env o copy = [inr c1; inr c2; inr c3; inr c4]).
  { unfold Orchestrator.outcomes, Orchestrator.keys. cbn [List.map].
    now rewrite H1, H2, H3, H4. }
  assert (Ht : forall o',
             tasks (Orchestrator.Plan.employee
                      (Orchestrator.plan_of env o'
                         (Orchestrator.initial_employee env employeeData)
                         [inr c1; inr c2; inr c3; inr c4]))
             = (tasks (employee c1) ++ tasks (employee c2)
                ++ tasks (employee c3) ++ tasks (employee c4))%list).
  { intros o'. unfold Orchestrator.plan_of.
    cbn [Orchestrator.Plan.employee tasks].
    now rewrite merge_mergedTasks. }
  split; [|split].
  - intros plan o' H. apply onboard_inv in H as (copy' & Hc' & _ & ->).
    assert (copy' = copy) by congruence. subst copy'. rewrite Ho. apply Ht.
  - intros Hn. do 2 eexists. split.
    + apply (onboard_fulfilled o env employeeData copy Hc Hp). now rewrite Ho.
    + rewrite Ho. apply Ht.
  - intros Hn. apply (onboard_rejected o env employeeData copy Hc Hp).
    now rewrite Ho.
Qed.

(** C2, amended.  When the run of one agent is rejected with an error
    and the other three are fulfilled, and the two names of the merged
    employee convert to strings, [onboard] is fulfilled with a plan in
    which: the logs of the failed agent are one entry of action error
    whose detail is the message of the error, and its summary reports one
    action and the status error; the logs of the others are their own
    log arrays; the tasks are those of the three others, in the fixed
    order; the properties of the employee are those the three others
    returned, laid over the initial ones in the fixed order; and the
    timeline is built from the merged tasks.  When a name does not
    convert, the summary throws and [onboard] rejects. *)
Theorem C2_failure_isolation
    (o : Orchestrator.t) (env : Orchestrator.Env) (employeeData : obj)
    (copy : Context) (failed : Orchestrator.AgentKey) (e : Error)
    (ctx : Orchestrator.AgentKey -> Context) :
  Permutation (Orchestrator.settled env) [0; 1; 2; 3]%nat ->
  outcome (Orchestrator.copyFor
             (context_of (Orchestrator.initial_employee env employeeData)))
  = inr copy ->
  fst (Orchestrator.run_agent env o failed copy) = inl e ->
  (forall k, k <> failed ->
             fst (Orchestrator.run_agent env o k copy) = inr (ctx k)) ->
  let merged :=
    Orchestrator.merged (Orchestrator.initial_employee env employeeData)
      (Orchestrator.outcomes env o copy) in
  (Orchestrator.printable merged = true ->
   exists plan o',
     Orchestrator.onboard o env employeeData = (Fulfilled plan, o')
     /\ Orchestrator.Plan.agentLogs plan !! Orchestrator.key_name failed
        = Some (Orchestrator.Entries
                  [LogEntry.mk None (Orchestrator.key_name failed) "error"
                               (message e)])
     /\ Summary.agentSummaries (Orchestrator.Plan.summary plan)
          !! Orchestrator.key_name failed
        = Some (AgentSummary.mk 1 "error" [message e])
     /\ (forall k, k <> failed ->
           Orchestrator.Plan.agentLogs plan !! Orchestrator.key_name k
           = Some (Orchestrator.LogOf k))
     /\ tasks (Orchestrator.Plan.employee plan)
        = flat_map (fun k => tasks (employee (ctx k))) (Orchestrator.others failed)
     /\ props (Orchestrator.Plan.employee plan)
        = fold_left (fun p k => props (employee (ctx k)) ∪ p)
                    (Orchestrator.others failed)
                    (props (Orchestrator.initial_employee env employeeData))
     /\ Orchestrator.Plan.timeline plan
        = Orchestrator.buildTimeline (tasks (Orchestrator.Plan.employee plan)))
  /\ (Orchestrator.printable merged = false ->
      Orchestrator.onboard o env employeeData
      = (Rejected (TypeError not_primitive), Orchestrator.after env o copy)).
Proof.
  intros Hp Hc Hf Ho merged.
  split; [|intros Hn; exact (onboard_rejected o env employeeData copy Hc Hp Hn)].
  intros Hn.
  do 2 eexists.
  split; [apply (onboard_fulfilled o env employeeData copy Hc Hp Hn)|].
  clear Hn merged.
  unfold Orchestrator.plan_of, Orchestrator.outcomes, Orchestrator.keys.
  cbn [List.map Orchestrator.Plan.agentLogs Orchestrator.Plan.summary
       Orchestrator.Plan.employee Orchestrator.Plan.timeline tasks props
       Summary.agentSummaries Orchestrator.summary_of].
  rewrite merge_agentLogs, merge_mergedTasks.
  destruct failed; rewrite Hf;
    repeat match goal with
    | |- context [fst (Orchestrator.run_agent env o ?k copy)] =>
        rewrite (Ho k) by discriminate
    end;
    (split; [reflexivity|]);
    (split; [rewrite lookup_fmap; reflexivity|]);
    (split; [intros k Hk; destruct k; try congruence; reflexivity|]);
    (split; [cbn; rewrite ?app_nil_r, <- ?app_assoc; reflexivity|]);
    split; reflexivity.
Qed.

Section Logs.
Import Orchestrator.

Lemma agentLogs_lookup (env : Env) (o : t) (copy : Context) (e : Employee)
    (k : AgentKey) :
  agentLogs (merge e (outcomes env o copy)) !! key_name k
  = Some (logs_for k (fst (run_agent env o k copy))).
Proof.
  unfold outcomes, keys. cbn [List.map]. rewrite merge_agentLogs.
  destruct k; cbn [key_name].
  - rewrite !lookup_insert_ne by discriminate. apply lookup_insert_eq.
  - rewrite !lookup_insert_ne by discriminate. apply lookup_insert_eq.
  - rewrite !lookup_insert_ne by discriminate. apply lookup_insert_eq.
  - apply lookup_insert_eq.
Qed.

Lemma after_agent (env : Env) (o : t) (copy : Context) (k : AgentKey) :
  agent (after env o copy) k = snd (run_agent env o k copy).
Proof. now destruct k. Qed.

(** A call appends to the log of every agent, two entries or more. *)
Lemma after_log (env : Env) (o : t) (copy : Context) (k : AgentKey) :
  exists l,
    BaseAgent.log (Agent.state (agent (after env o copy) k))
    = (BaseAgent.log (Agent.state (agent o k)) ++ l)%list
    /\ (2 <= length l)%nat.
Proof.
  rewrite after_agent. unfold run_agent.
  destruct (run_log (clock env k) (Agent.impl (agent o k)) copy
              (Agent.state (agent o k))) as (l & Hl & Hlen).
  destruct (BaseAgent.run _ _ _ _) as [[r s] tr]. simpl in *. eauto.
Qed.

End Logs.

(** C10.  Take two successive calls of [onboard] on one orchestrator,
    both fulfilled, and an agent [k] whose run is fulfilled in the second
    call, so that the second plan gives the log array of the agent
    itself.  That array is the log the agent had before the first call,
    followed by the entries of the first call (two or more), followed by
    the entries of the second call (two or more): nothing is ever
    removed.  Whatever the first call returned for [k], read when it
    returned, is strictly shorter than what the second call returns, so
    the two calls return different [agentLogs] and different
    [totalActions], whatever their inputs.  When the first run of [k]
    was fulfilled as well, the first plan holds the same array: what the
    first call returned is a prefix of what the second returns, and read
    after the second call it is the longer log. *)
Theorem C10_logs_accumulate
    (o o1 o2 : Orchestrator.t) (env1 env2 : Orchestrator.Env)
    (data1 data2 : obj) (plan1 plan2 : Orchestrator.Plan.t)
    (k : Orchestrator.AgentKey) :
  Orchestrator.onboard o env1 data1 = (Fulfilled plan1, o1) ->
  Orchestrator.onboard o1 env2 data2 = (Fulfilled plan2, o2) ->
  Orchestrator.Plan.agentLogs plan2 !! Orchestrator.key_name k
  = Some (Orchestrator.LogOf k) ->
  let log0 := BaseAgent.log (Agent.state (Orchestrator.agent o k)) in
  let returned1 :=
    Orchestrator.entries o1 <$> Orchestrator.Plan.agentLogs plan1 in
  let returned2 :=
    Orchestrator.entries o2 <$> Orchestrator.Plan.agentLogs plan2 in
  (exists new1 new2,
      returned2 !! Orchestrator.key_name k = Some (log0 ++ new1 ++ new2)%list
      /\ BaseAgent.log (Agent.state (Orchestrator.agent o1 k))
         = (log0 ++ new1)%list
      /\ (2 <= length new1)%nat /\ (2 <= length new2)%nat)
  /\ (exists l1 l2,
        returned1 !! Orchestrator.key_name k = Some l1
        /\ returned2 !! Orchestrator.key_name k = Some l2
        /\ (length l1 < length l2)%nat)
  /\ returned1 <> returned2
  /\ (exists s1 s2,
        Summary.agentSummaries (Orchestrator.Plan.summary plan1)
          !! Orchestrator.key_name k = Some s1
        /\ Summary.agentSummaries (Orchestrator.Plan.summary plan2)
             !! Orchestrator.key_name k = Some s2
        /\ (AgentSummary.totalActions s1 < AgentSummary.totalActions s2)%nat)
  /\ (Orchestrator.Plan.agentLogs plan1 !! Orchestrator.key_name k
      = Some (Orchestrator.LogOf k) ->
      (exists new2,
          returned2 !! Orchestrator.key_name k
          = (fun l1 => (l1 ++ new2)%list)
              <$> returned1 !! Orchestrator.key_name k)
      /\ (Orchestrator.entries o2 <$> Orchestrator.Plan.agentLogs plan1)
           !! Orchestrator.key_name k
         = returned2 !! Orchestrator.key_name k).
Proof.
  intros H1 H2 Hk. cbv zeta.
  apply onboard_inv in H1 as (copy1 & _ & -> & ->).
  apply onboard_inv in H2 as (copy2 & _ & -> & ->).
  unfold Orchestrator.plan_of in *.
  cbn [Orchestrator.Plan.agentLogs Orchestrator.Plan.summary
       Summary.agentSummaries Orchestrator.summary_of] in *.
  rewrite !lookup_fmap.
  rewrite agentLogs_lookup in Hk. rewrite !agentLogs_lookup.
  destruct (after_log env1 o copy1 k) as (new1 & Hn1 & Hl1).
  destruct (after_log env2 (Orchestrator.after env1 o copy1) copy2 k)
    as (new2 & Hn2 & Hl2).
  set (o1 := Orchestrator.after env1 o copy1) in *.
  set (o2 := Orchestrator.after env2 o1 copy2) in *.
  set (r1 := fst (Orchestrator.run_agent env1 o k copy1)) in *.
  set (r2 := fst (Orchestrator.run_agent env2 o1 k copy2)) in *.
  assert (Hr2 : Orchestrator.logs_for k r2 = Orchestrator.LogOf k)
    by congruence.
  rewrite Hr2. cbn [fmap option_fmap option_map Orchestrator.entries].
  assert (Hshort :
            (length (Orchestrator.entries o1 (Orchestrator.logs_for k r1))
             < length (BaseAgent.log (Agent.state (Orchestrator.agent o2 k))))%nat).
  { rewrite Hn2, Hn1, !length_app.
    destruct r1; cbn [Orchestrator.logs_for Orchestrator.entries length].
    - lia.
    - rewrite Hn1, length_app. lia. }
  split; [|split; [|split; [|split]]].
  - exists new1, new2. rewrite Hn2, Hn1, <- app_assoc. auto.
  - eauto.
  - intros Heq.
    assert (Hat := f_equal (fun m => m !! Orchestrator.key_name k) Heq).
    cbn beta in Hat. rewrite !lookup_fmap, !agentLogs_lookup in Hat.
    fold r1 r2 in Hat. rewrite Hr2 in Hat.
    cbn [fmap option_fmap option_map Orchestrator.entries] in Hat.
    injection Hat as Hat. rewrite Hat in Hshort. lia.
  - do 2 eexists. split; [reflexivity|]. split; [reflexivity|].
    exact Hshort.
  - intros Hfirst. injection Hfirst as Hfirst. rewrite Hfirst.
    cbn [Orchestrator.entries]. split; [|reflexivity].
    exists new2. now rewrite Hn2.
Qed.

(* ================================================================== *)
(** * 12. The timeline                                                 *)
(* ================================================================== *)

Section Timeline.
Import Orchestrator.

Lemma timeline_fold (tasks : list Task.t)
    (timeline : gmap string (list TimelineEntry.t)) (b : string) :
  fold_left
    (fun timeline task =>
       <[bucket task :=
           (default [] (timeline !! bucket task) ++ [timeline_entry task])%list]>
         timeline)
    tasks timeline !! b
  = match timeline !! b, in_bucket b tasks with
    | None, [] => None
    | o, l => Some (default [] o ++ l)%list
    end.
Proof.
  revert timeline. induction tasks as [|t tasks IH]; intros timeline.
  - unfold in_bucket. simpl. destruct (timeline !! b); simpl;
      [now rewrite app_nil_r|reflexivity].
  - simpl. rewrite IH. unfold in_bucket. simpl.
    destruct (String.eqb_spec (bucket t) b) as [->|Hne].
    + rewrite lookup_insert_eq. simpl. rewrite <- app_assoc. simpl.
      now destruct (timeline !! b).
    + rewrite lookup_insert_ne by exact Hne. reflexivity.
Qed.

End Timeline.

(** C3, amended.  For every list of tasks and every bucket name, the
    timeline holds under that name the entries of exactly the tasks whose
    bucket it is, in the order of the list, and holds nothing under a
    name that is the bucket of no task; so every task is in one bucket
    and no other.  The bucket depends on dueInDays alone: absent or zero
    is Immediate; otherwise up to 3 is Day 1-3, 4 to 7 is Week 1, 8 to
    14 is Week 2, 15 to 30 is Month 1 and above 30 is Month 2-3. *)
Theorem C3_timeline_partition (tasks : list Task.t) :
  (forall b,
      Orchestrator.buildTimeline tasks !! b
      = match Orchestrator.in_bucket b tasks with
        | [] => None
        | l => Some l
        end)
  /\ (forall i t,
        tasks !! i = Some t ->
        exists j l,
          Orchestrator.buildTimeline tasks !! Orchestrator.bucket t = Some l
          /\ l !! j = Some (Orchestrator.timeline_entry t))
  /\ (forall t,
        Orchestrator.bucket t
        = match Task.dueInDays t with
          | None => "Immediate"
          | Some d =>
              if d =? 0 then "Immediate"
              else if d <=? 3 then "Day 1-3"
              else if d <=? 7 then "Week 1"
              else if d <=? 14 then "Week 2"
              else if d <=? 30 then "Month 1"
              else "Month 2-3"
          end)
  /\ (forall t d,
        Task.dueInDays t = Some d -> 0 < d ->
        Orchestrator.bucket t = Claimed.bucket t).
Proof.
  assert (Hb : forall b,
      Orchestrator.buildTimeline tasks !! b
      = match Orchestrator.in_bucket b tasks with [] => None | l => Some l end).
  { intros b. unfold Orchestrator.buildTimeline. rewrite timeline_fold.
    rewrite lookup_empty. reflexivity. }
  split; [exact Hb|split; [|split]].
  - intros i t Hi. rewrite Hb.
    assert (Hin : In (Orchestrator.timeline_entry t)
                     (Orchestrator.in_bucket (Orchestrator.bucket t) tasks)).
    { unfold Orchestrator.in_bucket. apply in_map. apply filter_In. split.
      - apply list_elem_of_In. eapply list_elem_of_lookup_2. exact Hi.
      - apply String.eqb_refl. }
    destruct (Orchestrator.in_bucket (Orchestrator.bucket t) tasks) as [|x l] eqn:E;
      [destruct Hin|].
    apply list_elem_of_In, list_elem_of_lookup_1 in Hin as (j & Hj). eauto.
  - reflexivity.
  - intros t d Hd Hpos. unfold Orchestrator.bucket, Claimed.bucket. rewrite Hd.
    destruct (Z.eqb_spec d 0); [lia|reflexivity].
Qed.

(** C3, as stated, fails for a task that is due in zero days: the
    specification puts it in Day 1-3, the code files it under
    Immediate. *)
Lemma C3_counterexample_due_today :
  Task.dueInDays Sample.due_today = Some 0
  /\ Claimed.bucket Sample.due_today = "Day 1-3"
  /\ Orchestrator.buildTimeline [Sample.due_today] !! "Day 1-3" = None
  /\ Orchestrator.buildTimeline [Sample.due_today] !! "Immediate"
     = Some [Orchestrator.timeline_entry Sample.due_today].
Proof. repeat split; vm_compute; reflexivity. Qed.

(* ================================================================== *)
(** * 13. The classifier                                               *)
(* ================================================================== *)

Section Classifier.
Import Js ClfModel.

Variable Date_of : val -> option Z.
Variable today : Z.

Lemma get_insert (o : obj) (k k' : string) (v : val) :
  get (<[k := v]> o) k' = if String.eqb k k' then v else get o k'.
Proof.
  unfold get. destruct (String.eqb_spec k k') as [->|Hne].
  - now rewrite lookup_insert_eq.
  - now rewrite lookup_insert_ne.
Qed.

Lemma level_monotone (s1 s2 : Z) :
  s1 <= s2 -> (rank (level s1) <= rank (level s2))%nat.
Proof.
  intros H. unfold level.
  destruct (Z.leb_spec 5 s1), (Z.leb_spec 5 s2),
           (Z.leb_spec 2 s1), (Z.leb_spec 2 s2);
    cbn; lia.
Qed.

Lemma startDate_penalty_bounds (v : val) : 0 <= startDate_penalty Date_of today v <= 3.
Proof.
  unfold startDate_penalty.
  destruct (truthy v); [|lia].
  destruct (_leadDays Date_of today v) as [d|]; [|lia].
  destruct (d <? 0), (d <? 3), (d <? 7); lia.
Qed.

(** The score drops by the penalty of a field, among the five with a
    fixed penalty, that goes from missing to filled, and stays when the
    added value is itself empty. *)
Lemma riskScore_fill (employee : obj) (field : string) (penalty : Z) (v : val) :
  In (field, penalty)
     [("email", 2); ("role", 2); ("department", 2); ("manager", 1);
      ("location", 1)] ->
  truthy (get employee field) = false ->
  riskScore Date_of today (<[field := v]> employee)
  = riskScore Date_of today employee - (if truthy v then penalty else 0).
Proof.
  intros Hin Hmiss. unfold riskScore, missing_penalty.
  simpl in Hin.
  destruct Hin as [H|[H|[H|[H|[H|[]]]]]]; injection H as <- <-;
    rewrite !get_insert; simpl; rewrite Hmiss; destruct (truthy v); lia.
Qed.

Lemma riskScore_startDate (employee : obj) (v : val) :
  truthy (get employee "startDate") = false ->
  riskScore Date_of today (<["startDate" := v]> employee)
  = riskScore Date_of today employee - 1 + startDate_penalty Date_of today v.
Proof.
  intros Hmiss. unfold riskScore, missing_penalty.
  rewrite !get_insert. simpl.
  unfold startDate_penalty at 2. rewrite Hmiss. lia.
Qed.

End Classifier.

(** C5, amended.  Take a profile in which a field is missing (absent or
    empty) and give that field a value, every other field staying as it
    is.  If the field is email, role, department, manager or location,
    the risk score does not increase, and neither does the risk level.
    If the field is the start date, the same holds provided the date
    added is not less than three days ahead (or is no date at all); a
    start date that is closer, or past, raises the score by one or two. *)
Theorem C5_risk_monotone
    (Date_of : val -> option Z) (today : Z) (employee : obj)
    (field : string) (v : val) :
  Js.truthy (Js.get employee field) = false ->
  (In field ["email"; "role"; "department"; "manager"; "location"]
   \/ (field = "startDate"
       /\ forall d, Js.truthy v = true ->
                    ClfModel._leadDays Date_of today v = Some d -> 3 <= d)) ->
  ClfModel.riskScore Date_of today (<[field := v]> employee)
  <= ClfModel.riskScore Date_of today employee
  /\ (ClfModel.rank (ClfModel._classifyRisk Date_of today (<[field := v]> employee))
      <= ClfModel.rank (ClfModel._classifyRisk Date_of today employee))%nat.
Proof.
  intros Hmiss Hfield.
  assert (Hle : ClfModel.riskScore Date_of today (<[field := v]> employee)
                <= ClfModel.riskScore Date_of today employee).
  { destruct Hfield as [Hin|[-> Hd]].
    - assert (exists penalty,
                 In (field, penalty)
                    [("email", 2); ("role", 2); ("department", 2);
                     ("manager", 1); ("location", 1)] /\ 0 <= penalty)
        as (penalty & Hp & Hpos).
      { simpl in Hin. simpl.
        destruct Hin as [<-|[<-|[<-|[<-|[<-|[]]]]]]; eexists; split;
          try (repeat (try (left; reflexivity); right)); lia. }
      rewrite (riskScore_fill Date_of today employee field penalty v Hp Hmiss).
      destruct (Js.truthy v); lia.
    - rewrite (riskScore_startDate Date_of today employee v Hmiss).
      unfold ClfModel.startDate_penalty.
      destruct (Js.truthy v); [|lia].
      destruct (ClfModel._leadDays Date_of today v) as [d|]; [|lia].
      specialize (Hd d eq_refl eq_refl).
      destruct (Z.ltb_spec d 0), (Z.ltb_spec d 3), (Z.ltb_spec d 7); lia. }
  split; [exact Hle|]. now apply level_monotone.
Qed.

(** C5, as stated, fails for the start date: a profile that lacks only
    the start date has score 1 and level low; with a start date of
    yesterday it has score 3 and level medium. *)
Lemma C5_counterexample_past_startDate :
  Js.truthy (Js.get Sample.complete_but_startDate "startDate") = false
  /\ ClfModel._leadDays Sample.epoch Sample.next_day (VStr "1970-01-01")
     = Some (-1)
  /\ ClfModel.riskScore Sample.epoch Sample.next_day
       Sample.complete_but_startDate = 1
  /\ ClfModel.riskScore Sample.epoch Sample.next_day
       (<["startDate" := VStr "1970-01-01"]> Sample.complete_but_startDate) = 3
  /\ ClfModel._classifyRisk Sample.epoch Sample.next_day
       Sample.complete_but_startDate = "low"
  /\ ClfModel._classifyRisk Sample.epoch Sample.next_day
       (<["startDate" := VStr "1970-01-01"]> Sample.complete_but_startDate)
     = "medium".
Proof. repeat split; vm_compute; reflexivity. Qed.

(* ================================================================== *)
(** * 14. Buddy matching                                               *)
(* ================================================================== *)

Section BuddyMatching.
Import Js JsP BuddyAgent.

(** The head of the sorted array is the first element of greatest
    score: everything before it in the array scores less, nothing after
    it scores more. *)
Lemma sort_by_score_head (l : list Scored.t) :
  l <> [] ->
  exists pre best post,
    l = (pre ++ best :: post)%list
    /\ head (sort_by_score l) = Some best
    /\ Forall (fun y => Scored.score y < Scored.score best) pre
    /\ Forall (fun y => Scored.score y <= Scored.score best) post.
Proof.
  induction l as [|x r IH]; [congruence|]. intros _.
  destruct r as [|y r'].
  - exists [], x, []. simpl. auto.
  - destruct IH as (pre & best & post & Hr & Hh & Hpre & Hpost); [discriminate|].
    simpl in *. destruct (insert_by_score y (sort_by_score r')) as [|b rest] eqn:E;
      [discriminate|].
    injection Hh as ->. simpl.
    destruct (Z.ltb_spec (Scored.score x) (Scored.score best)) as [Hlt|Hge].
    + exists (x :: pre), best, post. rewrite Hr. simpl. auto.
    + exists [], x, (y :: r'). simpl. repeat split; auto.
      rewrite Hr. apply Forall_app. split.
      * eapply Forall_impl; [exact Hpre|]. simpl. intros. lia.
      * constructor; [lia|]. eapply Forall_impl; [exact Hpost|]. simpl. intros. lia.
Qed.

Lemma firstn_head {A} (n : nat) (l : list A) : head (firstn (S n) l) = head l.
Proof. now destruct l. Qed.

Lemma decide_unassigned (c : Context) (candidates : list Scored.t) :
  buddyPerception c = Some (BuddyPerception.mk candidates false) ->
  outcome (decide c)
  = inr (assign_buddy (head candidates)
         :: if truthy (get (props (employee c)) "checkInsScheduled")
            then [] else [schedule_check_ins]).
Proof. intros H. unfold decide. rewrite H. reflexivity. Qed.

Lemma act_assign (c : Context) (b : Scored.t) (scheduled : bool) :
  exists c',
    outcome (act c (assign_buddy (Some b)
                    :: if scheduled then [] else [schedule_check_ins]))
    = inr c'
    /\ get (props (employee c')) "buddy" = Scored.to_val b.
Proof.
  destruct scheduled; eexists; (split; [reflexivity|]);
    cbn; unfold get; cbn;
    rewrite ?lookup_insert_ne by discriminate;
    rewrite lookup_insert_eq; reflexivity.
Qed.

End BuddyMatching.



(* ================================================================== *)
(** * 15. What a run of an agent adds to the task list                 *)
(* ================================================================== *)

Lemma outcome_bind_inr {A B} (m : Phase A) (f : A -> Phase B) (y : B) :
  outcome (let* x := m in f x) = inr y ->
  exists x, outcome m = inr x /\ outcome (f x) = inr y.
Proof.
  unfold bind. destruct (outcome m) as [e|x]; simpl; [discriminate|]. eauto.
Qed.

Lemma outcome_bind (A B : Type) (m : Phase A) (f : A -> Phase B) (x : A) :
  outcome m = inr x -> outcome (let* x := m in f x) = outcome (f x).
Proof. intros H. unfold bind. now rewrite H. Qed.

Lemma filterP_sublist {A} (f : A -> Phase bool) (l l' : list A) :
  outcome (filterP f l) = inr l' -> sublist l' l.
Proof.
  revert l'. induction l as [|x r IH]; intros l' H; simpl in H.
  - injection H as <-. constructor.
  - apply outcome_bind_inr in H as (b & _ & H).
    apply outcome_bind_inr in H as (r' & Hr & H).
    injection H as <-. specialize (IH r' Hr).
    destruct b; now constructor.
Qed.

Lemma filterP_none {A} (f : A -> Phase bool) (l : list A) :
  Forall (fun x => outcome (f x) = inr false) l ->
  outcome (filterP f l) = inr [].
Proof.
  induction 1 as [|x r Hx _ IH]; [reflexivity|].
  simpl. rewrite (outcome_bind _ _ _ _ _ Hx), (outcome_bind _ _ _ _ _ IH).
  reflexivity.
Qed.

Lemma push_tasks_tasks (c : Context) (ts : list Task.t) :
  tasks (employee (push_tasks c ts)) = (tasks (employee c) ++ ts)%list.
Proof.
  unfold push_tasks. revert c. induction ts as [|t ts IH]; intros c; simpl.
  - now rewrite app_nil_r.
  - rewrite IH. simpl. now rewrite <- app_assoc.
Qed.

Lemma push_tasks_props (c : Context) (ts : list Task.t) :
  props (employee (push_tasks c ts)) = props (employee c).
Proof.
  unfold push_tasks. revert c.
  induction ts as [|t ts IH]; intros c; simpl; [reflexivity|].
  now rewrite IH.
Qed.

(** The tasks a list of actions adds, when each action adds [g]. *)
Lemma foldP_tasks {B} (f : Context -> B -> Phase Context) (g : B -> list Task.t) :
  (forall c b c', outcome (f c b) = inr c' ->
                  tasks (employee c') = (tasks (employee c) ++ g b)%list) ->
  forall l c c',
    outcome (foldP f l c) = inr c' ->
    tasks (employee c') = (tasks (employee c) ++ flat_map g l)%list.
Proof.
  intros Hf l. induction l as [|b l IH]; intros c c' H; simpl in H.
  - injection H as <-. simpl. now rewrite app_nil_r.
  - apply outcome_bind_inr in H as (c1 & H1 & H).
    rewrite (IH _ _ H), (Hf _ _ _ H1). simpl. now rewrite <- app_assoc.
Qed.

Lemma namespaced_flat_map {B} (g : B -> list Task.t) (l : list B) :
  (forall b, Forall namespaced (g b)) -> Forall namespaced (flat_map g l).
Proof.
  intros H. apply Forall_flat_map. apply List.Forall_forall. intros b _. apply H.
Qed.

Lemma namespaced_map {B} (f : B -> Task.t) (l : list B) :
  (forall b, namespaced (f b)) -> Forall namespaced (List.map f l).
Proof.
  intros H. apply List.Forall_forall. intros t Ht.
  apply in_map_iff in Ht as (b & <- & _). apply H.
Qed.

Lemma sublist_map {A B} (f : A -> B) (l k : list A) :
  sublist l k -> sublist (List.map f l) (List.map f k).
Proof. induction 1; simpl; now constructor. Qed.

Section SinglePass.
Import BaseAgent.

(** An agent whose [perceive] leaves the employee alone, whose [act]
    adds the tasks [g] of each action, and whose [reflect] hands the
    context back with the completion signal set. *)
Variable a : Impl.
Variable g : Action a -> list Task.t.
Hypothesis perceive_employee :
  forall c pc, outcome (perceive a c) = inr pc -> employee pc = employee c.
Hypothesis act_tasks :
  forall c actions c',
    outcome (act a c actions) = inr c' ->
    tasks (employee c') = (tasks (employee c) ++ flat_map g actions)%list.
Hypothesis reflect_complete :
  forall c r, outcome (reflect a c) = inr r -> r = (true, c).

Lemma single_pass (n : nat) (c c' : Context) :
  passes a (S n) c = inr c' ->
  exists pc actions,
    outcome (perceive a c) = inr pc
    /\ outcome (decide a pc) = inr actions
    /\ tasks (employee c') = (tasks (employee c) ++ flat_map g actions)%list.
Proof.
  simpl. unfold pass.
  destruct (outcome (perceive a c)) as [e|pc] eqn:Hp; [discriminate|].
  destruct (outcome (decide a pc)) as [e|[|x actions]] eqn:Hd; [discriminate| |].
  - intros [= <-]. exists pc, []. rewrite (perceive_employee _ _ Hp). simpl.
    now rewrite app_nil_r.
  - destruct (outcome (act a pc (x :: actions))) as [e|c1] eqn:Ha; [discriminate|].
    destruct (outcome (reflect a c1)) as [e|r] eqn:Hr; [discriminate|].
    rewrite (reflect_complete _ _ Hr). intros [= <-].
    exists pc, (x :: actions). rewrite (act_tasks _ _ _ Ha).
    now rewrite (perceive_employee _ _ Hp).
Qed.

(** When [decide] finds nothing to do, the run is fulfilled with the
    perceived context. *)
Lemma no_actions_pass (n : nat) (c pc : Context) :
  outcome (perceive a c) = inr pc ->
  outcome (decide a pc) = inr [] ->
  passes a (S n) c = inr pc.
Proof. intros Hp Hd. simpl. unfold pass. now rewrite Hp, Hd. Qed.

End SinglePass.

Section HRTasks.
Import Js JsP HRAgent.

Lemma hr_perceive_employee (c pc : Context) :
  outcome (perceive c) = inr pc -> employee pc = employee c.
Proof.
  unfold perceive. intros H.
  apply outcome_bind_inr in H as (missing & _ & H). now injection H as <-.
Qed.

Lemma hr_perceive_missing (c pc : Context) :
  outcome (perceive c) = inr pc ->
  exists p, hrPerception pc = Some p
            /\ sublist (HRPerception.missing p) requiredDocs.
Proof.
  unfold perceive. intros H.
  apply outcome_bind_inr in H as (missing & Hm & H). injection H as <-.
  eexists. split; [reflexivity|]. simpl. now apply filterP_sublist in Hm.
Qed.

Lemma hr_act_tasks (c : Context) (actions : list Action) (c' : Context) :
  outcome (act c actions) = inr c' ->
  tasks (employee c') = (tasks (employee c) ++ flat_map action_tasks actions)%list.
Proof.
  apply foldP_tasks. clear. intros c [documents|policies|] c' H;
    simpl in H; injection H as <-; simpl.
  - apply push_tasks_tasks.
  - apply push_tasks_tasks.
  - reflexivity.
Qed.

Lemma hr_reflect_complete (c : Context) (r : bool * Context) :
  outcome (reflect c) = inr r -> r = (true, c).
Proof. unfold reflect. simpl. now intros [= <-]. Qed.

Lemma request_tasks (missing : list Doc.t) :
  flat_map action_tasks
    (if (0 <? length missing)%nat then [request_documents missing] else [])
  = List.map document_task missing.
Proof. destruct missing; simpl; [reflexivity|now rewrite app_nil_r]. Qed.

Lemma policy_tasks (pending : list string) :
  flat_map action_tasks
    (if (0 <? length pending)%nat
     then [assign_policy_acknowledgments pending] else [])
  = List.map policy_task pending.
Proof. destruct pending; simpl; [reflexivity|now rewrite app_nil_r]. Qed.

(** The ids of the tasks a fulfilled HR run adds are taken, in order,
    from the ids the agent can create. *)
Lemma hr_ids_sublist (n : nat) (c c' : Context) :
  BaseAgent.passes impl (S n) c = inr c' ->
  exists added,
    tasks (employee c') = (tasks (employee c) ++ added)%list
    /\ Forall namespaced added
    /\ sublist (List.map Task.id added) ids.
Proof.
  intros H.
  apply (single_pass impl action_tasks hr_perceive_employee hr_act_tasks
           hr_reflect_complete) in H as (pc & actions & Hp & Hd & Ht).
  exists (flat_map action_tasks actions). split; [exact Ht|].
  split.
  { apply namespaced_flat_map. intros [documents|policies|]; simpl.
    - apply namespaced_map. intros ?. split; [discriminate|reflexivity].
    - apply namespaced_map. intros ?. split; [discriminate|reflexivity].
    - repeat constructor. discriminate. }
  destruct (hr_perceive_missing _ _ Hp) as (p & Hpp & Hmiss).
  cbn [BaseAgent.decide impl] in Hd. unfold decide in Hd. rewrite Hpp in Hd.
  apply outcome_bind_inr in Hd as (pending & Hpend & Hd). injection Hd as <-.
  apply filterP_sublist in Hpend.
  rewrite !flat_map_app, request_tasks, policy_tasks, !map_app, !map_map.
  unfold ids. apply sublist_app; [|apply sublist_app].
  - now apply (sublist_map (fun doc => Task.id (document_task doc))).
  - now apply (sublist_map (fun policy => Task.id (policy_task policy))).
  - destruct (truthy _); simpl; repeat constructor.
Qed.

End HRTasks.

Section ITTasks.
Import Js JsP ITSetupAgent.

Lemma it_perceive_employee (c pc : Context) :
  outcome (perceive c) = inr pc -> employee pc = employee c.
Proof.
  unfold perceive. intros H.
  apply outcome_bind_inr in H as (department & _ & H). now injection H as <-.
Qed.

Lemma it_perceive_profile (c pc : Context) :
  outcome (perceive c) = inr pc ->
  exists department,
    outcome (lower_or (get (props (employee c)) "department") "default")
    = inr department
    /\ itPerception pc
       = Some (ITPerception.mk (profile_for department) department
                 (or (get (props (employee c)) "accounts") (VArr []))
                 (or (get (props (employee c)) "hardware") (VArr []))).
Proof.
  unfold perceive. intros H.
  apply outcome_bind_inr in H as (department & Hd & H). injection H as <-.
  eauto.
Qed.

Lemma it_act_tasks (c : Context) (actions : list Action) (c' : Context) :
  outcome (act c actions) = inr c' ->
  tasks (employee c') = (tasks (employee c) ++ flat_map action_tasks actions)%list.
Proof.
  apply foldP_tasks. clear. intros c [email|software|hardware|access] c' H;
    simpl in H.
  - injection H as <-. reflexivity.
  - apply outcome_bind_inr in H as (accounts & _ & H). injection H as <-.
    simpl. apply push_tasks_tasks.
  - injection H as <-. simpl. apply push_tasks_tasks.
  - injection H as <-. simpl. apply push_tasks_tasks.
Qed.

Lemma it_reflect_complete (c : Context) (r : bool * Context) :
  outcome (reflect c) = inr r -> r = (true, c).
Proof. unfold reflect. simpl. now intros [= <-]. Qed.

Lemma software_tasks (needed : list string) :
  flat_map action_tasks
    (if (0 <? length needed)%nat then [assign_software needed] else [])
  = List.map software_task needed.
Proof. destruct needed; simpl; [reflexivity|now rewrite app_nil_r]. Qed.

Lemma hardware_tasks (needed : list string) :
  flat_map action_tasks
    (if (0 <? length needed)%nat then [request_hardware needed] else [])
  = List.map hardware_task needed.
Proof. destruct needed; simpl; [reflexivity|now rewrite app_nil_r]. Qed.

Lemma profile_for_cases (department : string) (profile : Profile.t) :
  profile_for department = Some profile ->
  In profile [engineering; design; product; sales; default].
Proof.
  unfold profile_for, literal_lookup, roleProfiles. cbn [assoc].
  repeat match goal with
         | |- context [String.eqb ?k department] =>
             destruct (String.eqb k department)
         end;
    try (intros [= <-]; simpl; tauto).
  destruct (existsb _ _); [discriminate|]. intros [= <-]. simpl. tauto.
Qed.

(** The ids of the tasks a fulfilled IT run adds are taken, in order,
    from the ids the agent can create for one of its five profiles. *)
Lemma it_ids_sublist (n : nat) (c c' : Context) :
  BaseAgent.passes impl (S n) c = inr c' ->
  exists added profile,
    tasks (employee c') = (tasks (employee c) ++ added)%list
    /\ Forall namespaced added
    /\ In profile [engineering; design; product; sales; default]
    /\ sublist (List.map Task.id added) (ids profile).
Proof.
  intros H.
  apply (single_pass impl action_tasks it_perceive_employee it_act_tasks
           it_reflect_complete) in H as (pc & actions & Hp & Hd & Ht).
  exists (flat_map action_tasks actions).
  destruct (it_perceive_profile _ _ Hp) as (department & _ & Hpp).
  cbn [BaseAgent.decide impl] in Hd. unfold decide in Hd. rewrite Hpp in Hd.
  apply outcome_bind_inr in Hd as (actions1 & H1 & Hd).
  cbn [ITPerception.profile ITPerception.existingAccounts
       ITPerception.existingHardware] in Hd.
  destruct (profile_for department) as [profile|] eqn:Hprof; [|discriminate].
  apply outcome_bind_inr in Hd as (sw & Hsw & Hd).
  apply outcome_bind_inr in Hd as (hw & Hhw & Hd). injection Hd as <-.
  apply filterP_sublist in Hsw, Hhw.
  exists profile. split; [exact Ht|].
  split.
  { apply namespaced_flat_map. intros [email|software|hardware|access]; simpl.
    - repeat constructor. discriminate.
    - apply namespaced_map. intros ?. split; [discriminate|reflexivity].
    - apply namespaced_map. intros ?. split; [discriminate|reflexivity].
    - apply namespaced_map. intros ?. split; [discriminate|reflexivity]. }
  split; [now apply profile_for_cases in Hprof|].
  rewrite !flat_map_app, software_tasks, hardware_tasks, !map_app, !map_map.
  unfold ids. apply sublist_app; [|apply sublist_app; [|apply sublist_app]].
  - destruct (truthy (get (props (employee pc)) "emailProvisioned")).
    + injection H1 as <-. simpl. repeat constructor.
    + apply outcome_bind_inr in H1 as (first & _ & H1).
      apply outcome_bind_inr in H1 as (last & _ & H1).
      injection H1 as <-. simpl. repeat constructor.
  - now apply (sublist_map (fun sw => Task.id (software_task sw))).
  - now apply (sublist_map (fun hw => Task.id (hardware_task hw))).
  - simpl. rewrite app_nil_r, map_map. reflexivity.
Qed.

End ITTasks.

Section TrainingTasks.
Import Js JsP TrainingAgent.

Lemma training_perceive_employee (c pc : Context) :
  outcome (perceive c) = inr pc -> employee pc = employee c.
Proof.
  unfold perceive. intros H.
  apply outcome_bind_inr in H as (department & _ & H). now injection H as <-.
Qed.

Lemma training_perceive_path (c pc : Context) :
  outcome (perceive c) = inr pc ->
  exists department,
    outcome (lower_or (get (props (employee c)) "department") "default")
    = inr department
    /\ trainingPerception pc
       = Some (TrainingPerception.mk companyWideModules (rolePath_for department)
                 (or (get (props (employee c)) "completedTraining") (VArr []))
                 department).
Proof.
  unfold perceive. intros H.
  apply outcome_bind_inr in H as (department & Hd & H). injection H as <-.
  eauto.
Qed.

Lemma training_act_tasks (c : Context) (actions : list Action) (c' : Context) :
  outcome (act c actions) = inr c' ->
  tasks (employee c') = (tasks (employee c) ++ flat_map action_tasks actions)%list.
Proof.
  apply foldP_tasks. clear. intros c [modules| |] c' H;
    simpl in H; injection H as <-; simpl.
  - rewrite !push_tasks_tasks. now rewrite <- app_assoc.
  - reflexivity.
  - reflexivity.
Qed.

Lemma training_reflect_complete (c : Context) (r : bool * Context) :
  outcome (reflect c) = inr r -> r = (true, c).
Proof. unfold reflect. simpl. now intros [= <-]. Qed.

Lemma module_ids (pending : list TrainingModule.t) :
  List.map Task.id
    (flat_map action_tasks
       (if (0 <? length pending)%nat then [assign_modules pending] else []))
  = List.map (fun m => "training-" +:+ TrainingModule.id m) pending.
Proof.
  destruct pending as [|m pending]; [reflexivity|].
  cbn [length Nat.ltb Nat.leb flat_map action_tasks].
  rewrite app_nil_r, map_app, !map_map.
  cbn [module_task Task.id]. rewrite <- map_app. now rewrite firstn_skipn.
Qed.

Lemma rolePath_for_cases (department : string) (path : list TrainingModule.t) :
  rolePath_for department = Some path ->
  In path [engineering; design; product; sales; []].
Proof.
  unfold rolePath_for, literal_lookup, roleModules. cbn [assoc].
  repeat match goal with
         | |- context [String.eqb ?k department] =>
             destruct (String.eqb k department)
         end;
    try (intros [= <-]; simpl; tauto).
  destruct (existsb _ _); [discriminate|]. intros [= <-]. simpl. tauto.
Qed.

(** The ids of the tasks a fulfilled Training run adds are taken, in
    order, from the ids the agent can create for one of its role paths. *)
Lemma training_ids_sublist (n : nat) (c c' : Context) :
  BaseAgent.passes impl (S n) c = inr c' ->
  exists added path,
    tasks (employee c') = (tasks (employee c) ++ added)%list
    /\ Forall namespaced added
    /\ In path [engineering; design; product; sales; []]
    /\ sublist (List.map Task.id added) (ids path).
Proof.
  intros H.
  apply (single_pass impl action_tasks training_perceive_employee
           training_act_tasks training_reflect_complete)
    in H as (pc & actions & Hp & Hd & Ht).
  exists (flat_map action_tasks actions).
  destruct (training_perceive_path _ _ Hp) as (department & _ & Hpp).
  cbn [BaseAgent.decide impl] in Hd. unfold decide in Hd. rewrite Hpp in Hd.
  cbn [TrainingPerception.roleModules TrainingPerception.companyWideModules
       TrainingPerception.completedModules] in Hd.
  destruct (rolePath_for department) as [path|] eqn:Hpath; [|discriminate].
  apply outcome_bind_inr in Hd as (pending & Hpend & Hd). injection Hd as <-.
  apply filterP_sublist in Hpend.
  exists path. split; [exact Ht|].
  split.
  { apply namespaced_flat_map. intros [modules| |]; simpl.
    - apply Forall_app. split; apply namespaced_map; intros ?;
        (split; [discriminate|reflexivity]).
    - repeat constructor. discriminate.
    - repeat constructor. discriminate. }
  split; [now apply rolePath_for_cases in Hpath|].
  rewrite !flat_map_app, !map_app, module_ids.
  unfold ids. apply sublist_app.
  - now apply (sublist_map (fun m => "training-" +:+ TrainingModule.id m)).
  - destruct (truthy (get (props (employee pc)) "managerMeetingScheduled")),
             (truthy (get (props (employee pc)) "teamIntroScheduled"));
      simpl; repeat constructor.
Qed.

End TrainingTasks.

Section BuddyTasks.
Import Js JsP BuddyAgent.

Variable pool : list Buddy.t.

Lemma buddy_perceive_employee (c pc : Context) :
  outcome (perceive pool c) = inr pc -> employee pc = employee c.
Proof.
  unfold perceive. intros H.
  apply outcome_bind_inr in H as (department & _ & H). now injection H as <-.
Qed.

Lemma buddy_act_tasks (c : Context) (actions : list Action) (c' : Context) :
  outcome (act c actions) = inr c' ->
  tasks (employee c') = (tasks (employee c) ++ flat_map action_tasks actions)%list.
Proof.
  apply foldP_tasks. clear. intros c [[buddy|]|] c' H;
    simpl in H; try discriminate; injection H as <-; simpl.
  - reflexivity.
  - apply (push_tasks_tasks _ (List.map checkin_task checkIns)).
Qed.

Lemma buddy_reflect_complete (c : Context) (r : bool * Context) :
  outcome (reflect c) = inr r -> r = (true, c).
Proof.
  unfold reflect. intros H.
  apply outcome_bind_inr in H as (detail & _ & H). simpl in H.
  now injection H as <-.
Qed.

(** The ids of the tasks a fulfilled Buddy run adds are taken, in order,
    from the ids the agent can create. *)
Lemma buddy_ids_sublist (n : nat) (c c' : Context) :
  BaseAgent.passes (impl pool) (S n) c = inr c' ->
  exists added,
    tasks (employee c') = (tasks (employee c) ++ added)%list
    /\ Forall namespaced added
    /\ sublist (List.map Task.id added) ids.
Proof.
  intros H.
  apply (single_pass (impl pool) action_tasks buddy_perceive_employee
           buddy_act_tasks buddy_reflect_complete)
    in H as (pc & actions & Hp & Hd & Ht).
  exists (flat_map action_tasks actions). split; [exact Ht|].
  split.
  { apply namespaced_flat_map. intros [[buddy|]|]; cbn [action_tasks].
    - repeat constructor. discriminate.
    - constructor.
    - apply namespaced_map. intros [days label]. split; [discriminate|reflexivity]. }
  cbn [BaseAgent.decide impl] in Hd. unfold decide in Hd.
  destruct (buddyPerception pc) as [p|]; [|discriminate].
  injection Hd as <-.
  destruct (BuddyPerception.alreadyAssigned p),
           (truthy (get (props (employee pc)) "checkInsScheduled"));
    try destruct (head (BuddyPerception.candidates p));
    vm_compute; repeat constructor.
Qed.

End BuddyTasks.

(* ================================================================== *)
(** * 16. Task ids after a merge                                       *)
(* ================================================================== *)

Section TaskIds.
Import Orchestrator.

Lemma copyFor_tasks (c copy : Context) :
  outcome (copyFor c) = inr copy -> tasks (employee copy) = [].
Proof.
  unfold copyFor. intros H.
  apply outcome_bind_inr in H as (accounts & _ & H).
  apply outcome_bind_inr in H as (hardware & _ & H).
  now injection H as <-.
Qed.

Lemma copyFor_props (c copy : Context) (k : string) :
  outcome (copyFor c) = inr copy -> k <> "accounts" -> k <> "hardware" ->
  props (employee copy) !! k = props (employee c) !! k.
Proof.
  unfold copyFor. intros H Ha Hh.
  apply outcome_bind_inr in H as (accounts & _ & H).
  apply outcome_bind_inr in H as (hardware & _ & H).
  injection H as <-. cbn [employee with_employee props].
  now rewrite !lookup_insert_ne by congruence.
Qed.

Lemma run_agent_passes (env : Env) (o : t) (k : AgentKey) (copy : Context) :
  fst (run_agent env o k copy)
  = BaseAgent.passes (Agent.impl (agent o k)) BaseAgent.MAX_ITERATIONS copy.
Proof.
  unfold run_agent.
  rewrite <- (run_passes (clock env k) (Agent.impl (agent o k)) copy
                (Agent.state (agent o k))).
  now destruct (BaseAgent.run _ _ _ _) as [[r s] tr].
Qed.

(** Whatever the profile and the role path, the ids the four agents can
    create are pairwise distinct. *)
Lemma ids_NoDup (profile : Profile.t) (path : list TrainingModule.t) :
  In profile [ITSetupAgent.engineering; ITSetupAgent.design;
              ITSetupAgent.product; ITSetupAgent.sales; ITSetupAgent.default] ->
  In path [TrainingAgent.engineering; TrainingAgent.design;
           TrainingAgent.product; TrainingAgent.sales; []] ->
  NoDup (HRAgent.ids ++ ITSetupAgent.ids profile ++ TrainingAgent.ids path
         ++ BuddyAgent.ids).
Proof.
  intros Hp Hr. simpl in Hp, Hr.
  destruct Hp as [<-|[<-|[<-|[<-|[<-|[]]]]]];
    destruct Hr as [<-|[<-|[<-|[<-|[<-|[]]]]]];
    refine (bool_decide_unpack _ _); vm_compute; exact I.
Qed.

End TaskIds.

(* ------------------------------------------------------------------ *)
(** ** 16.1 What a run of an agent writes to the employee              *)
(* ------------------------------------------------------------------ *)

Section LastOverlay.
Import Js.

Lemma foldP_props {B} (f : Context -> B -> Phase Context) (P : string -> Prop) :
  (forall c b c' k, outcome (f c b) = inr c' -> P k ->
                    props (employee c') !! k = props (employee c) !! k) ->
  forall l c c' k,
    outcome (foldP f l c) = inr c' -> P k ->
    props (employee c') !! k = props (employee c) !! k.
Proof.
  intros Hf l. induction l as [|b l IH]; intros c c' k H Hk; simpl in H.
  - now injection H as <-.
  - apply outcome_bind_inr in H as (c1 & H1 & H).
    rewrite (IH _ _ _ H Hk). now apply (Hf c b).
Qed.

End LastOverlay.

Section PassProps.
Import BaseAgent.

(** An agent whose [perceive] leaves the employee alone, whose [act]
    leaves the properties [P] alone, and whose [reflect] hands the
    context back. *)
Variable a : Impl.
Variable P : string -> Prop.
Hypothesis perceive_employee :
  forall c pc, outcome (perceive a c) = inr pc -> employee pc = employee c.
Hypothesis act_props :
  forall c actions c' k,
    outcome (act a c actions) = inr c' -> P k ->
    props (employee c') !! k = props (employee c) !! k.
Hypothesis reflect_complete :
  forall c r, outcome (reflect a c) = inr r -> r = (true, c).

Lemma pass_props (n : nat) (c c' : Context) (k : string) :
  passes a (S n) c = inr c' -> P k ->
  props (employee c') !! k = props (employee c) !! k.
Proof.
  simpl. unfold pass. intros H Hk.
  destruct (outcome (perceive a c)) as [e|pc] eqn:Hp; [discriminate|].
  apply perceive_employee in Hp.
  destruct (outcome (decide a pc)) as [e|[|x actions]] eqn:Hd; [discriminate| |].
  { injection H as <-. now rewrite Hp. }
  destruct (outcome (act a pc (x :: actions))) as [e|c1] eqn:Ha; [discriminate|].
  destruct (outcome (reflect a c1)) as [e|r] eqn:Hr; [discriminate|].
  rewrite (reflect_complete _ _ Hr) in H. injection H as <-.
  rewrite <- Hp. now apply (act_props pc (x :: actions)).
Qed.

End PassProps.

Section BuddyProps.
Import Js.

(** A fulfilled Buddy run writes to two properties of the employee at
    most. *)
Lemma buddy_props (pool : list Buddy.t) (n : nat) (c c' : Context) (k : string) :
  BaseAgent.passes (BuddyAgent.impl pool) (S n) c = inr c' ->
  k <> "buddy" -> k <> "checkInsScheduled" ->
  props (employee c') !! k = props (employee c) !! k.
Proof.
  intros H Hb Hc.
  apply (pass_props (BuddyAgent.impl pool)
           (fun k => k <> "buddy" /\ k <> "checkInsScheduled")
           (buddy_perceive_employee pool)) with (n := n);
    [|exact buddy_reflect_complete|exact H|auto].
  intros c0 actions c0' k0.
  apply (foldP_props BuddyAgent.act_on
           (fun k => k <> "buddy" /\ k <> "checkInsScheduled")).
  clear. intros c [[buddy|]|] c' k H [Hb Hc]; simpl in H; try discriminate;
    injection H as <-.
  - simpl. now rewrite lookup_insert_ne by congruence.
  - simpl. now rewrite lookup_insert_ne by congruence.
Qed.

Lemma merge_props_last (e : Employee) (r1 r2 r3 : Error + Context) (c4 : Context) :
  props (Orchestrator.m_employee (Orchestrator.merge e [r1; r2; r3; inr c4]))
  = props (employee c4)
    ∪ props (Orchestrator.m_employee (Orchestrator.merge e [r1; r2; r3])).
Proof. destruct r1, r2, r3; reflexivity. Qed.

End BuddyProps.

Section Names.
Import Js.

Lemma lookup_union_same (m1 m2 : obj) (k : string) (v : option val) :
  m1 !! k = v -> m2 !! k = v -> (m1 ∪ m2) !! k = v.
Proof. intros H1 H2. rewrite lookup_union, H1, H2. now destruct v. Qed.

(** A fulfilled HR run writes to one property of the employee at
    most. *)
Lemma hr_props (n : nat) (c c' : Context) (k : string) :
  BaseAgent.passes HRAgent.impl (S n) c = inr c' ->
  k <> "benefitsEnrollmentStarted" ->
  props (employee c') !! k = props (employee c) !! k.
Proof.
  intros H Hk.
  apply (pass_props HRAgent.impl (fun k => k <> "benefitsEnrollmentStarted")
           hr_perceive_employee) with (n := n);
    [|exact hr_reflect_complete|exact H|exact Hk].
  intros c0 actions c0' k0.
  apply (foldP_props HRAgent.act_on (fun k => k <> "benefitsEnrollmentStarted")).
  clear. intros c [documents|policies|] c' k H Hk;
    cbn [HRAgent.act_on bind outcome ret addLogReq emitted] in H;
    injection H as <-.
  - now rewrite push_tasks_props.
  - now rewrite push_tasks_props.
  - simpl. now rewrite lookup_insert_ne by congruence.
Qed.

(** A fulfilled IT run writes to three. *)
Lemma it_props (n : nat) (c c' : Context) (k : string) :
  BaseAgent.passes ITSetupAgent.impl (S n) c = inr c' ->
  k <> "emailProvisioned" -> k <> "email" -> k <> "accounts" ->
  props (employee c') !! k = props (employee c) !! k.
Proof.
  intros H H1 H2 H3.
  apply (pass_props ITSetupAgent.impl
           (fun k => k <> "emailProvisioned" /\ k <> "email" /\ k <> "accounts")
           it_perceive_employee) with (n := n);
    [|exact it_reflect_complete|exact H|auto].
  intros c0 actions c0' k0.
  apply (foldP_props ITSetupAgent.act_on
           (fun k => k <> "emailProvisioned" /\ k <> "email" /\ k <> "accounts")).
  clear. intros c [email|software|hardware|access] c' k H (H1 & H2 & H3).
  - cbn [ITSetupAgent.act_on bind outcome ret addLogReq emitted] in H.
    injection H as <-. simpl. now rewrite !lookup_insert_ne by congruence.
  - cbn [ITSetupAgent.act_on] in H.
    apply outcome_bind_inr in H as (accounts & _ & H).
    cbn [bind outcome ret addLogReq emitted] in H. injection H as <-.
    cbn [set_prop with_employee employee props].
    rewrite lookup_insert_ne by congruence. now rewrite push_tasks_props.
  - cbn [ITSetupAgent.act_on bind outcome ret addLogReq emitted] in H.
    injection H as <-. now rewrite push_tasks_props.
  - cbn [ITSetupAgent.act_on bind outcome ret addLogReq emitted] in H.
    injection H as <-. now rewrite push_tasks_props.
Qed.

(** A fulfilled Training run writes to two. *)
Lemma training_props (n : nat) (c c' : Context) (k : string) :
  BaseAgent.passes TrainingAgent.impl (S n) c = inr c' ->
  k <> "managerMeetingScheduled" -> k <> "teamIntroScheduled" ->
  props (employee c') !! k = props (employee c) !! k.
Proof.
  intros H H1 H2.
  apply (pass_props TrainingAgent.impl
           (fun k => k <> "managerMeetingScheduled" /\ k <> "teamIntroScheduled")
           training_perceive_employee) with (n := n);
    [|exact training_reflect_complete|exact H|auto].
  intros c0 actions c0' k0.
  apply (foldP_props TrainingAgent.act_on
           (fun k => k <> "managerMeetingScheduled" /\ k <> "teamIntroScheduled")).
  clear. intros c [modules| |] c' k H (H1 & H2);
    cbn [TrainingAgent.act_on bind outcome ret addLogReq emitted] in H;
    injection H as <-.
  - now rewrite !push_tasks_props.
  - simpl. now rewrite lookup_insert_ne by congruence.
  - simpl. now rewrite lookup_insert_ne by congruence.
Qed.

(** A property on which the initial employee and every fulfilled run
    agree has that value in the merged employee. *)
Lemma merge_lookup (e0 : Employee) (r1 r2 r3 r4 : Error + Context) (k : string)
    (v : option val) :
  props e0 !! k = v ->
  (forall r c, In r [r1; r2; r3; r4] -> r = inr c ->
               props (employee c) !! k = v) ->
  props (Orchestrator.m_employee (Orchestrator.merge e0 [r1; r2; r3; r4])) !! k
  = v.
Proof.
  intros H0 H.
  assert (H1 : forall c, r1 = inr c -> props (employee c) !! k = v)
    by (intros c; apply H; simpl; tauto).
  assert (H2 : forall c, r2 = inr c -> props (employee c) !! k = v)
    by (intros c; apply H; simpl; tauto).
  assert (H3 : forall c, r3 = inr c -> props (employee c) !! k = v)
    by (intros c; apply H; simpl; tauto).
  assert (H4 : forall c, r4 = inr c -> props (employee c) !! k = v)
    by (intros c; apply H; simpl; tauto).
  clear H.
  destruct r1 as [?|c1], r2 as [?|c2], r3 as [?|c3], r4 as [?|c4];
    cbn;
    repeat (apply lookup_union_same;
            [first [now apply H4|now apply H3|now apply H2|now apply H1]|]);
    exact H0.
Qed.

(** The four agents leave the two names of the employee alone, so the
    merged employee has the names of the input. *)
Lemma merged_names (s1 s2 s3 s4 : BaseAgent.State) (env : Orchestrator.Env)
    (e0 : Employee) (copy : Context) (k : string) :
  In k ["firstName"; "lastName"] ->
  props (employee copy) !! k = props e0 !! k ->
  props (Orchestrator.m_employee
           (Orchestrator.merge e0
              (Orchestrator.outcomes env (Orchestrator.in_states s1 s2 s3 s4)
                 copy))) !! k
  = props e0 !! k.
Proof.
  intros Hk Hc. unfold Orchestrator.outcomes, Orchestrator.keys.
  cbn [List.map]. rewrite !run_agent_passes.
  cbn [Orchestrator.agent Orchestrator.in_states Orchestrator.hr Orchestrator.it
       Orchestrator.training Orchestrator.buddy Agent.impl].
  unfold BaseAgent.MAX_ITERATIONS.
  apply merge_lookup; [reflexivity|].
  intros r c Hin ->. rewrite <- Hc.
  assert (Hne : forall k', ~ In k' ["firstName"; "lastName"] -> k <> k')
    by (intros k' Hk' ->; contradiction).
  cbn [In] in Hin. destruct Hin as [H|[H|[H|[H|[]]]]].
  - apply (hr_props 4 copy c k H).
    apply Hne. simpl. intuition discriminate.
  - apply (it_props 4 copy c k H); apply Hne; simpl; intuition discriminate.
  - apply (training_props 4 copy c k H); apply Hne; simpl; intuition discriminate.
  - apply (buddy_props BuddyAgent.buddyPool 4 copy c k H);
      apply Hne; simpl; intuition discriminate.
Qed.

Lemma merged_printable (s1 s2 s3 s4 : BaseAgent.State) (env : Orchestrator.Env)
    (e0 : Employee) (copy : Context) :
  (forall k, In k ["firstName"; "lastName"] ->
             props (employee copy) !! k = props e0 !! k) ->
  Orchestrator.printable
    (Orchestrator.merged e0
       (Orchestrator.outcomes env (Orchestrator.in_states s1 s2 s3 s4) copy))
  = Orchestrator.printable e0.
Proof.
  intros H. unfold Orchestrator.printable, Orchestrator.merged, Js.get.
  cbn [props].
  rewrite (merged_names s1 s2 s3 s4 env e0 copy "firstName")
    by (try apply H; simpl; auto).
  rewrite (merged_names s1 s2 s3 s4 env e0 copy "lastName")
    by (try apply H; simpl; auto).
  reflexivity.
Qed.

End Names.

(** C8.  Whatever the employee handed to [onboard], and whatever the
    four agents of the orchestrator have logged before, the tasks of the
    employee of a returned plan have pairwise distinct ids, and the id
    of each starts with the prefix of the agent that made it: hr-, it-,
    training- or buddy-. *)
Theorem C8_no_duplicate_ids
    (s1 s2 s3 s4 : BaseAgent.State) (env : Orchestrator.Env)
    (employeeData : obj) (plan : Orchestrator.Plan.t) (o' : Orchestrator.t) :
  Orchestrator.onboard (Orchestrator.in_states s1 s2 s3 s4) env employeeData
  = (Fulfilled plan, o') ->
  NoDup (List.map Task.id (tasks (Orchestrator.Plan.employee plan)))
  /\ Forall namespaced (tasks (Orchestrator.Plan.employee plan)).
Proof.
  intros H. apply onboard_inv in H as (copy & Hc & _ & ->).
  apply copyFor_tasks in Hc.
  unfold Orchestrator.plan_of, Orchestrator.outcomes, Orchestrator.keys.
  cbn [Orchestrator.Plan.employee tasks List.map].
  rewrite merge_mergedTasks, !run_agent_passes.
  cbn [Orchestrator.agent Orchestrator.in_states Orchestrator.hr Orchestrator.it
       Orchestrator.training Orchestrator.buddy Agent.impl].
  unfold BaseAgent.MAX_ITERATIONS.
  assert (H1 : Forall namespaced
                 (Orchestrator.tasks_of (BaseAgent.passes HRAgent.impl 5 copy))
               /\ sublist
                    (List.map Task.id
                       (Orchestrator.tasks_of
                          (BaseAgent.passes HRAgent.impl 5 copy)))
                    HRAgent.ids).
  { destruct (BaseAgent.passes HRAgent.impl 5 copy) as [e|c] eqn:E;
      [split; [constructor|apply sublist_nil_l]|].
    apply hr_ids_sublist in E as (added & Ht & Hn & Hs).
    cbn [Orchestrator.tasks_of]. now rewrite Ht, Hc. }
  assert (H2 : exists profile,
             In profile [ITSetupAgent.engineering; ITSetupAgent.design;
                         ITSetupAgent.product; ITSetupAgent.sales;
                         ITSetupAgent.default]
             /\ Forall namespaced
                  (Orchestrator.tasks_of
                     (BaseAgent.passes ITSetupAgent.impl 5 copy))
             /\ sublist
                  (List.map Task.id
                     (Orchestrator.tasks_of
                        (BaseAgent.passes ITSetupAgent.impl 5 copy)))
                  (ITSetupAgent.ids profile)).
  { destruct (BaseAgent.passes ITSetupAgent.impl 5 copy) as [e|c] eqn:E.
    - exists ITSetupAgent.default.
      split; [simpl; tauto|split; [constructor|apply sublist_nil_l]].
    - apply it_ids_sublist in E as (added & profile & Ht & Hn & Hin & Hs).
      exists profile. cbn [Orchestrator.tasks_of]. now rewrite Ht, Hc. }
  assert (H3 : exists path,
             In path [TrainingAgent.engineering; TrainingAgent.design;
                      TrainingAgent.product; TrainingAgent.sales; []]
             /\ Forall namespaced
                  (Orchestrator.tasks_of
                     (BaseAgent.passes TrainingAgent.impl 5 copy))
             /\ sublist
                  (List.map Task.id
                     (Orchestrator.tasks_of
                        (BaseAgent.passes TrainingAgent.impl 5 copy)))
                  (TrainingAgent.ids path)).
  { destruct (BaseAgent.passes TrainingAgent.impl 5 copy) as [e|c] eqn:E.
    - exists [].
      split; [simpl; tauto|split; [constructor|apply sublist_nil_l]].
    - apply training_ids_sublist in E as (added & path & Ht & Hn & Hin & Hs).
      exists path. cbn [Orchestrator.tasks_of]. now rewrite Ht, Hc. }
  assert (H4 : Forall namespaced
                 (Orchestrator.tasks_of
                    (BaseAgent.passes
                       (BuddyAgent.impl BuddyAgent.buddyPool) 5 copy))
               /\ sublist
                    (List.map Task.id
                       (Orchestrator.tasks_of
                          (BaseAgent.passes
                             (BuddyAgent.impl BuddyAgent.buddyPool) 5 copy)))
                    BuddyAgent.ids).
  { destruct (BaseAgent.passes (BuddyAgent.impl BuddyAgent.buddyPool) 5 copy)
      as [e|c] eqn:E; [split; [constructor|apply sublist_nil_l]|].
    apply buddy_ids_sublist in E as (added & Ht & Hn & Hs).
    cbn [Orchestrator.tasks_of]. now rewrite Ht, Hc. }
  destruct H1 as (N1 & H1). destruct H2 as (profile & Hprofile & N2 & H2).
  destruct H3 as (path & Hpath & N3 & H3). destruct H4 as (N4 & H4).
  split.
  - apply sublist_NoDup
      with (HRAgent.ids ++ ITSetupAgent.ids profile ++ TrainingAgent.ids path
            ++ BuddyAgent.ids)%list.
    + now apply ids_NoDup.
    + rewrite !map_app. repeat apply sublist_app; assumption.
  - repeat (apply Forall_app; split); assumption.
Qed.

(* ================================================================== *)
(** * 17. Agents with nothing left to do                               *)
(* ================================================================== *)

Section Satisfied.
Import Js JsP.

Lemma includes_member (l : list val) (s : string) :
  In (VStr s) l -> outcome (includes (VArr l) s) = inr true.
Proof.
  intros H. simpl. f_equal. unfold arr_includes. apply existsb_exists.
  exists (VStr s). split; [exact H|]. simpl. apply String.eqb_refl.
Qed.

Lemma not_included_none (l : list val) (wanted : list string) :
  Forall (fun s => In (VStr s) l) wanted ->
  outcome (filterP (fun s => let* b := includes (VArr l) s in ret (negb b)) wanted)
  = inr [].
Proof.
  intros H. apply filterP_none. eapply Forall_impl; [exact H|].
  intros s Hs. cbn beta.
  rewrite (outcome_bind _ _ _ _ _ (includes_member l s Hs)). reflexivity.
Qed.

Lemma find_id_member (docs : list val) (id : string) :
  Forall (fun d => d <> VUndef /\ d <> VNull) docs ->
  (exists o, In (VObj o) docs /\ get o "id" = VStr id) ->
  outcome (HRAgent.find_id docs id) = inr true.
Proof.
  induction 1 as [|d docs [Hu Hn] _ IH]; intros (o & Hin & Hid);
    [destruct Hin|].
  simpl.
  assert (Hprop : exists v, outcome (prop d "id") = inr v
                            /\ (d = VObj o -> v = VStr id)).
  { destruct d; try congruence; simpl; eexists; split; try reflexivity;
      try discriminate. intros [= ->]. exact Hid. }
  destruct Hprop as (v & Hv & Hsame).
  rewrite (outcome_bind _ _ _ _ _ Hv).
  destruct (is_str v id) eqn:E; [reflexivity|].
  apply IH. exists o. split; [|exact Hid].
  destruct Hin as [->|Hin]; [|exact Hin].
  rewrite (Hsame eq_refl) in E. simpl in E.
  now rewrite String.eqb_refl in E.
Qed.

(** HR: nothing to do, the run is fulfilled with the perceived context
    and the task list as it was. *)
Lemma hr_satisfied_pass (n : nat) (c : Context) :
  HRAgent.satisfied (props (employee c)) ->
  exists c', BaseAgent.passes HRAgent.impl (S n) c = inr c'
             /\ employee c' = employee c.
Proof.
  intros ((docs & Hdocs & Hok & Hall) & (acks & Hacks & Hpol) & Hben).
  assert (Hp : outcome (HRAgent.perceive c)
               = inr (mkContext (employee c)
                        (Some (HRPerception.mk HRAgent.requiredDocs []
                                 (VArr docs)))
                        (itPerception c) (trainingPerception c)
                        (buddyPerception c))).
  { unfold HRAgent.perceive. rewrite Hdocs. cbn [or truthy].
    erewrite (outcome_bind _ _ _ _ []); [reflexivity|].
    apply filterP_none. eapply Forall_impl; [exact Hall|].
    intros doc Hdoc. cbn beta.
    rewrite (outcome_bind _ _ _ _ _ (find_id_member docs _ Hok Hdoc)).
    reflexivity. }
  eexists. split; [apply (no_actions_pass HRAgent.impl n c _ Hp)|reflexivity].
  cbn [BaseAgent.decide HRAgent.impl]. unfold HRAgent.decide.
  cbn [hrPerception HRPerception.missing employee length Nat.ltb Nat.leb].
  rewrite Hacks, Hben. cbn [or truthy].
  rewrite (outcome_bind _ _ _ _ _ (not_included_none acks _ Hpol)).
  reflexivity.
Qed.

(** IT: the email, software and hardware actions are not taken, the
    access action always is. *)
Lemma it_satisfied_pass (n : nat) (c : Context) (profile : Profile.t) :
  ITSetupAgent.satisfied (props (employee c)) profile ->
  exists c',
    BaseAgent.passes ITSetupAgent.impl (S n) c = inr c'
    /\ tasks (employee c')
       = (tasks (employee c)
          ++ List.map ITSetupAgent.access_task (Profile.access profile))%list.
Proof.
  intros ((dept & Hdept & Hprof) & Hemail & (accounts & Hacc & Hsw)
          & (hardware & Hhw & Hhard)).
  simpl. unfold BaseAgent.pass.
  cbn [BaseAgent.perceive BaseAgent.decide BaseAgent.act BaseAgent.reflect
       ITSetupAgent.impl].
  unfold ITSetupAgent.perceive, lower_or. rewrite Hdept. cbn [bind ret outcome emitted].
  rewrite Hprof, Hacc, Hhw. cbn [or truthy].
  unfold ITSetupAgent.decide.
  cbn [itPerception ITPerception.profile ITPerception.existingAccounts
       ITPerception.existingHardware employee].
  rewrite Hemail.
  rewrite (outcome_bind _ _ (ret []) _ [] eq_refl).
  unfold ITSetupAgent.not_in.
  rewrite (outcome_bind _ _ _ _ _ (not_included_none accounts _ Hsw)).
  rewrite (outcome_bind _ _ _ _ _ (not_included_none hardware _ Hhard)).
  cbn [ret outcome length Nat.ltb Nat.leb app].
  unfold ITSetupAgent.act. cbn [foldP ITSetupAgent.act_on].
  cbn [bind ret outcome emitted addLogReq].
  unfold ITSetupAgent.reflect. cbn [bind ret outcome emitted addLogReq].
  eexists. split; [reflexivity|].
  rewrite push_tasks_tasks. reflexivity.
Qed.

(** Training: nothing to do. *)
Lemma training_satisfied_pass (n : nat) (c : Context)
    (path : list TrainingModule.t) :
  TrainingAgent.satisfied (props (employee c)) path ->
  exists c', BaseAgent.passes TrainingAgent.impl (S n) c = inr c'
             /\ employee c' = employee c.
Proof.
  intros ((dept & Hdept & Hpath) & (completed & Hdone & Hall) & Hm & Ht).
  assert (Hp : outcome (TrainingAgent.perceive c)
               = inr (mkContext (employee c) (hrPerception c) (itPerception c)
                        (Some (TrainingPerception.mk
                                 TrainingAgent.companyWideModules (Some path)
                                 (VArr completed) (toLowerCase dept)))
                        (buddyPerception c))).
  { unfold TrainingAgent.perceive, lower_or. rewrite Hdept.
    cbn [bind ret outcome emitted]. rewrite Hpath, Hdone. reflexivity. }
  eexists. split; [apply (no_actions_pass TrainingAgent.impl n c _ Hp)|reflexivity].
  cbn [BaseAgent.decide TrainingAgent.impl]. unfold TrainingAgent.decide.
  cbn [trainingPerception TrainingPerception.roleModules
       TrainingPerception.companyWideModules
       TrainingPerception.completedModules employee].
  rewrite Hm, Ht.
  erewrite (outcome_bind _ _ _ _ []); [reflexivity|].
  apply filterP_none. eapply Forall_impl; [exact Hall|].
  intros m Hin. cbn beta.
  rewrite (outcome_bind _ _ _ _ _ (includes_member completed _ Hin)).
  reflexivity.
Qed.

(** Buddy: nothing to do, whatever the pool. *)
Lemma buddy_satisfied_pass (pool : list Buddy.t) (n : nat) (c : Context) :
  BuddyAgent.satisfied (props (employee c)) ->
  exists c', BaseAgent.passes (BuddyAgent.impl pool) (S n) c = inr c'
             /\ employee c' = employee c.
Proof.
  intros ((dept & Hdept) & Hb & Hci).
  eexists. split.
  - apply (no_actions_pass (BuddyAgent.impl pool) n c).
    + cbn [BaseAgent.perceive BuddyAgent.impl].
      unfold BuddyAgent.perceive, lower_or. rewrite Hdept, Hb. reflexivity.
    + cbn [BaseAgent.decide BuddyAgent.impl]. unfold BuddyAgent.decide.
      cbn [buddyPerception BuddyPerception.alreadyAssigned employee].
      rewrite Hci. reflexivity.
  - reflexivity.
Qed.

End Satisfied.

(** C4, amended.  Running the HR, Training or Buddy agent on an employee
    for whom it has no gap left fulfils and adds no task.  Running the
    IT agent on an employee whose email is provisioned and who holds all
    the software and hardware of the profile fulfils and adds the access
    tasks of the profile, one for each access entry, and nothing else:
    no email, software or hardware task.  And whatever the agent, its
    state and its clock, two runs on the same context end the same way,
    with the same tasks and so the same task ids. *)
Theorem C4_no_new_tasks_when_satisfied :
  (forall clock c s,
      HRAgent.satisfied (props (employee c)) ->
      exists c',
        fst (fst (BaseAgent.run clock HRAgent.impl c s)) = inr c'
        /\ tasks (employee c') = tasks (employee c))
  /\ (forall clock c s path,
        TrainingAgent.satisfied (props (employee c)) path ->
        exists c',
          fst (fst (BaseAgent.run clock TrainingAgent.impl c s)) = inr c'
          /\ tasks (employee c') = tasks (employee c))
  /\ (forall clock pool c s,
        BuddyAgent.satisfied (props (employee c)) ->
        exists c',
          fst (fst (BaseAgent.run clock (BuddyAgent.impl pool) c s)) = inr c'
          /\ tasks (employee c') = tasks (employee c))
  /\ (forall clock c s profile,
        ITSetupAgent.satisfied (props (employee c)) profile ->
        exists c',
          fst (fst (BaseAgent.run clock ITSetupAgent.impl c s)) = inr c'
          /\ tasks (employee c')
             = (tasks (employee c)
                ++ List.map ITSetupAgent.access_task (Profile.access profile))%list)
  /\ (forall (a : BaseAgent.Impl) clock1 clock2 c s1 s2,
        fst (fst (BaseAgent.run clock1 a c s1))
        = fst (fst (BaseAgent.run clock2 a c s2))
        /\ List.map Task.id
             (Orchestrator.tasks_of (fst (fst (BaseAgent.run clock1 a c s1))))
           = List.map Task.id
               (Orchestrator.tasks_of (fst (fst (BaseAgent.run clock2 a c s2))))).
Proof.
  split; [|split; [|split; [|split]]].
  - intros clock c s H. rewrite run_passes.
    destruct (hr_satisfied_pass 4 c H) as (c' & Hc & He).
    exists c'. split; [exact Hc|now rewrite He].
  - intros clock c s path H. rewrite run_passes.
    destruct (training_satisfied_pass 4 c path H) as (c' & Hc & He).
    exists c'. split; [exact Hc|now rewrite He].
  - intros clock pool c s H. rewrite run_passes.
    destruct (buddy_satisfied_pass pool 4 c H) as (c' & Hc & He).
    exists c'. split; [exact Hc|now rewrite He].
  - intros clock c s profile H. rewrite run_passes.
    exact (it_satisfied_pass 4 c profile H).
  - intros a clock1 clock2 c s1 s2. rewrite !run_passes. split; reflexivity.
Qed.

(** C4, as stated, fails for the IT agent: an employee whose email is
    provisioned and who holds every software and hardware of the default
    profile still gets the two access tasks of that profile. *)
Lemma C4_counterexample_it_access :
  ITSetupAgent.satisfied (props (employee Sample.provisioned))
                         ITSetupAgent.default
  /\ tasks (employee Sample.provisioned) = []
  /\ List.map Task.id
       (Orchestrator.tasks_of
          (fst (fst (BaseAgent.run (fun _ => 0) ITSetupAgent.impl
                       Sample.provisioned BaseAgent.new))))
     = ["it-access-vpn"; "it-access-company-intranet"].
Proof.
  split; [|split; [reflexivity|vm_compute; reflexivity]].
  split; [|split; [|split]].
  - exists "default". split; reflexivity.
  - reflexivity.
  - eexists. split; [reflexivity|]. repeat constructor; simpl; tauto.
  - eexists. split; [reflexivity|]. repeat constructor; simpl; tauto.
Qed.

(* ================================================================== *)
(** * 18. The overlay of employee fields                               *)
(* ================================================================== *)

(** The overlay writes every property the source carries, whether the
    agent behind the source has touched it or not. *)
Lemma assign_overwrites (target source : Employee) (k : string) (v : val) :
  props source !! k = Some v ->
  Js.get (props (Orchestrator.assign target source)) k = v.
Proof.
  intros H. unfold Js.get, Orchestrator.assign. simpl.
  now rewrite (lookup_union_Some_l _ _ _ _ H).
Qed.

(** A property the source does not carry keeps the value of the
    target. *)
Lemma assign_keeps (target source : Employee) (k : string) :
  props source !! k = None ->
  Js.get (props (Orchestrator.assign target source)) k = Js.get (props target) k.
Proof.
  intros H. unfold Js.get, Orchestrator.assign. simpl.
  now rewrite lookup_union_r.
Qed.

(** The sample call: a copy of the context can be made, and the four
    runs all settle. *)
Lemma sample_settled :
  Permutation (Orchestrator.settled Sample.env) [0; 1; 2; 3]%nat.
Proof.
  apply (Permutation_cons_app [0; 1]%nat [3]%nat 2%nat).
  apply perm_skip. apply perm_swap.
Qed.

Lemma sample_copy :
  outcome (Orchestrator.copyFor
             (context_of (Orchestrator.initial_employee Sample.env Sample.ana)))
  = inr (Sample.copy Sample.env Sample.ana).
Proof. vm_compute. reflexivity. Qed.

Lemma sample_printable :
  Orchestrator.printable
    (Orchestrator.merged (Orchestrator.initial_employee Sample.env Sample.ana)
       (Orchestrator.outcomes Sample.env Orchestrator.new
          (Sample.copy Sample.env Sample.ana))) = true.
Proof. vm_compute. reflexivity. Qed.

(** C2, as stated, fails for a request whose first name is an object
    with a property toString of its own, as the JSON text of a request
    can hold it.  The run of the IT agent is rejected, the three others
    are fulfilled, and [onboard] returns no plan: the name of the
    employee in the summary cannot be built, and the call rejects. *)
Lemma C2_counterexample_unprintable_name :
  Permutation (Orchestrator.settled Sample.env) [0; 1; 2; 3]%nat
  /\ outcome (Orchestrator.copyFor
                (context_of (Orchestrator.initial_employee Sample.env
                               Scenario.unprintable)))
     = inr (Sample.copy Sample.env Scenario.unprintable)
  /\ (exists e,
        fst (Orchestrator.run_agent Sample.env Orchestrator.new
               Orchestrator.key_it (Sample.copy Sample.env Scenario.unprintable))
        = inl e)
  /\ (forall k, k <> Orchestrator.key_it ->
        fst (Orchestrator.run_agent Sample.env Orchestrator.new k
               (Sample.copy Sample.env Scenario.unprintable))
        = inr (Sample.returned Scenario.unprintable k))
  /\ fst (Orchestrator.onboard Orchestrator.new Sample.env Scenario.unprintable)
     = Rejected (TypeError not_primitive)
  /\ (forall plan o',
        Orchestrator.onboard Orchestrator.new Sample.env Scenario.unprintable
        <> (Fulfilled plan, o')).
Proof.
  assert (Hc : outcome (Orchestrator.copyFor
                          (context_of (Orchestrator.initial_employee Sample.env
                                         Scenario.unprintable)))
               = inr (Sample.copy Sample.env Scenario.unprintable))
    by (vm_compute; reflexivity).
  assert (Hn : Orchestrator.printable
                 (Orchestrator.merged
                    (Orchestrator.initial_employee Sample.env Scenario.unprintable)
                    (Orchestrator.outcomes Sample.env Orchestrator.new
                       (Sample.copy Sample.env Scenario.unprintable))) = false)
    by (vm_compute; reflexivity).
  pose proof (onboard_rejected Orchestrator.new Sample.env Scenario.unprintable
                _ Hc sample_settled Hn) as Hr.
  split; [exact sample_settled|]. split; [exact Hc|].
  split; [eexists; vm_compute; reflexivity|].
  split.
  { intros k Hk. destruct k; [vm_compute; reflexivity|congruence| |];
      vm_compute; reflexivity. }
  split; [now rewrite Hr|].
  intros plan o' H. rewrite Hr in H. discriminate.
Qed.

(** C7 fails on the code for the record the onboarding route passes in.
    The store gives every employee an [email] property, null when the
    request has none.  The IT run sets the email and the provisioned
    flag on its copy; the copies of the Training and Buddy runs still
    carry the null email, and their overlays, which come later, write it
    back.  The merged employee is provisioned and has no email.  The
    flags the input does not carry survive. *)
Theorem C7_email_overwritten :
  Js.get Sample.ana "email" = VNull
  /\ Js.get (props (employee (Sample.returned Sample.ana Orchestrator.key_it)))
            "email" = VStr "ana.lopez@company.com"
  /\ Js.get (props (employee (Sample.returned Sample.ana Orchestrator.key_it)))
            "emailProvisioned" = VBool true
  /\ Js.get (props (employee (Sample.returned Sample.ana Orchestrator.key_training)))
            "email" = VNull
  /\ (exists plan o',
        Sample.first_call = (Fulfilled plan, o')
        /\ Js.get (props (Orchestrator.Plan.employee plan)) "email" = VNull
        /\ Js.get (props (Orchestrator.Plan.employee plan)) "emailProvisioned"
           = VBool true
        /\ Js.get (props (Orchestrator.Plan.employee plan))
                  "benefitsEnrollmentStarted" = VBool true
        /\ Js.get (props (Orchestrator.Plan.employee plan))
                  "managerMeetingScheduled" = VBool true
        /\ Js.get (props (Orchestrator.Plan.employee plan)) "teamIntroScheduled"
           = VBool true
        /\ Js.get (props (Orchestrator.Plan.employee plan)) "checkInsScheduled"
           = VBool true
        /\ Js.truthy (Js.get (props (Orchestrator.Plan.employee plan)) "buddy")
           = true).
Proof.
  split; [vm_compute; reflexivity|].
  split; [vm_compute; reflexivity|].
  split; [vm_compute; reflexivity|].
  split; [vm_compute; reflexivity|].
  unfold Sample.first_call.
  rewrite (onboard_fulfilled Orchestrator.new Sample.env Sample.ana
             (Sample.copy Sample.env Sample.ana) sample_copy sample_settled sample_printable).
  do 2 eexists. split; [reflexivity|].
  do 6 (split; [vm_compute; reflexivity|]). vm_compute; reflexivity.
Qed.

(* ================================================================== *)
(** * 19. The theorems at work on sample requests                      *)
(* ================================================================== *)

(** C1 on the sample request, with the Training run settling first. *)
Lemma C1_merge_order_witness :
  exists plan o',
    Orchestrator.onboard Orchestrator.new Sample.env Sample.ana
    = (Fulfilled plan, o')
    /\ tasks (Orchestrator.Plan.employee plan)
       = (tasks (employee (Sample.returned Sample.ana Orchestrator.key_hr))
          ++ tasks (employee (Sample.returned Sample.ana Orchestrator.key_it))
          ++ tasks (employee (Sample.returned Sample.ana Orchestrator.key_training))
          ++ tasks (employee (Sample.returned Sample.ana Orchestrator.key_buddy)))%list.
Proof.
  destruct (C1_merge_order Orchestrator.new Sample.env Sample.ana
              (Sample.copy Sample.env Sample.ana)
              (Sample.returned Sample.ana Orchestrator.key_hr)
              (Sample.returned Sample.ana Orchestrator.key_it)
              (Sample.returned Sample.ana Orchestrator.key_training)
              (Sample.returned Sample.ana Orchestrator.key_buddy))
    as (_ & H & _).
  - exact sample_settled.
  - exact sample_copy.
  - vm_compute. reflexivity.
  - vm_compute. reflexivity.
  - vm_compute. reflexivity.
  - vm_compute. reflexivity.
  - apply H. vm_compute. reflexivity.
Defined.

(** C2 on a request whose first name is a number: the IT run is
    rejected, the three others are fulfilled. *)
Lemma C2_failure_isolation_witness :
  exists plan o',
    Orchestrator.onboard Orchestrator.new Sample.env Sample.numbered
    = (Fulfilled plan, o')
    /\ (exists detail,
          Orchestrator.Plan.agentLogs plan !! "it"
          = Some (Orchestrator.Entries [LogEntry.mk None "it" "error" detail]))
    /\ tasks (Orchestrator.Plan.employee plan)
       = (tasks (employee (Sample.returned Sample.numbered Orchestrator.key_hr))
          ++ tasks (employee (Sample.returned Sample.numbered
                                Orchestrator.key_training))
          ++ tasks (employee (Sample.returned Sample.numbered
                                Orchestrator.key_buddy))
          ++ [])%list.
Proof.
  destruct (C2_failure_isolation Orchestrator.new Sample.env Sample.numbered
              (Sample.copy Sample.env Sample.numbered) Orchestrator.key_it
              (TypeError "toLowerCase is not a function")
              (Sample.returned Sample.numbered))
    as (Hplan & _).
  - exact sample_settled.
  - vm_compute. reflexivity.
  - vm_compute. reflexivity.
  - intros k Hk. destruct k; [vm_compute; reflexivity|congruence| |];
      vm_compute; reflexivity.
  - destruct Hplan as (plan & o' & H & Hlogs & _ & _ & Htasks & _);
      [vm_compute; reflexivity|].
    exists plan, o'. split; [exact H|]. split; [eexists; exact Hlogs|exact Htasks].
Defined.

(** C5 on the empty profile, to which an email is added. *)
Lemma C5_risk_monotone_witness :
  ClfModel.riskScore Sample.epoch Sample.next_day
    (<["email" := VStr "ana@company.com"]> ∅)
  <= ClfModel.riskScore Sample.epoch Sample.next_day ∅
  /\ (ClfModel.rank
        (ClfModel._classifyRisk Sample.epoch Sample.next_day
           (<["email" := VStr "ana@company.com"]> ∅))
      <= ClfModel.rank
           (ClfModel._classifyRisk Sample.epoch Sample.next_day ∅))%nat.
Proof.
  apply (C5_risk_monotone Sample.epoch Sample.next_day ∅ "email"
           (VStr "ana@company.com")).
  - reflexivity.
  - left. simpl. tauto.
Defined.

Lemma buddyPool_rated : Forall Buddy.rated BuddyAgent.buddyPool.
Proof. repeat constructor; cbn; lia. Qed.


(** C8 on the sample request. *)
Lemma C8_no_duplicate_ids_witness :
  NoDup (List.map Task.id (tasks (Orchestrator.Plan.employee Sample.plan1)))
  /\ Forall namespaced (tasks (Orchestrator.Plan.employee Sample.plan1)).
Proof.
  apply (C8_no_duplicate_ids BaseAgent.new BaseAgent.new BaseAgent.new
           BaseAgent.new Sample.env Sample.ana Sample.plan1 Sample.o1).
  exact (onboard_fulfilled Orchestrator.new Sample.env Sample.ana
           (Sample.copy Sample.env Sample.ana) sample_copy sample_settled sample_printable).
Defined.

(** C10 on two calls in a row for the sample request: what the second
    call returns for the HR agent is longer than what the first did. *)
Lemma C10_logs_accumulate_witness :
  exists l1 l2,
    (Orchestrator.entries Sample.o1 <$> Orchestrator.Plan.agentLogs Sample.plan1)
      !! "hr" = Some l1
    /\ (Orchestrator.entries Sample.o2 <$> Orchestrator.Plan.agentLogs Sample.plan2)
         !! "hr" = Some l2
    /\ (length l1 < length l2)%nat.
Proof.
  destruct (C10_logs_accumulate Orchestrator.new Sample.o1 Sample.o2
              Sample.env Sample.later Sample.ana Sample.ana
              Sample.plan1 Sample.plan2 Orchestrator.key_hr)
    as (_ & H & _).
  - exact (onboard_fulfilled Orchestrator.new Sample.env Sample.ana
             (Sample.copy Sample.env Sample.ana) sample_copy sample_settled sample_printable).
  - apply (onboard_fulfilled Sample.o1 Sample.later Sample.ana
             (Sample.copy Sample.later Sample.ana)).
    + vm_compute. reflexivity.
    + apply Permutation_refl.
    + vm_compute. reflexivity.
  - vm_compute. reflexivity.
  - exact H.
Defined.

(** C4 on an employee with whom HR is done: the run is fulfilled and
    the one task the employee had is the only one afterwards. *)
Lemma C4_no_new_tasks_when_satisfied_witness :
  exists c',
    fst (fst (BaseAgent.run (fun _ => 0) HRAgent.impl Sample.settled_in
                BaseAgent.new)) = inr c'
    /\ tasks (employee c') = [Sample.document_task_done].
Proof.
  apply (proj1 C4_no_new_tasks_when_satisfied (fun _ => 0) Sample.settled_in
           BaseAgent.new).
  split; [|split].
  - eexists. split; [reflexivity|]. split.
    + repeat constructor; discriminate.
    + apply List.Forall_forall. intros doc Hdoc.
      exists (<["id" := VStr (Doc.id doc)]> ∅). split.
      * exact (in_map (fun d => Sample.document (Doc.id d)) _ _ Hdoc).
      * unfold Js.get. now rewrite lookup_insert_eq.
  - eexists. split; [reflexivity|].
    apply List.Forall_forall. intros policy Hpolicy.
    exact (in_map VStr _ _ Hpolicy).
  - reflexivity.
Defined.

(** C9 on two runs: the HR agent with nothing to do, and the IT agent
    on an employee whose first name is a number, where [decide]
    throws. *)
Lemma C9_run_loop_bounded_witness :
  (exists pc,
      fst (fst (BaseAgent.run (fun _ => 0) HRAgent.impl Sample.settled_in
                  BaseAgent.new)) = inr pc
      /\ snd (BaseAgent.run (fun _ => 0) HRAgent.impl Sample.settled_in
                BaseAgent.new)
         = [BaseAgent.EvPerceive; BaseAgent.EvDecide 0])
  /\ fst (fst (BaseAgent.run (fun _ => 0) ITSetupAgent.impl
                 (Sample.copy Sample.env Sample.numbered) BaseAgent.new))
     = inl (TypeError "toLowerCase is not a function")
  /\ snd (BaseAgent.run (fun _ => 0) ITSetupAgent.impl
            (Sample.copy Sample.env Sample.numbered) BaseAgent.new)
     = [BaseAgent.EvPerceive;
        BaseAgent.EvThrow BaseAgent.Decide
          (TypeError "toLowerCase is not a function")].
Proof.
  split.
  - destruct (C9_run_loop_bounded (fun _ => 0) HRAgent.impl Sample.settled_in
                BaseAgent.new) as (_ & _ & _ & _ & H & _).
    exists (Sample.context_or_empty
              (outcome (HRAgent.perceive Sample.settled_in))).
    apply H; vm_compute; reflexivity.
  - destruct (C9_run_loop_bounded (fun _ => 0) ITSetupAgent.impl
                (Sample.copy Sample.env Sample.numbered) BaseAgent.new)
      as (_ & _ & _ & _ & _ & _ & H & _).
    apply (H (Sample.context_or_empty
                (outcome (ITSetupAgent.perceive
                            (Sample.copy Sample.env Sample.numbered)))));
      vm_compute; reflexivity.
Defined.

(* ================================================================== *)
(** * 20. The classifier: tier, intensity, areas, confidence          *)
(* ================================================================== *)

Section ClassifierRest.
Import Js ClfModel.

Variable Date_of : val -> option Z.
Variable today : Z.
Variable now : string.

(** [lower_or] returns exactly on the values that are falsy or strings. *)
Lemma lower_or_returns (v : val) (dflt : string) :
  (exists s, outcome (JsP.lower_or v dflt) = inr s)
  <-> (truthy v = false \/ exists s, v = VStr s).
Proof.
  unfold JsP.lower_or, or. split.
  - intros [s H]. destruct (truthy v) eqn:Ht; [|now left].
    right. destruct v; try discriminate; eauto.
  - intros [Hf|[s ->]].
    + rewrite Hf. simpl. eauto.
    + destruct (truthy (VStr s)); simpl; eauto.
Qed.

(** The call of [_classifyRisk] returns exactly when the start date is
    falsy or converts to a primitive, and then with the level of the
    score. *)
Lemma classifyRisk_call_outcome (employee : obj) :
  outcome (classifyRisk_call Date_of today employee)
  = if truthy (get employee "startDate")
       && negb (converts (get employee "startDate"))
    then inl (TypeError not_primitive)
    else inr (_classifyRisk Date_of today employee).
Proof.
  unfold classifyRisk_call. now destruct (truthy _ && negb _).
Qed.

Lemma classifyTier_range (employee : obj) (tier : string) :
  outcome (_classifyTier employee) = inr tier ->
  In tier ["executive"; "technical"; "remote-intensive"; "standard"].
Proof.
  unfold _classifyTier. intros H.
  apply outcome_bind_inr in H as (role & _ & H).
  apply outcome_bind_inr in H as (department & _ & H).
  apply outcome_bind_inr in H as (location & _ & H).
  injection H as <-.
  repeat match goal with
         | |- In (if ?b then _ else _) _ => destruct b
         end; simpl; tauto.
Qed.

Lemma classify_tier (employee : obj) (c : Classification.t) :
  outcome (classify Date_of today now employee) = inr c ->
  outcome (_classifyTier employee) = inr (Classification.tier c)
  /\ c = Classification.mk (Classification.tier c)
           (_classifyRisk Date_of today employee)
           (_scoreIntensity (Classification.tier c)
              (_classifyRisk Date_of today employee))
           (_estimateDays (Classification.tier c)
              (_scoreIntensity (Classification.tier c)
                 (_classifyRisk Date_of today employee)))
           (_determineFocusAreas (Classification.tier c)
              (_classifyRisk Date_of today employee) employee)
           (_computeConfidence employee) now version.
Proof.
  unfold classify. intros H.
  apply outcome_bind_inr in H as (tier & Ht & H).
  apply outcome_bind_inr in H as (risk & Hr & H).
  rewrite classifyRisk_call_outcome in Hr.
  destruct (truthy _ && negb _); [discriminate|]. injection Hr as <-.
  injection H as <-. simpl. now split.
Qed.

End ClassifierRest.

(** X1.  [classify] returns exactly when each of role, department and
    location is falsy or a string, and the start date is falsy or
    converts to a primitive (as every value does but an object with a
    property toString of its own, or an array that holds one).  In
    every other case it throws: the call of toLowerCase for a field
    that is truthy and no string, the making of the Date for the start
    date. *)
Theorem X1_classify_returns_iff
    (Date_of : val -> option Z) (today : Z) (now : string) (employee : obj) :
  let lowerable v := Js.truthy v = false \/ exists s, v = VStr s in
  let datable v := Js.truthy v = false \/ Js.converts v = true in
  (exists c, outcome (ClfModel.classify Date_of today now employee) = inr c)
  <-> lowerable (Js.get employee "role")
      /\ lowerable (Js.get employee "department")
      /\ lowerable (Js.get employee "location")
      /\ datable (Js.get employee "startDate").
Proof.
  intros lowerable datable. unfold ClfModel.classify, ClfModel._classifyTier.
  pose proof (lower_or_returns (Js.get employee "role") EmptyString) as Hr.
  pose proof (lower_or_returns (Js.get employee "department") EmptyString) as Hd.
  pose proof (lower_or_returns (Js.get employee "location") EmptyString) as Hl.
  fold (lowerable (Js.get employee "role")) in Hr.
  fold (lowerable (Js.get employee "department")) in Hd.
  fold (lowerable (Js.get employee "location")) in Hl.
  unfold bind.
  destruct (outcome (JsP.lower_or (Js.get employee "role") EmptyString))
    as [e1|role]; cbn [outcome].
  { split; [intros [c Hc]; discriminate|].
    intros (H & _). apply Hr in H as [s Hs]. discriminate. }
  destruct (outcome (JsP.lower_or (Js.get employee "department") EmptyString))
    as [e2|department]; cbn [outcome].
  { split; [intros [c Hc]; discriminate|].
    intros (_ & H & _). apply Hd in H as [s Hs]. discriminate. }
  destruct (outcome (JsP.lower_or (Js.get employee "location") EmptyString))
    as [e3|location]; cbn [outcome ret].
  { split; [intros [c Hc]; discriminate|].
    intros (_ & _ & H & _). apply Hl in H as [s Hs]. discriminate. }
  rewrite classifyRisk_call_outcome. unfold datable.
  destruct (Js.truthy (Js.get employee "startDate"));
    destruct (Js.converts (Js.get employee "startDate")); cbn [andb negb outcome].
  - split; [|eauto]. intros _.
    split; [apply Hr; eauto|]. split; [apply Hd; eauto|].
    split; [apply Hl; eauto|auto].
  - split; [intros [c Hc]; discriminate|].
    intros (_ & _ & _ & [H|H]); discriminate.
  - split; [|eauto]. intros _.
    split; [apply Hr; eauto|]. split; [apply Hd; eauto|].
    split; [apply Hl; eauto|auto].
  - split; [|eauto]. intros _.
    split; [apply Hr; eauto|]. split; [apply Hd; eauto|].
    split; [apply Hl; eauto|auto].
Qed.

(** X2.  Whenever [classify] returns, the onboarding intensity and the
    estimated days are numbers.  The intensity is the base intensity of
    the tier (4 executive, 4 technical, 3 remote-intensive, 2 standard)
    plus 1 at high risk; it lies between 2 and 5, and the cap of 5 never
    cuts anything off.  The estimate is the base days of the tier (60,
    45, 35, 30) plus 5 days for each point of intensity above 2; it lies
    between 30 and 75. *)
Theorem X2_classify_intensity_days
    (Date_of : val -> option Z) (today : Z) (now : string) (employee : obj)
    (c : Classification.t) :
  outcome (ClfModel.classify Date_of today now employee) = inr c ->
  exists baseIntensity baseDays intensity days,
    assoc ClfModel._tierBaseIntensity (Classification.tier c) = Some baseIntensity
    /\ assoc ClfModel._tierBaseDays (Classification.tier c) = Some baseDays
    /\ Classification.onboardingIntensity c = Some intensity
    /\ Classification.estimatedCompletionDays c = Some days
    /\ intensity
       = baseIntensity
         + (if String.eqb (Classification.riskLevel c) "high" then 1 else 0)
    /\ days = baseDays + 5 * (intensity - 2)
    /\ 2 <= intensity <= 5
    /\ 30 <= days <= 75.
Proof.
  intros H. apply classify_tier in H as [Ht ->]. simpl.
  apply classifyTier_range in Ht.
  set (risk := ClfModel._classifyRisk Date_of today employee).
  unfold ClfModel._scoreIntensity, ClfModel._estimateDays.
  destruct (String.eqb risk "high");
    simpl in Ht; destruct Ht as [<-|[<-|[<-|[<-|[]]]]]; cbn;
    do 4 eexists; repeat (split; [reflexivity|]); lia.
Qed.

Lemma distinct_NoDup (areas seen : list string) :
  NoDup areas -> Forall (fun a => ~ In a seen) areas ->
  ClfModel.distinct seen areas = areas.
Proof.
  intros Hn. revert seen. induction Hn as [|a r Ha Hn IH]; intros seen Hs;
    [reflexivity|].
  simpl. inversion Hs as [|? ? Has Hr]; subst.
  destruct (existsb (String.eqb a) seen) eqn:E.
  - apply existsb_exists in E as (x & Hx & E). apply String.eqb_eq in E.
    subst x. contradiction.
  - f_equal. apply IH. apply List.Forall_forall. intros x Hx [<-|Hin].
    + apply Ha. now apply list_elem_of_In.
    + rewrite List.Forall_forall in Hr. now apply (Hr x).
Qed.

(** X3.  The focus areas [_determineFocusAreas] returns are the areas it
    pushed, in the order pushed: passing them through a Set removes
    nothing, since no area is pushed twice.  There are between 3 and 6
    of them, and at high risk the first two are document-collection and
    account-provisioning. *)
Theorem X3_focus_areas_distinct (tier riskLevel : string) (employee : obj) :
  ClfModel._determineFocusAreas tier riskLevel employee
  = ClfModel.pushed_areas tier riskLevel employee
  /\ NoDup (ClfModel._determineFocusAreas tier riskLevel employee)
  /\ (3 <= length (ClfModel._determineFocusAreas tier riskLevel employee) <= 6)%nat
  /\ (riskLevel = "high" ->
      firstn 2 (ClfModel._determineFocusAreas tier riskLevel employee)
      = ["document-collection"; "account-provisioning"]).
Proof.
  assert (Hn : NoDup (ClfModel.pushed_areas tier riskLevel employee)
               /\ (3 <= length (ClfModel.pushed_areas tier riskLevel employee) <= 6)%nat
               /\ (riskLevel = "high" ->
                   firstn 2 (ClfModel.pushed_areas tier riskLevel employee)
                   = ["document-collection"; "account-provisioning"])).
  { unfold ClfModel.pushed_areas.
    destruct (String.eqb riskLevel "high") eqn:Eh.
    - apply String.eqb_eq in Eh. subst riskLevel. simpl.
      destruct (String.eqb tier "executive"); [|
      destruct (String.eqb tier "technical"); [|
      destruct (String.eqb tier "remote-intensive")]];
        destruct (Js.truthy (Js.get employee "manager")); simpl;
        (split; [refine (bool_decide_unpack _ _); vm_compute; exact I|]);
        (split; [lia|reflexivity]).
    - assert (riskLevel <> "high") by (intros ->; discriminate).
      destruct (String.eqb riskLevel "medium");
      (destruct (String.eqb tier "executive"); [|
       destruct (String.eqb tier "technical"); [|
       destruct (String.eqb tier "remote-intensive")]]);
        destruct (Js.truthy (Js.get employee "manager")); simpl;
        (split; [refine (bool_decide_unpack _ _); vm_compute; exact I|]);
        (split; [lia|congruence]). }
  destruct Hn as (Hn & Hl & Hh).
  assert (E : ClfModel._determineFocusAreas tier riskLevel employee
              = ClfModel.pushed_areas tier riskLevel employee).
  { unfold ClfModel._determineFocusAreas. apply distinct_NoDup; [exact Hn|].
    apply List.Forall_forall. intros a _ []. }
  rewrite E. auto.
Qed.

Section Confidence.
Import Js ClfModel.

(** The confidence in terms of the weights of the fields left empty. *)
Lemma computeConfidence_sum (employee : obj) :
  _computeConfidence employee
  = 10 * (10 - (missing_penalty employee "firstName" 1
                + missing_penalty employee "lastName" 1
                + missing_penalty employee "department" 2
                + missing_penalty employee "role" 2
                + missing_penalty employee "location" 1
                + missing_penalty employee "startDate" 1
                + missing_penalty employee "manager" 1
                + missing_penalty employee "email" 1)).
Proof.
  unfold _computeConfidence, scoredFields, missing_penalty.
  cbn [List.filter fst].
  destruct (truthy (get employee "firstName")),
           (truthy (get employee "lastName")),
           (truthy (get employee "department")),
           (truthy (get employee "role")),
           (truthy (get employee "location")),
           (truthy (get employee "startDate")),
           (truthy (get employee "manager")),
           (truthy (get employee "email")); reflexivity.
Qed.

Lemma missing_penalty_bounds (employee : obj) (field : string) (weight : Z) :
  0 <= weight -> 0 <= missing_penalty employee field weight <= weight.
Proof. unfold missing_penalty. destruct (truthy _); lia. Qed.

Lemma missing_penalty_insert (employee : obj) (k field : string) (v : val)
    (weight : Z) :
  0 <= weight -> truthy v = true ->
  missing_penalty (<[k := v]> employee) field weight
  <= missing_penalty employee field weight.
Proof.
  intros Hw Hv. unfold missing_penalty, get.
  destruct (decide (k = field)) as [->|Hne].
  - rewrite lookup_insert_eq.
    destruct (truthy (default VUndef (employee !! field))); simpl;
      rewrite Hv; lia.
  - rewrite lookup_insert_ne by exact Hne. lia.
Qed.

End Confidence.

(** X4.  The confidence is a multiple of 10 between 0 and 100.  It is
    100 exactly when all eight scored fields are truthy and 0 exactly
    when none is, and giving any field a truthy value never lowers
    it. *)
Theorem X4_confidence_completeness (employee : obj) :
  0 <= ClfModel._computeConfidence employee <= 100
  /\ ClfModel._computeConfidence employee mod 10 = 0
  /\ (ClfModel._computeConfidence employee = 100
      <-> Forall (fun f => Js.truthy (Js.get employee (fst f)) = true)
                 ClfModel.scoredFields)
  /\ (ClfModel._computeConfidence employee = 0
      <-> Forall (fun f => Js.truthy (Js.get employee (fst f)) = false)
                 ClfModel.scoredFields)
  /\ (forall field v,
        Js.truthy v = true ->
        ClfModel._computeConfidence employee
        <= ClfModel._computeConfidence (<[field := v]> employee)).
Proof.
  rewrite computeConfidence_sum.
  split; [|split; [|split; [|split]]].
  - pose proof (missing_penalty_bounds employee "firstName" 1).
    pose proof (missing_penalty_bounds employee "lastName" 1).
    pose proof (missing_penalty_bounds employee "department" 2).
    pose proof (missing_penalty_bounds employee "role" 2).
    pose proof (missing_penalty_bounds employee "location" 1).
    pose proof (missing_penalty_bounds employee "startDate" 1).
    pose proof (missing_penalty_bounds employee "manager" 1).
    pose proof (missing_penalty_bounds employee "email" 1). lia.
  - rewrite Z.mul_comm. apply Z.mod_mul. lia.
  - unfold ClfModel.scoredFields, ClfModel.missing_penalty.
    rewrite !List.Forall_cons_iff. cbn [fst].
    destruct (Js.truthy (Js.get employee "firstName")),
             (Js.truthy (Js.get employee "lastName")),
             (Js.truthy (Js.get employee "department")),
             (Js.truthy (Js.get employee "role")),
             (Js.truthy (Js.get employee "location")),
             (Js.truthy (Js.get employee "startDate")),
             (Js.truthy (Js.get employee "manager")),
             (Js.truthy (Js.get employee "email"));
      (split; [intros; try lia; repeat split; auto
              |intros; try reflexivity; intuition discriminate]).
  - unfold ClfModel.scoredFields, ClfModel.missing_penalty.
    rewrite !List.Forall_cons_iff. cbn [fst].
    destruct (Js.truthy (Js.get employee "firstName")),
             (Js.truthy (Js.get employee "lastName")),
             (Js.truthy (Js.get employee "department")),
             (Js.truthy (Js.get employee "role")),
             (Js.truthy (Js.get employee "location")),
             (Js.truthy (Js.get employee "startDate")),
             (Js.truthy (Js.get employee "manager")),
             (Js.truthy (Js.get employee "email"));
      (split; [intros; try lia; repeat split; auto
              |intros; try reflexivity; intuition discriminate]).
  - intros field v Hv. rewrite computeConfidence_sum.
    pose proof (missing_penalty_insert employee field "firstName" v 1 ltac:(lia) Hv).
    pose proof (missing_penalty_insert employee field "lastName" v 1 ltac:(lia) Hv).
    pose proof (missing_penalty_insert employee field "department" v 2 ltac:(lia) Hv).
    pose proof (missing_penalty_insert employee field "role" v 2 ltac:(lia) Hv).
    pose proof (missing_penalty_insert employee field "location" v 1 ltac:(lia) Hv).
    pose proof (missing_penalty_insert employee field "startDate" v 1 ltac:(lia) Hv).
    pose proof (missing_penalty_insert employee field "manager" v 1 ltac:(lia) Hv).
    pose proof (missing_penalty_insert employee field "email" v 1 ltac:(lia) Hv).
    lia.
Qed.

(** X5.  Risk and confidence are tied to each other: the confidence is at
    least 80 - 10 * score, and 10 * score is at most
    230 - 2 * confidence.  So a profile of low risk has a confidence of
    at least 70, and a profile of confidence 100 has a score of at most
    3, which only its start date can give it, and is never of high
    risk. *)
Theorem X5_risk_against_confidence
    (Date_of : val -> option Z) (today : Z) (employee : obj) :
  80 - 10 * ClfModel.riskScore Date_of today employee
  <= ClfModel._computeConfidence employee
  /\ 10 * ClfModel.riskScore Date_of today employee
     <= 230 - 2 * ClfModel._computeConfidence employee
  /\ (ClfModel._classifyRisk Date_of today employee = "low" ->
      70 <= ClfModel._computeConfidence employee)
  /\ (ClfModel._computeConfidence employee = 100 ->
      ClfModel.riskScore Date_of today employee <= 3
      /\ ClfModel._classifyRisk Date_of today employee <> "high").
Proof.
  assert (H : 80 - 10 * ClfModel.riskScore Date_of today employee
              <= ClfModel._computeConfidence employee
              /\ 10 * ClfModel.riskScore Date_of today employee
                 <= 230 - 2 * ClfModel._computeConfidence employee).
  { rewrite computeConfidence_sum. unfold ClfModel.riskScore.
    pose proof (startDate_penalty_bounds Date_of today
                  (Js.get employee "startDate")) as Hb.
    assert (Hs : ClfModel.missing_penalty employee "startDate" 1
                 <= ClfModel.startDate_penalty Date_of today
                      (Js.get employee "startDate")).
    { unfold ClfModel.missing_penalty, ClfModel.startDate_penalty in *.
      destruct (Js.truthy (Js.get employee "startDate")); lia. }
    pose proof (missing_penalty_bounds employee "startDate" 1 ltac:(lia)) as Hm.
    unfold ClfModel.missing_penalty in *.
    destruct (Js.truthy (Js.get employee "firstName")),
             (Js.truthy (Js.get employee "lastName")),
             (Js.truthy (Js.get employee "department")),
             (Js.truthy (Js.get employee "role")),
             (Js.truthy (Js.get employee "location")),
             (Js.truthy (Js.get employee "manager")),
             (Js.truthy (Js.get employee "email")); lia. }
  destruct H as [H1 H2]. split; [exact H1|]. split; [exact H2|].
  unfold ClfModel._classifyRisk, ClfModel.level.
  destruct (Z.leb_spec 5 (ClfModel.riskScore Date_of today employee));
    destruct (Z.leb_spec 2 (ClfModel.riskScore Date_of today employee));
    (split; [intros; try discriminate; lia|]);
    intros Hc; (split; [lia|]); try discriminate; lia.
Qed.

(** X6.  For a start date that is truthy and a valid date, the penalty
    depends on the milliseconds between the date and the start of the
    present day alone: 3 for a date before the start of the day, 2 for
    one less than 3 days after it, 1 for one less than 7 days after it
    and 0 from 7 days on.  The limits are exact to the millisecond. *)
Theorem X6_startDate_thresholds
    (Date_of : val -> option Z) (today : Z) (startDate : val) (start : Z) :
  Js.truthy startDate = true ->
  Date_of startDate = Some start ->
  ClfModel.startDate_penalty Date_of today startDate
  = if start <? today then 3
    else if start <? today + 3 * 86400000 then 2
    else if start <? today + 7 * 86400000 then 1
    else 0.
Proof.
  intros Ht Hd. unfold ClfModel.startDate_penalty, ClfModel._leadDays.
  rewrite Ht, Hd. change (1000 * 60 * 60 * 24) with 86400000.
  pose proof (Z.div_mod (start - today) 86400000 ltac:(lia)) as Hq.
  pose proof (Z.mod_pos_bound (start - today) 86400000 ltac:(lia)) as Hr.
  set (q := (start - today) / 86400000) in *.
  repeat match goal with
         | |- context [?a <? ?b] => destruct (Z.ltb_spec a b)
         end; lia.
Qed.

(* ================================================================== *)
(** * 21. The employee store                                          *)
(* ================================================================== *)

Section Store.
Import Js EmployeeStore.

Lemma assoc_set_eq (id : string) (e : Stored.t) (employees : Employees) :
  assoc (employees_set id e employees) id = Some e.
Proof.
  induction employees as [|[id' e'] r IH]; simpl.
  - now rewrite String.eqb_refl.
  - destruct (String.eqb id' id) eqn:E; simpl.
    + now rewrite String.eqb_refl.
    + now rewrite E.
Qed.

Lemma assoc_set_ne (id id' : string) (e : Stored.t) (employees : Employees) :
  id' <> id ->
  assoc (employees_set id e employees) id' = assoc employees id'.
Proof.
  intros Hne. induction employees as [|[k e'] r IH]; simpl.
  - destruct (String.eqb_spec id id'); congruence.
  - destruct (String.eqb_spec k id) as [->|Hk]; simpl.
    + destruct (String.eqb_spec id id'); congruence.
    + destruct (String.eqb_spec k id'); congruence.
Qed.

Lemma set_fresh (id : string) (e : Stored.t) (employees : Employees) :
  assoc employees id = None ->
  employees_set id e employees = (employees ++ [(id, e)])%list.
Proof.
  induction employees as [|[k e'] r IH]; simpl; [reflexivity|].
  destruct (String.eqb k id); [discriminate|]. intros H. now rewrite IH.
Qed.

Lemma set_present (id : string) (e : Stored.t) (employees : Employees) :
  List.map fst (employees_set id e employees)
  = match assoc employees id with
    | Some _ => List.map fst employees
    | None => (List.map fst employees ++ [id])%list
    end.
Proof.
  induction employees as [|[k e'] r IH]; simpl; [reflexivity|].
  destruct (String.eqb_spec k id) as [->|Hk]; simpl; [reflexivity|].
  rewrite IH. now destruct (assoc r id).
Qed.

Lemma find_and_set_None (taskId status : string) (ts : list Task.t) :
  find_and_set taskId status ts = None
  <-> Forall (fun t => Task.id t <> taskId) ts.
Proof.
  induction ts as [|t r IH]; simpl.
  - split; [constructor|reflexivity].
  - destruct (String.eqb_spec (Task.id t) taskId) as [E|E].
    + split; [discriminate|]. intros H. inversion H; subst. contradiction.
    + destruct (find_and_set taskId status r) as [[task r']|].
      * split; [discriminate|]. intros H. inversion H as [|? ? _ Hr]; subst.
        apply IH in Hr. discriminate.
      * split; [|reflexivity]. intros _. constructor; [exact E|now apply IH].
Qed.

Lemma find_and_set_Some (taskId status : string) (ts ts' : list Task.t)
    (task : Task.t) :
  find_and_set taskId status ts = Some (task, ts') ->
  exists pre t post,
    ts = (pre ++ t :: post)%list
    /\ Forall (fun t => Task.id t <> taskId) pre
    /\ Task.id t = taskId
    /\ task = with_status status t
    /\ ts' = (pre ++ task :: post)%list.
Proof.
  revert ts'. induction ts as [|t r IH]; intros ts'; simpl; [discriminate|].
  destruct (String.eqb_spec (Task.id t) taskId) as [E|E].
  - intros [= <- <-]. exists [], t, r. repeat split; auto.
  - destruct (find_and_set taskId status r) as [[task' r']|]; [|discriminate].
    intros [= -> <-].
    destruct (IH r' eq_refl) as (pre & t0 & post & -> & Hpre & Hid & Ht & ->).
    exists (t :: pre), t0, post. repeat split; auto.
Qed.

End Store.

(** X7.  After [createEmployee] the store returns the new employee under
    the new id and what it held before under every other id.  The
    employee carries the id and has no plan.  An id that is new puts the
    employee at the end of the list of all employees; an id that is
    present replaces the employee of that id and leaves the length of
    the list as it was. *)
Theorem X7_create_then_get
    (id today createdAt : string) (data : obj)
    (employees : EmployeeStore.Employees) :
  let created := EmployeeStore.createEmployee_in id today createdAt data employees in
  EmployeeStore.getEmployee (snd created) id = Some (fst created)
  /\ (forall id', id' <> id ->
        EmployeeStore.getEmployee (snd created) id'
        = EmployeeStore.getEmployee employees id')
  /\ Js.get (Stored.fields (fst created)) "id" = VStr id
  /\ Stored.onboardingPlan (fst created) = None
  /\ (EmployeeStore.getEmployee employees id = None ->
      EmployeeStore.getAllEmployees (snd created)
      = (EmployeeStore.getAllEmployees employees ++ [fst created])%list)
  /\ length (EmployeeStore.getAllEmployees (snd created))
     = match EmployeeStore.getEmployee employees id with
       | None => S (length (EmployeeStore.getAllEmployees employees))
       | Some _ => length (EmployeeStore.getAllEmployees employees)
       end.
Proof.
  intros created. unfold EmployeeStore.getEmployee, created,
    EmployeeStore.createEmployee_in. cbn [fst snd].
  split; [apply assoc_set_eq|].
  split; [intros id' Hne; now apply assoc_set_ne|].
  split; [reflexivity|]. split; [reflexivity|].
  unfold EmployeeStore.getAllEmployees.
  set (e := Stored.mk _ None). clearbody e.
  split.
  - intros H. rewrite (set_fresh _ _ _ H), map_app. reflexivity.
  - rewrite !length_map.
    rewrite <- (length_map fst (EmployeeStore.employees_set id e employees)).
    rewrite set_present. destruct (assoc employees id).
    + now rewrite length_map.
    + rewrite length_app, length_map. simpl. lia.
Qed.

(** X8.  [updateTaskStatus] returns null exactly when the store has no
    employee of that id or the employee has no plan, and undefined
    exactly when the employee has a plan none of whose tasks has the
    task id.  In both cases the store is left as it was. *)
Theorem X8_updateTaskStatus_nothing_found
    (employees : EmployeeStore.Employees) (employeeId taskId status : string) :
  let result := EmployeeStore.updateTaskStatus employees employeeId taskId status in
  (fst result = EmployeeStore.ResNull
   <-> EmployeeStore.getEmployee employees employeeId = None
       \/ exists emp,
            EmployeeStore.getEmployee employees employeeId = Some emp
            /\ Stored.onboardingPlan emp = None)
  /\ (fst result = EmployeeStore.ResUndefined
      <-> exists emp plan,
            EmployeeStore.getEmployee employees employeeId = Some emp
            /\ Stored.onboardingPlan emp = Some plan
            /\ Forall (fun t => Task.id t <> taskId)
                      (tasks (Orchestrator.Plan.employee plan)))
  /\ (fst result = EmployeeStore.ResNull \/ fst result = EmployeeStore.ResUndefined ->
      snd result = employees).
Proof.
  intros result. unfold result, EmployeeStore.updateTaskStatus,
    EmployeeStore.getEmployee.
  destruct (assoc employees employeeId) as [emp|]; simpl.
  2:{ split; [split; auto|]. split; [|reflexivity].
      split; [discriminate|]. intros (emp & plan & H & _). discriminate. }
  destruct (Stored.onboardingPlan emp) as [plan|] eqn:Hplan; simpl.
  2:{ split; [split; [|reflexivity]; intros _; right; eauto|].
      split; [|reflexivity].
      split; [discriminate|]. intros (emp' & plan & [= <-] & H & _). congruence. }
  destruct (EmployeeStore.find_and_set taskId status _) as [[task ts]|] eqn:Hf; simpl.
  - split.
    { split; [discriminate|]. intros [H|(emp' & [= <-] & H)]; congruence. }
    split; [|intros [H|H]; discriminate].
    split; [discriminate|].
    intros (emp' & plan' & [= <-] & H & Hall).
    assert (plan' = plan) by congruence. subst plan'.
    apply find_and_set_None with (status := status) in Hall. congruence.
  - split.
    { split; [discriminate|]. intros [H|(emp' & [= <-] & H)]; congruence. }
    split; [|reflexivity].
    split; [|reflexivity]. intros _. exists emp, plan.
    split; [reflexivity|]. split; [exact Hplan|].
    now apply find_and_set_None in Hf.
Qed.

(** X9.  When [updateTaskStatus] returns a task, it is the first task of
    the plan with that id, with the new status.  In the store this task
    alone has changed: the tasks before and after it, the other fields
    of the employee, the other employees and the order of the employees
    are as before. *)
Theorem X9_updateTaskStatus_found
    (employees employees' : EmployeeStore.Employees)
    (employeeId taskId status : string) (task : Task.t) :
  EmployeeStore.updateTaskStatus employees employeeId taskId status
  = (EmployeeStore.ResTask task, employees') ->
  exists emp plan pre t post,
    EmployeeStore.getEmployee employees employeeId = Some emp
    /\ Stored.onboardingPlan emp = Some plan
    /\ tasks (Orchestrator.Plan.employee plan) = (pre ++ t :: post)%list
    /\ Forall (fun t => Task.id t <> taskId) pre
    /\ Task.id t = taskId
    /\ task = EmployeeStore.with_status status t
    /\ EmployeeStore.getEmployee employees' employeeId
       = Some (Stored.mk (Stored.fields emp)
                 (Some (EmployeeStore.with_tasks plan (pre ++ task :: post))))
    /\ (forall id, id <> employeeId ->
          EmployeeStore.getEmployee employees' id
          = EmployeeStore.getEmployee employees id)
    /\ List.map fst employees' = List.map fst employees.
Proof.
  unfold EmployeeStore.updateTaskStatus, EmployeeStore.getEmployee.
  destruct (assoc employees employeeId) as [emp|] eqn:He; [|discriminate].
  destruct (Stored.onboardingPlan emp) as [plan|] eqn:Hplan; [|discriminate].
  destruct (EmployeeStore.find_and_set taskId status _) as [[task' ts]|] eqn:Hf;
    [|discriminate].
  intros [= -> <-].
  apply find_and_set_Some in Hf as (pre & t & post & Hts & Hpre & Hid & Ht & ->).
  exists emp, plan, pre, t, post.
  repeat (split; [assumption || reflexivity|]).
  split; [apply assoc_set_eq|].
  split; [intros id Hne; now apply assoc_set_ne|].
  rewrite set_present, He. reflexivity.
Qed.

(* ================================================================== *)
(** * 22. The routes                                                  *)
(* ================================================================== *)

Section RouteOnboard.
Import Js EmployeeStore Routes.

Lemma get_delete (o : obj) (k k' : string) :
  get (delete k o) k' = if String.eqb k k' then VUndef else get o k'.
Proof.
  unfold get. destruct (String.eqb_spec k k') as [->|Hne].
  - now rewrite lookup_delete_eq.
  - now rewrite lookup_delete_ne.
Qed.

Lemma copyFor_created (env : Orchestrator.Env) (id today createdAt : string)
    (data : obj) :
  outcome (Orchestrator.copyFor
             (context_of (Orchestrator.initial_employee env
                            (createEmployee id today createdAt data))))
  = inr (stored_copy env (createEmployee id today createdAt data)).
Proof.
  unfold Orchestrator.copyFor, stored_copy.
  cbn [employee context_of props Orchestrator.initial_employee].
  rewrite !get_insert. cbn [String.eqb Ascii.eqb Bool.eqb].
  unfold createEmployee. rewrite ?get_delete, !get_insert.
  cbn [String.eqb Ascii.eqb Bool.eqb]. reflexivity.
Qed.

Lemma onboard_created (o : Orchestrator.t) (env : Orchestrator.Env)
    (id today createdAt : string) (data : obj) :
  let e := createEmployee id today createdAt data in
  let copy := stored_copy env e in
  Orchestrator.onboard o env e
  = match allSettled (Orchestrator.outcomes env o copy) (Orchestrator.settled env) with
    | None => (Pending, Orchestrator.after env o copy)
    | Some results =>
        if Orchestrator.printable
             (Orchestrator.merged (Orchestrator.initial_employee env e) results)
        then (Fulfilled (Orchestrator.plan_of env (Orchestrator.after env o copy)
                           (Orchestrator.initial_employee env e) results),
              Orchestrator.after env o copy)
        else (Rejected (TypeError not_primitive), Orchestrator.after env o copy)
    end.
Proof.
  intros e copy. rewrite onboard_unfold. unfold e.
  now rewrite copyFor_created.
Qed.

(** The employee merged for a record the route has made is printable
    exactly when the two names of the body convert to strings: the four
    agents leave the names alone. *)
Lemma created_printable (s1 s2 s3 s4 : BaseAgent.State) (env : Orchestrator.Env)
    (id today createdAt : string) (body : obj) :
  let e := createEmployee id today createdAt (onboard_data body) in
  Orchestrator.printable
    (Orchestrator.merged (Orchestrator.initial_employee env e)
       (Orchestrator.outcomes env (Orchestrator.in_states s1 s2 s3 s4)
          (stored_copy env e)))
  = converts (get body "firstName") && converts (get body "lastName").
Proof.
  intros e. rewrite merged_printable.
  - unfold Orchestrator.printable.
    cbn [props Orchestrator.initial_employee].
    rewrite !get_insert. cbn [String.eqb Ascii.eqb Bool.eqb].
    rewrite !get_delete. cbn [String.eqb Ascii.eqb Bool.eqb].
    unfold e, createEmployee, onboard_data. rewrite !get_insert.
    cbn [String.eqb Ascii.eqb Bool.eqb]. reflexivity.
  - intros k Hk. unfold stored_copy.
    cbn [employee with_employee context_of props].
    rewrite !lookup_insert_ne; [reflexivity| |];
      intros <-; simpl in Hk; intuition discriminate.
Qed.

(** What the handler does with a body that carries both names. *)
Lemma post_onboard_named (rt : Runtime) (s : Server) (body : obj) :
  truthy (get body "firstName") = true ->
  truthy (get body "lastName") = true ->
  let e := createEmployee (uuid rt) (today rt) (createdAt rt) (onboard_data body) in
  let stored := Stored.mk (delete "onboardingPlan" e) None in
  post_onboard rt s body
  = match Orchestrator.onboard (orchestrator s) (env rt) e with
    | (Fulfilled plan, o) =>
        (Some (mkResponse 200 (onboard_body (VStr (uuid rt)) (written o plan))),
         mkServer
           (employees_set (uuid rt)
              (Stored.mk (delete "onboardingPlan" e) (Some plan))
              (employees_set (uuid rt) stored (employees s)))
           o)
    | (Rejected err, o) =>
        (Some (mkResponse 500
                 (failure_body "Onboarding orchestration failed" (message err))),
         mkServer (employees_set (uuid rt) stored (employees s)) o)
    | (Pending, o) =>
        (None, mkServer (employees_set (uuid rt) stored (employees s)) o)
    end.
Proof.
  intros Hf Hl e stored. unfold post_onboard. rewrite Hf, Hl.
  cbn [negb orb createEmployee_in]. fold e.
  destruct (Orchestrator.onboard (orchestrator s) (env rt) e) as [[|err|plan] o];
    reflexivity.
Qed.

(** The same for the orchestrator of the constructor and four runs that
    settle: the answer is 200 or 500 as the names convert or not. *)
Lemma post_onboard_settled (rt : Runtime) (s : Server) (body : obj)
    (s1 s2 s3 s4 : BaseAgent.State) :
  orchestrator s = Orchestrator.in_states s1 s2 s3 s4 ->
  truthy (get body "firstName") = true ->
  truthy (get body "lastName") = true ->
  Permutation (Orchestrator.settled (env rt)) [0; 1; 2; 3]%nat ->
  let e := createEmployee (uuid rt) (today rt) (createdAt rt) (onboard_data body) in
  let stored := Stored.mk (delete "onboardingPlan" e) None in
  let copy := stored_copy (env rt) e in
  let o' := Orchestrator.after (env rt) (orchestrator s) copy in
  let plan :=
    Orchestrator.plan_of (env rt) o' (Orchestrator.initial_employee (env rt) e)
      (Orchestrator.outcomes (env rt) (orchestrator s) copy) in
  post_onboard rt s body
  = if converts (get body "firstName") && converts (get body "lastName")
    then (Some (mkResponse 200 (onboard_body (VStr (uuid rt)) (written o' plan))),
          mkServer
            (employees_set (uuid rt)
               (Stored.mk (delete "onboardingPlan" e) (Some plan))
               (employees_set (uuid rt) stored (employees s)))
            o')
    else (Some (mkResponse 500
                  (failure_body "Onboarding orchestration failed" not_primitive)),
          mkServer (employees_set (uuid rt) stored (employees s)) o').
Proof.
  intros Ho Hf Hl Hp e stored copy o' plan.
  rewrite (post_onboard_named rt s body Hf Hl).
  rewrite onboard_created. cbv zeta.
  rewrite (allSettled_any_order (Orchestrator.outcomes _ _ _) _ Hp).
  fold e. fold copy. fold o'. fold plan.
  assert (Hn : Orchestrator.printable
                 (Orchestrator.merged (Orchestrator.initial_employee (env rt) e)
                    (Orchestrator.outcomes (env rt) (orchestrator s) copy))
               = converts (get body "firstName") && converts (get body "lastName")).
  { rewrite Ho. apply created_printable. }
  rewrite Hn.
  now destruct (converts (get body "firstName") && converts (get body "lastName")).
Qed.

Lemma set_set (id : string) (e e' : Stored.t) (employees : Employees) :
  employees_set id e' (employees_set id e employees) = employees_set id e' employees.
Proof.
  induction employees as [|[k x] r IH]; simpl.
  - now rewrite String.eqb_refl.
  - destruct (String.eqb k id) eqn:E; simpl.
    + now rewrite String.eqb_refl.
    + now rewrite E, IH.
Qed.

End RouteOnboard.

(** X10.  For the orchestrator of the constructor, in any state: the
    onboarding route answers 400, with the message that both names are
    required and without touching the store or the agents, exactly when
    the first or the last name of the body is falsy.  For a body with
    both names and four runs that settle it answers 500 exactly when
    one of the names does not convert to a string, as an object with a
    property toString of its own does not: the summary then throws,
    [onboard] rejects, and the employee stays in the store without a
    plan.  In every other case it answers 200.  No answer is sent only
    if the runs do not all settle. *)
Theorem X10_post_onboard_answers
    (rt : Routes.Runtime) (s : Routes.Server) (body : obj)
    (s1 s2 s3 s4 : BaseAgent.State) :
  Routes.orchestrator s = Orchestrator.in_states s1 s2 s3 s4 ->
  let nameless :=
    Js.truthy (Js.get body "firstName") = false
    \/ Js.truthy (Js.get body "lastName") = false in
  let unprintable :=
    Js.converts (Js.get body "firstName") = false
    \/ Js.converts (Js.get body "lastName") = false in
  let answer := Routes.post_onboard rt s body in
  (nameless
   <-> answer
       = (Some (Routes.mkResponse 400
                  (Routes.error_body "firstName and lastName are required")),
          s))
  /\ (fst answer = None ->
      ~ Permutation (Orchestrator.settled (Routes.env rt)) [0; 1; 2; 3]%nat)
  /\ (forall response,
        fst answer = Some response ->
        (Routes.status response = 400 <-> nameless)
        /\ (Routes.status response = 500 <-> ~ nameless /\ unprintable)
        /\ (Routes.status response = 200 <-> ~ nameless /\ ~ unprintable)
        /\ (Routes.status response = 500 ->
            exists fields,
              EmployeeStore.getEmployee (Routes.employees (snd answer))
                                        (Routes.uuid rt)
              = Some (Stored.mk fields None)
              /\ Js.get fields "id" = VStr (Routes.uuid rt))).
Proof.
  intros Ho nameless unprintable answer. unfold nameless, unprintable, answer.
  destruct (Js.truthy (Js.get body "firstName")) eqn:Hf.
  2:{ unfold Routes.post_onboard. rewrite Hf. cbn [negb orb fst Routes.status].
      split; [split; auto|]. split; [discriminate|].
      intros response [= <-]. cbn [Routes.status].
      split; [split; auto|].
      split; [split; [discriminate|intros [H _]; destruct H; auto]|].
      split; [split; [discriminate|intros [H _]; destruct H; auto]|].
      discriminate. }
  destruct (Js.truthy (Js.get body "lastName")) eqn:Hl.
  2:{ unfold Routes.post_onboard. rewrite Hf, Hl. cbn [negb orb fst Routes.status].
      split; [split; auto|]. split; [discriminate|].
      intros response [= <-]. cbn [Routes.status].
      split; [split; auto|].
      split; [split; [discriminate|intros [H _]; destruct H; auto]|].
      split; [split; [discriminate|intros [H _]; destruct H; auto]|].
      discriminate. }
  assert (Hnot : ~ (true = false \/ true = false)) by (intros [H|H]; discriminate).
  rewrite (post_onboard_named rt s body Hf Hl).
  rewrite onboard_created. cbv zeta.
  destruct (allSettled _ _) as [results|] eqn:Ha.
  2:{ cbn [fst snd].
      split; [split; [intros [H|H]; discriminate|discriminate]|].
      split; [|discriminate]. intros _ Hp.
      rewrite (allSettled_any_order (Orchestrator.outcomes _ _ _) _ Hp) in Ha.
      discriminate. }
  apply allSettled_Some in Ha. subst results.
  rewrite Ho, created_printable.
  destruct (Js.converts (Js.get body "firstName"));
    destruct (Js.converts (Js.get body "lastName")); cbn [andb fst snd];
    (split; [split; [intros [H|H]; discriminate|discriminate]|]);
    (split; [discriminate|]);
    intros response [= <-]; cbn [Routes.status Routes.employees];
    (split; [split; [discriminate|intros [H|H]; discriminate]|]).
  - split; [split; [discriminate|intros [_ [H|H]]; discriminate]|].
    split; [split; [intros _; split; [exact Hnot|exact Hnot]|reflexivity]|].
    discriminate.
  - split; [split; [intros _; split; [exact Hnot|auto]|reflexivity]|].
    split; [split; [discriminate|intros [_ H]; destruct H; auto]|].
    intros _. eexists. unfold EmployeeStore.getEmployee.
    rewrite assoc_set_eq. split; reflexivity.
  - split; [split; [intros _; split; [exact Hnot|auto]|reflexivity]|].
    split; [split; [discriminate|intros [_ H]; destruct H; auto]|].
    intros _. eexists. unfold EmployeeStore.getEmployee.
    rewrite assoc_set_eq. split; reflexivity.
  - split; [split; [intros _; split; [exact Hnot|auto]|reflexivity]|].
    split; [split; [discriminate|intros [_ H]; destruct H; auto]|].
    intros _. eexists. unfold EmployeeStore.getEmployee.
    rewrite assoc_set_eq. split; reflexivity.
Qed.

(** X11.  For the orchestrator of the constructor, in any state, a body
    with both names, each of which converts to a string, and four runs
    that settle: the onboarding route answers 200 with the new id and
    the plan [onboard] returns for the record [createEmployee] makes of
    the body.  Afterwards the employee route returns that employee with
    that plan under the new id.  The stored employee has the id, the
    first name of the body, an empty task array of its own and a null
    email, whatever email the body holds: the route does not pass the
    email on.  Every other employee of the store is the object it was;
    the logs of the four agents, which the plans of the earlier
    employees share and the employee route writes out, have each grown
    by the entries of this call. *)
Theorem X11_post_onboard_stores_plan
    (rt : Routes.Runtime) (s : Routes.Server) (body : obj)
    (s1 s2 s3 s4 : BaseAgent.State) :
  Routes.orchestrator s = Orchestrator.in_states s1 s2 s3 s4 ->
  Js.truthy (Js.get body "firstName") = true ->
  Js.truthy (Js.get body "lastName") = true ->
  Js.converts (Js.get body "firstName") = true ->
  Js.converts (Js.get body "lastName") = true ->
  Permutation (Orchestrator.settled (Routes.env rt)) [0; 1; 2; 3]%nat ->
  exists plan s' fields,
    Routes.post_onboard rt s body
    = (Some (Routes.mkResponse 200
               (Routes.onboard_body (VStr (Routes.uuid rt))
                  (Routes.written (Routes.orchestrator s') plan))),
       s')
    /\ Orchestrator.onboard (Routes.orchestrator s) (Routes.env rt)
         (EmployeeStore.createEmployee (Routes.uuid rt) (Routes.today rt)
            (Routes.createdAt rt) (Routes.onboard_data body))
       = (Fulfilled plan, Routes.orchestrator s')
    /\ Routes.get_employee s' (Routes.uuid rt)
       = Routes.mkResponse 200
           (Routes.employee_body fields
              (Some (Routes.written (Routes.orchestrator s') plan)))
    /\ Js.get fields "id" = VStr (Routes.uuid rt)
    /\ Js.get fields "firstName" = Js.get body "firstName"
    /\ Js.get fields "email" = VNull
    /\ Js.get fields "tasks" = VArr []
    /\ (forall id, id <> Routes.uuid rt ->
          EmployeeStore.getEmployee (Routes.employees s') id
          = EmployeeStore.getEmployee (Routes.employees s) id)
    /\ (forall k, exists entries,
          Orchestrator.entries (Routes.orchestrator s') (Orchestrator.LogOf k)
          = (Orchestrator.entries (Routes.orchestrator s) (Orchestrator.LogOf k)
             ++ entries)%list
          /\ (2 <= length entries)%nat).
Proof.
  intros Ho Hf Hl Cf Cl Hp.
  rewrite (post_onboard_settled rt s body s1 s2 s3 s4 Ho Hf Hl Hp). cbv zeta.
  rewrite Cf, Cl. cbn [andb].
  eexists _, (Routes.mkServer _ _), _. cbn [Routes.orchestrator].
  split; [reflexivity|].
  split.
  { rewrite onboard_created. cbv zeta.
    rewrite (allSettled_any_order (Orchestrator.outcomes _ _ _) _ Hp).
    pose proof (created_printable s1 s2 s3 s4 (Routes.env rt) (Routes.uuid rt)
                  (Routes.today rt) (Routes.createdAt rt) body) as Hn.
    cbv zeta in Hn. rewrite <- Ho in Hn. rewrite Hn, Cf, Cl. reflexivity. }
  unfold Routes.get_employee, EmployeeStore.getEmployee.
  cbn [Routes.employees Routes.orchestrator].
  rewrite assoc_set_eq. cbn [Stored.fields Stored.onboardingPlan fmap option_fmap option_map].
  split; [reflexivity|].
  split; [reflexivity|]. split; [reflexivity|].
  split; [reflexivity|]. split; [reflexivity|].
  split; [intros id Hne; now rewrite !assoc_set_ne by exact Hne|].
  intros k. cbn [Orchestrator.entries]. apply after_log.
Qed.

Section RoutePatch.
Import Js EmployeeStore Routes.

Lemma in_statuses (status : string) :
  existsb (String.eqb status) statuses = true <-> In status statuses.
Proof.
  rewrite existsb_exists. split.
  - intros (x & Hx & E). apply String.eqb_eq in E. now subst.
  - intros H. exists status. split; [exact H|apply String.eqb_refl].
Qed.

(** What the handler does with a valid status. *)
Lemma patch_task_valid (s : Server) (id taskId status : string) (body : obj) :
  get body "status" = VStr status -> In status statuses ->
  patch_task s id taskId body
  = match assoc (employees s) id with
    | None => (mkResponse 404 (error_body "Employee or task not found"), s)
    | Some emp =>
        match Stored.onboardingPlan emp with
        | None => (mkResponse 404 (error_body "Employee or task not found"), s)
        | Some plan =>
            match find_and_set taskId status
                    (tasks (Orchestrator.Plan.employee plan)) with
            | None => (mkResponse 404 (error_body "Employee or task not found"), s)
            | Some (task, ts) =>
                (mkResponse 200 (task_body task),
                 mkServer
                   (employees_set id
                      (Stored.mk (Stored.fields emp)
                         (Some (recount (with_tasks plan ts))))
                      (employees s))
                   (orchestrator s))
            end
        end
    end.
Proof.
  intros Hs Hin. unfold patch_task. rewrite Hs.
  apply in_statuses in Hin. rewrite Hin.
  unfold updateTaskStatus, getEmployee. destruct s as [employees o].
  cbn [Routes.employees Routes.orchestrator].
  destruct (assoc employees id) as [emp|]; [|reflexivity].
  destruct (Stored.onboardingPlan emp) as [plan|]; [|reflexivity].
  destruct (find_and_set taskId status _) as [[task ts]|]; [|reflexivity].
  rewrite assoc_set_eq. cbn [Stored.onboardingPlan Stored.fields].
  now rewrite set_set.
Qed.

Lemma patch_task_invalid (s : Server) (id taskId : string) (body : obj) :
  (forall status, get body "status" = VStr status -> ~ In status statuses) ->
  patch_task s id taskId body = (mkResponse 400 (error_body "Invalid status"), s).
Proof.
  intros H. unfold patch_task.
  destruct (get body "status") as [| | | |status| |]; try reflexivity.
  destruct (existsb (String.eqb status) statuses) eqn:E; [|reflexivity].
  apply in_statuses in E. now destruct (H status eq_refl).
Qed.

End RoutePatch.

(** X12.  The task route answers 400 exactly when the status of the body
    is not one of the strings pending, in_progress and completed; 404
    exactly when the status is one of them and the store has no employee
    of that id with a plan that has a task of that id; and 200 exactly
    when the status is one of them and there is such a task.  Whenever
    the answer is not 200 the server is left as it was. *)
Theorem X12_patch_task_answers
    (s : Routes.Server) (id taskId : string) (body : obj) :
  let answer := Routes.patch_task s id taskId body in
  let valid :=
    exists status, Js.get body "status" = VStr status
                   /\ In status Routes.statuses in
  let found :=
    exists emp plan,
      EmployeeStore.getEmployee (Routes.employees s) id = Some emp
      /\ Stored.onboardingPlan emp = Some plan
      /\ Exists (fun t => Task.id t = taskId)
                (tasks (Orchestrator.Plan.employee plan)) in
  (Routes.status (fst answer) = 400 <-> ~ valid)
  /\ (Routes.status (fst answer) = 404 <-> valid /\ ~ found)
  /\ (Routes.status (fst answer) = 200 <-> valid /\ found)
  /\ (Routes.status (fst answer) = 200 \/ snd answer = s).
Proof.
  intros answer valid found. unfold answer.
  assert (Hv : valid \/ ~ valid).
  { unfold valid. destruct (Js.get body "status") as [| | | |status| |];
      try (right; intros (x & Hx & _); discriminate).
    destruct (existsb (String.eqb status) Routes.statuses) eqn:E.
    - left. exists status. split; [reflexivity|]. now apply in_statuses.
    - right. intros (x & [= <-] & Hx). apply in_statuses in Hx. congruence. }
  destruct Hv as [Hv|Hv].
  2:{ rewrite patch_task_invalid
        by (intros status Hs Hin; apply Hv; exists status; auto).
      cbn [fst snd Routes.status].
      split; [tauto|]. split; [split; [discriminate|tauto]|].
      split; [split; [discriminate|tauto]|]. auto. }
  destruct (Hv) as (status & Hs & Hin).
  rewrite (patch_task_valid s id taskId status body Hs Hin).
  unfold found, EmployeeStore.getEmployee.
  destruct (assoc (Routes.employees s) id) as [emp|].
  2:{ cbn [fst snd Routes.status].
      split; [split; [discriminate|tauto]|].
      split; [split; [intros _; split; [exact Hv|]|reflexivity]|].
      { intros (emp & plan & H & _). discriminate. }
      split; [split; [discriminate|]|auto].
      intros (_ & emp & plan & H & _). discriminate. }
  destruct (Stored.onboardingPlan emp) as [plan|] eqn:Hplan.
  2:{ cbn [fst snd Routes.status].
      split; [split; [discriminate|tauto]|].
      split; [split; [intros _; split; [exact Hv|]|reflexivity]|].
      { intros (emp' & plan & [= <-] & H & _). congruence. }
      split; [split; [discriminate|]|auto].
      intros (_ & emp' & plan & [= <-] & H & _). congruence. }
  destruct (EmployeeStore.find_and_set taskId status _) as [[task ts]|] eqn:Hf;
    cbn [fst snd Routes.status].
  - apply find_and_set_Some in Hf as (pre & t & post & Hts & _ & Hid & _).
    assert (Hfound : Exists (fun t => Task.id t = taskId)
                            (tasks (Orchestrator.Plan.employee plan))).
    { rewrite Hts. apply Exists_app. right. now constructor. }
    split; [split; [discriminate|tauto]|].
    split; [split; [discriminate|]|].
    { intros (_ & Hn). destruct Hn. exists emp, plan. auto. }
    split; [|auto]. split; [|reflexivity]. intros _. split; [exact Hv|].
    exists emp, plan. auto.
  - apply find_and_set_None in Hf.
    assert (Hnot : ~ Exists (fun t => Task.id t = taskId)
                            (tasks (Orchestrator.Plan.employee plan))).
    { rewrite Exists_exists. rewrite List.Forall_forall in Hf.
      intros (t & Ht & Hid). apply list_elem_of_In in Ht. now apply (Hf t). }
    split; [split; [discriminate|tauto]|].
    split; [split; [intros _; split; [exact Hv|]|reflexivity]|].
    { intros (emp' & plan' & [= <-] & Hp' & Hex).
      assert (plan' = plan) by congruence. subst. contradiction. }
    split; [split; [discriminate|]|auto].
    intros (_ & emp' & plan' & [= <-] & Hp' & Hex).
    assert (plan' = plan) by congruence. subst. contradiction.
Qed.

(** X13.  When the task route answers 200, the task it returns is the
    first task of the plan with that id, with the new status, and the
    stored plan has changed in this task and in the three counts of the
    summary, which are the counts of the new task list.  Everything else
    is as before: the other tasks, the properties of the employee of the
    plan, the total, the summaries and logs of the agents, the other
    employees, the orchestrator, and also the timeline, whose entry for
    the task keeps the old status. *)
Theorem X13_patch_task_updates
    (s s' : Routes.Server) (id taskId : string) (body : obj) (task : Task.t) :
  Routes.patch_task s id taskId body
  = (Routes.mkResponse 200 (Routes.task_body task), s') ->
  exists status emp plan plan' pre t post,
    Js.get body "status" = VStr status
    /\ EmployeeStore.getEmployee (Routes.employees s) id = Some emp
    /\ Stored.onboardingPlan emp = Some plan
    /\ tasks (Orchestrator.Plan.employee plan) = (pre ++ t :: post)%list
    /\ Forall (fun t => Task.id t <> taskId) pre
    /\ Task.id t = taskId
    /\ task = EmployeeStore.with_status status t
    /\ EmployeeStore.getEmployee (Routes.employees s') id
       = Some (Stored.mk (Stored.fields emp) (Some plan'))
    /\ tasks (Orchestrator.Plan.employee plan') = (pre ++ task :: post)%list
    /\ props (Orchestrator.Plan.employee plan')
       = props (Orchestrator.Plan.employee plan)
    /\ Summary.completed (Orchestrator.Plan.summary plan')
       = count (Orchestrator.has_status "completed") (pre ++ task :: post)
    /\ Summary.inProgress (Orchestrator.Plan.summary plan')
       = count (Orchestrator.has_status "in_progress") (pre ++ task :: post)
    /\ Summary.pending (Orchestrator.Plan.summary plan')
       = count (Orchestrator.has_status "pending") (pre ++ task :: post)
    /\ Summary.totalTasks (Orchestrator.Plan.summary plan')
       = Summary.totalTasks (Orchestrator.Plan.summary plan)
    /\ Summary.agentSummaries (Orchestrator.Plan.summary plan')
       = Summary.agentSummaries (Orchestrator.Plan.summary plan)
    /\ Orchestrator.Plan.agentLogs plan' = Orchestrator.Plan.agentLogs plan
    /\ Orchestrator.Plan.timeline plan' = Orchestrator.Plan.timeline plan
    /\ Routes.orchestrator s' = Routes.orchestrator s
    /\ (forall id', id' <> id ->
          EmployeeStore.getEmployee (Routes.employees s') id'
          = EmployeeStore.getEmployee (Routes.employees s) id').
Proof.
  intros H.
  destruct (Js.get body "status") as [| | | |status| |] eqn:Hs;
    try (unfold Routes.patch_task in H; rewrite Hs in H; discriminate).
  destruct (existsb (String.eqb status) Routes.statuses) eqn:E.
  2:{ unfold Routes.patch_task in H. rewrite Hs, E in H. discriminate. }
  apply in_statuses in E.
  rewrite (patch_task_valid s id taskId status body Hs E) in H.
  unfold EmployeeStore.getEmployee.
  destruct (assoc (Routes.employees s) id) as [emp|] eqn:He; [|discriminate].
  destruct (Stored.onboardingPlan emp) as [plan|] eqn:Hplan; [|discriminate].
  destruct (EmployeeStore.find_and_set taskId status _) as [[task' ts]|] eqn:Hf;
    [|discriminate].
  injection H as -> <-.
  apply find_and_set_Some in Hf as (pre & t & post & Hts & Hpre & Hid & Ht & ->).
  exists status, emp, plan,
    (Routes.recount (EmployeeStore.with_tasks plan (pre ++ task :: post))),
    pre, t, post.
  cbn [Routes.employees Routes.orchestrator].
  repeat (split; [assumption || reflexivity|]).
  split; [apply assoc_set_eq|].
  repeat (split; [reflexivity|]).
  intros id' Hne. now apply assoc_set_ne.
Qed.

(* ================================================================== *)
(** * 23. One pass, errors that stick, the last overlay               *)
(* ================================================================== *)

Section KnownStatus.

Lemma known_flat_map {B} (g : B -> list Task.t) (l : list B) :
  (forall b, Forall known_status (g b)) -> Forall known_status (flat_map g l).
Proof.
  intros H. apply Forall_flat_map. apply List.Forall_forall. intros b _. apply H.
Qed.

Lemma known_map {B} (f : B -> Task.t) (l : list B) :
  (forall b, known_status (f b)) -> Forall known_status (List.map f l).
Proof.
  intros H. apply List.Forall_forall. intros t Ht.
  apply in_map_iff in Ht as (b & <- & _). apply H.
Qed.

Ltac known := unfold known_status; simpl; tauto.

Lemma hr_known (n : nat) (c c' : Context) :
  BaseAgent.passes HRAgent.impl (S n) c = inr c' ->
  exists added,
    tasks (employee c') = (tasks (employee c) ++ added)%list
    /\ Forall known_status added.
Proof.
  intros H.
  apply (single_pass HRAgent.impl HRAgent.action_tasks hr_perceive_employee
           hr_act_tasks hr_reflect_complete) in H as (pc & actions & _ & _ & Ht).
  eexists. split; [exact Ht|].
  apply known_flat_map. intros [documents|policies|]; simpl.
  - apply known_map. intros ?. known.
  - apply known_map. intros ?. known.
  - constructor; [known|constructor].
Qed.

Lemma it_known (n : nat) (c c' : Context) :
  BaseAgent.passes ITSetupAgent.impl (S n) c = inr c' ->
  exists added,
    tasks (employee c') = (tasks (employee c) ++ added)%list
    /\ Forall known_status added.
Proof.
  intros H.
  apply (single_pass ITSetupAgent.impl ITSetupAgent.action_tasks
           it_perceive_employee it_act_tasks it_reflect_complete)
    in H as (pc & actions & _ & _ & Ht).
  eexists. split; [exact Ht|].
  apply known_flat_map. intros [email|software|hardware|access]; simpl.
  - constructor; [known|constructor].
  - apply known_map. intros ?. known.
  - apply known_map. intros ?. known.
  - apply known_map. intros ?. known.
Qed.

Lemma training_known (n : nat) (c c' : Context) :
  BaseAgent.passes TrainingAgent.impl (S n) c = inr c' ->
  exists added,
    tasks (employee c') = (tasks (employee c) ++ added)%list
    /\ Forall known_status added.
Proof.
  intros H.
  apply (single_pass TrainingAgent.impl TrainingAgent.action_tasks
           training_perceive_employee training_act_tasks
           training_reflect_complete) in H as (pc & actions & _ & _ & Ht).
  eexists. split; [exact Ht|].
  apply known_flat_map. intros [modules| |]; simpl.
  - apply Forall_app. split; apply known_map; intros ?; known.
  - constructor; [known|constructor].
  - constructor; [known|constructor].
Qed.

Lemma buddy_known (pool : list Buddy.t) (n : nat) (c c' : Context) :
  BaseAgent.passes (BuddyAgent.impl pool) (S n) c = inr c' ->
  exists added,
    tasks (employee c') = (tasks (employee c) ++ added)%list
    /\ Forall known_status added.
Proof.
  intros H.
  apply (single_pass (BuddyAgent.impl pool) BuddyAgent.action_tasks
           (buddy_perceive_employee pool) buddy_act_tasks
           buddy_reflect_complete) in H as (pc & actions & _ & _ & Ht).
  eexists. split; [exact Ht|].
  apply known_flat_map. intros [[buddy|]|]; cbn [BuddyAgent.action_tasks].
  - constructor; [known|constructor].
  - constructor.
  - apply known_map. intros [days label]. known.
Qed.

(** The three counts of a list of tasks of known status add up to its
    length. *)
Lemma counts_add_up (ts : list Task.t) :
  Forall known_status ts ->
  (count (Orchestrator.has_status "completed") ts
   + count (Orchestrator.has_status "in_progress") ts
   + count (Orchestrator.has_status "pending") ts = length ts)%nat.
Proof.
  unfold count. induction 1 as [|t ts Ht _ IH]; [reflexivity|].
  unfold known_status in Ht. simpl in Ht. simpl. unfold Orchestrator.has_status in *.
  destruct Ht as [<-|[<-|[<-|[]]]]; simpl; lia.
Qed.

Lemma tasks_of_known (impl : BaseAgent.Impl) (copy : Context) :
  tasks (employee copy) = [] ->
  (forall c', BaseAgent.passes impl 5 copy = inr c' ->
              exists added,
                tasks (employee c') = (tasks (employee copy) ++ added)%list
                /\ Forall known_status added) ->
  Forall known_status (Orchestrator.tasks_of (BaseAgent.passes impl 5 copy)).
Proof.
  intros Hc H. destruct (BaseAgent.passes impl 5 copy) as [e|c'];
    [constructor|].
  destruct (H c' eq_refl) as (added & Ht & Hk). simpl. now rewrite Ht, Hc.
Qed.

Lemma plan_known (s1 s2 s3 s4 : BaseAgent.State) (env : Orchestrator.Env)
    (employeeData : obj) (plan : Orchestrator.Plan.t) (o' : Orchestrator.t) :
  Orchestrator.onboard (Orchestrator.in_states s1 s2 s3 s4) env employeeData
  = (Fulfilled plan, o') ->
  Forall known_status (tasks (Orchestrator.Plan.employee plan)).
Proof.
  intros H. apply onboard_inv in H as (copy & Hc & _ & ->).
  apply copyFor_tasks in Hc.
  unfold Orchestrator.plan_of, Orchestrator.outcomes, Orchestrator.keys.
  cbn [Orchestrator.Plan.employee tasks List.map].
  rewrite merge_mergedTasks, !run_agent_passes.
  cbn [Orchestrator.agent Orchestrator.in_states Orchestrator.hr Orchestrator.it
       Orchestrator.training Orchestrator.buddy Agent.impl].
  unfold BaseAgent.MAX_ITERATIONS.
  repeat (apply Forall_app; split); apply tasks_of_known; try exact Hc.
  - apply hr_known.
  - apply it_known.
  - apply training_known.
  - apply buddy_known.
Qed.

End KnownStatus.

Section OnePass.
Import BaseAgent.

Variable clock : nat -> Z.
Variable a : Impl.
Hypothesis reflect_complete :
  forall c r, outcome (reflect a c) = inr r -> r = (true, c).

Lemma pass_ends (c : Context) : forall c', pass a c <> Next c'.
Proof.
  intros c'. unfold pass.
  destruct (outcome (perceive a c)) as [e|pc]; [discriminate|].
  destruct (outcome (decide a pc)) as [e|[|x acts]]; [discriminate..|].
  destruct (outcome (act a pc (x :: acts))) as [e|c1]; [discriminate|].
  destruct (outcome (reflect a c1)) as [e|r] eqn:Hr; [discriminate|].
  rewrite (reflect_complete _ _ Hr). discriminate.
Qed.

Lemma loop_once (n : nat) (c : Context) (s : State) :
  loop clock a (S n) c s = loop clock a 1 c s.
Proof.
  simpl. pose proof (iteration_pass clock a c s) as Hp.
  destruct (iteration clock a c s) as [[ctl s1] ev]. simpl in Hp.
  destruct ctl as [c1|c1|e]; try reflexivity.
  symmetry in Hp. now apply pass_ends in Hp.
Qed.

Lemma run_once (c : Context) (s : State) :
  (count is_perceive (snd (run clock a c s)) <= 1)%nat
  /\ (count is_act (snd (run clock a c s)) <= 1)%nat
  /\ forall n, passes a (S n) c = passes a 1 c.
Proof.
  split; [|split].
  - unfold run, MAX_ITERATIONS. rewrite loop_once.
    pose proof (loop_trace clock a 1 c
                  (addLog clock a "start" ("Agent " +:+ name a +:+ " starting")
                     (set_status "running" s))) as Ht.
    destruct (loop clock a 1 c _) as [[[e|c'] s1] tr]; simpl in *; tauto.
  - unfold run, MAX_ITERATIONS. rewrite loop_once.
    pose proof (loop_trace clock a 1 c
                  (addLog clock a "start" ("Agent " +:+ name a +:+ " starting")
                     (set_status "running" s))) as Ht.
    destruct (loop clock a 1 c _) as [[[e|c'] s1] tr]; simpl in *; lia.
  - intros n. rewrite <- !(loop_passes clock a _ c s). now rewrite loop_once.
Qed.

End OnePass.

(** X14.  Each of the four agents leaves the loop of [run] in its first
    iteration, whatever the context: [reflect] of each reports
    completion whenever it returns.  So a run calls [perceive] and [act]
    once at most, and a loop of any number of iterations gives what a
    loop of one iteration gives; the bound of five is never used. *)
Theorem X14_agents_finish_in_one_pass (pool : list Buddy.t) :
  Forall (fun a =>
            forall clock context s,
              (count BaseAgent.is_perceive
                 (snd (BaseAgent.run clock a context s)) <= 1)%nat
              /\ (count BaseAgent.is_act
                    (snd (BaseAgent.run clock a context s)) <= 1)%nat
              /\ forall n, BaseAgent.passes a (S n) context
                           = BaseAgent.passes a 1 context)
         [HRAgent.impl; ITSetupAgent.impl; TrainingAgent.impl;
          BuddyAgent.impl pool].
Proof.
  constructor; [intros; apply run_once; exact hr_reflect_complete|].
  constructor; [intros; apply run_once; exact it_reflect_complete|].
  constructor; [intros; apply run_once; exact training_reflect_complete|].
  constructor; [intros; apply run_once; exact buddy_reflect_complete|].
  constructor.
Qed.

Section StickyError.
Import Orchestrator.

(** A rejected run leaves an error entry with the message of the error
    at the end of the log of the agent. *)
Lemma run_rejected_log (clock : nat -> Z) (a : BaseAgent.Impl) (c : Context)
    (s : BaseAgent.State) (e : Error) :
  fst (fst (BaseAgent.run clock a c s)) = inl e ->
  exists l t,
    BaseAgent.log (snd (fst (BaseAgent.run clock a c s)))
    = (l ++ [LogEntry.mk t (BaseAgent.name a) "error" (message e)])%list.
Proof.
  unfold BaseAgent.run.
  destruct (BaseAgent.loop clock a BaseAgent.MAX_ITERATIONS c _)
    as [[[err|c'] s1] tr]; simpl; [|discriminate].
  intros [= ->]. eauto.
Qed.

Lemma logs_for_rejected (k : AgentKey) (r : Error + Context) (e : Error) :
  logs_for k r = Entries [LogEntry.mk None (key_name k) "error" (message e)] ->
  exists e', r = inl e' /\ message e' = message e.
Proof.
  destruct r as [e'|c]; simpl; [|discriminate]. intros [= H]. eauto.
Qed.

Lemma error_entry_summary (logs : list LogEntry.t) (entry : LogEntry.t) :
  In entry logs -> LogEntry.action entry = "error" ->
  AgentSummary.status (agent_summary logs) = "error"
  /\ In (LogEntry.detail entry) (AgentSummary.keyEvents (agent_summary logs)).
Proof.
  intros Hin Ha. unfold agent_summary. simpl. split.
  - assert (E : existsb (has_action "error") logs = true).
    { apply existsb_exists. exists entry. split; [exact Hin|].
      unfold has_action. now rewrite Ha. }
    now rewrite E.
  - apply in_map. apply filter_In. split; [exact Hin|]. now rewrite Ha.
Qed.

End StickyError.

(** X15.  An error sticks to an agent.  If a call of [onboard] reports
    the run of an agent as rejected, the summary of the next call on the
    same orchestrator gives that agent the status error, whether its run
    is rejected again or fulfilled.  When it is fulfilled, the error
    entry of the first call is still in the log of the agent, and its
    message is among the key events of the second summary. *)
Theorem X15_error_status_sticks
    (o o1 o2 : Orchestrator.t) (env1 env2 : Orchestrator.Env)
    (data1 data2 : obj) (plan1 plan2 : Orchestrator.Plan.t)
    (k : Orchestrator.AgentKey) (e : Error) :
  Orchestrator.onboard o env1 data1 = (Fulfilled plan1, o1) ->
  Orchestrator.Plan.agentLogs plan1 !! Orchestrator.key_name k
  = Some (Orchestrator.Entries
            [LogEntry.mk None (Orchestrator.key_name k) "error" (message e)]) ->
  Orchestrator.onboard o1 env2 data2 = (Fulfilled plan2, o2) ->
  exists summary,
    Summary.agentSummaries (Orchestrator.Plan.summary plan2)
      !! Orchestrator.key_name k = Some summary
    /\ AgentSummary.status summary = "error"
    /\ (Orchestrator.Plan.agentLogs plan2 !! Orchestrator.key_name k
        = Some (Orchestrator.LogOf k) ->
        In (message e) (AgentSummary.keyEvents summary)).
Proof.
  intros H1 Hk H2.
  apply onboard_inv in H1 as (copy1 & _ & -> & ->).
  apply onboard_inv in H2 as (copy2 & _ & -> & ->).
  unfold Orchestrator.plan_of in *.
  cbn [Orchestrator.Plan.agentLogs Orchestrator.Plan.summary
       Summary.agentSummaries Orchestrator.summary_of] in *.
  rewrite agentLogs_lookup in Hk. injection Hk as Hk.
  apply logs_for_rejected in Hk as (e' & Hr & He).
  rewrite lookup_fmap, agentLogs_lookup. cbn [fmap option_fmap option_map].
  eexists. split; [reflexivity|].
  (* the log of the agent after the first call *)
  assert (Hlog : exists l t,
            BaseAgent.log (Agent.state
                             (Orchestrator.agent
                                (Orchestrator.after env1 o copy1) k))
            = (l ++ [LogEntry.mk t
                       (BaseAgent.name (Agent.impl (Orchestrator.agent o k)))
                       "error" (message e)])%list).
  { rewrite after_agent. unfold Orchestrator.run_agent in *.
    pose proof (run_rejected_log (Orchestrator.clock env1 k)
                  (Agent.impl (Orchestrator.agent o k)) copy1
                  (Agent.state (Orchestrator.agent o k)) e') as Hrun.
    destruct (BaseAgent.run _ _ _ _) as [[r s] tr]. simpl in *.
    rewrite <- He. now apply Hrun. }
  destruct Hlog as (l & t & Hlog).
  destruct (fst (Orchestrator.run_agent env2 _ k copy2)) as [e2|c2];
    cbn [Orchestrator.logs_for compose Orchestrator.entries].
  - split; [reflexivity|]. discriminate.
  - destruct (after_log env2 (Orchestrator.after env1 o copy1) copy2 k)
      as (new & Hnew & _).
    rewrite Hnew, Hlog.
    destruct (error_entry_summary
                ((l ++ [LogEntry.mk t
                          (BaseAgent.name (Agent.impl (Orchestrator.agent o k)))
                          "error" (message e)]) ++ new)%list
                (LogEntry.mk t
                   (BaseAgent.name (Agent.impl (Orchestrator.agent o k)))
                   "error" (message e))) as [Hs Hd].
    + apply in_or_app. left. apply in_or_app. right. now left.
    + reflexivity.
    + split; [exact Hs|]. intros _. exact Hd.
Qed.


(** X16.  In the plan of [onboard], when the Buddy run is fulfilled,
    every property of the copy handed to the runs, other than buddy and
    checkInsScheduled (and the task array, which is merged on its own),
    has the value it has in the copy: the overlay of the Buddy run comes
    last and writes back what the earlier overlays changed.  So nothing
    an earlier agent writes to a property the input carries survives,
    such as the email provisioned by the IT agent for an input whose
    email is null. *)
Theorem X16_last_overlay_wins
    (s1 s2 s3 s4 : BaseAgent.State) (env : Orchestrator.Env) (employeeData : obj)
    (copy c4 : Context) (plan : Orchestrator.Plan.t) (o' : Orchestrator.t) :
  Orchestrator.onboard (Orchestrator.in_states s1 s2 s3 s4) env employeeData
  = (Fulfilled plan, o') ->
  outcome (Orchestrator.copyFor
             (context_of (Orchestrator.initial_employee env employeeData)))
  = inr copy ->
  fst (Orchestrator.run_agent env (Orchestrator.in_states s1 s2 s3 s4)
         Orchestrator.key_buddy copy) = inr c4 ->
  forall k v,
    k <> "buddy" -> k <> "checkInsScheduled" ->
    props (employee copy) !! k = Some v ->
    Js.get (props (Orchestrator.Plan.employee plan)) k = v.
Proof.
  intros H Hc H4 k v Hb Hs Hk.
  apply onboard_inv in H as (copy' & Hc' & _ & ->).
  assert (copy' = copy) by congruence. subst copy'.
  unfold Orchestrator.plan_of, Orchestrator.outcomes, Orchestrator.keys.
  cbn [Orchestrator.Plan.employee props List.map].
  rewrite H4, merge_props_last.
  rewrite run_agent_passes in H4.
  cbn [Orchestrator.agent Orchestrator.in_states Orchestrator.buddy Agent.impl] in H4.
  unfold BaseAgent.MAX_ITERATIONS in H4.
  pose proof (buddy_props _ _ _ _ k H4 Hb Hs) as Hp. rewrite Hk in Hp.
  unfold Js.get. now rewrite (lookup_union_Some_l _ _ _ _ Hp).
Qed.

(* ================================================================== *)
(** * 24. The states the server can reach                             *)
(* ================================================================== *)

Section PlanIds.

(** The ids of the tasks of a plan are taken, in order, from the
    catalogs of the four agents, for one of the five profiles and one of
    the five role paths. *)
Lemma plan_ids_sublist (s1 s2 s3 s4 : BaseAgent.State) (env : Orchestrator.Env)
    (employeeData : obj) (plan : Orchestrator.Plan.t) (o' : Orchestrator.t) :
  Orchestrator.onboard (Orchestrator.in_states s1 s2 s3 s4) env employeeData
  = (Fulfilled plan, o') ->
  exists profile path,
    In profile [ITSetupAgent.engineering; ITSetupAgent.design;
                ITSetupAgent.product; ITSetupAgent.sales; ITSetupAgent.default]
    /\ In path [TrainingAgent.engineering; TrainingAgent.design;
                TrainingAgent.product; TrainingAgent.sales; []]
    /\ sublist (List.map Task.id (tasks (Orchestrator.Plan.employee plan)))
               (HRAgent.ids ++ ITSetupAgent.ids profile
                ++ TrainingAgent.ids path ++ BuddyAgent.ids)%list.
Proof.
  intros H. apply onboard_inv in H as (copy & Hc & _ & ->).
  apply copyFor_tasks in Hc.
  unfold Orchestrator.plan_of, Orchestrator.outcomes, Orchestrator.keys.
  cbn [Orchestrator.Plan.employee tasks List.map].
  rewrite merge_mergedTasks, !run_agent_passes.
  cbn [Orchestrator.agent Orchestrator.in_states Orchestrator.hr Orchestrator.it
       Orchestrator.training Orchestrator.buddy Agent.impl].
  unfold BaseAgent.MAX_ITERATIONS. rewrite !map_app.
  set (ids_of r := List.map Task.id (Orchestrator.tasks_of r)).
  assert (H1 : sublist (ids_of (BaseAgent.passes HRAgent.impl 5 copy))
                       HRAgent.ids).
  { destruct (BaseAgent.passes HRAgent.impl 5 copy) as [e|c] eqn:E;
      [apply sublist_nil_l|].
    apply hr_ids_sublist in E as (added & Ht & _ & Hs).
    unfold ids_of. simpl. now rewrite Ht, Hc. }
  assert (H4 : sublist
                 (ids_of (BaseAgent.passes
                            (BuddyAgent.impl BuddyAgent.buddyPool) 5 copy))
                 BuddyAgent.ids).
  { destruct (BaseAgent.passes (BuddyAgent.impl BuddyAgent.buddyPool) 5 copy)
      as [e|c] eqn:E; [apply sublist_nil_l|].
    apply buddy_ids_sublist in E as (added & Ht & _ & Hs).
    unfold ids_of. simpl. now rewrite Ht, Hc. }
  destruct (BaseAgent.passes ITSetupAgent.impl 5 copy) as [e2|c2] eqn:E2;
    [pose (profile := ITSetupAgent.default);
     assert (Hprofile : In profile [ITSetupAgent.engineering; ITSetupAgent.design;
                                    ITSetupAgent.product; ITSetupAgent.sales;
                                    ITSetupAgent.default]) by (simpl; tauto);
     assert (H2 : sublist (ids_of (inl e2)) (ITSetupAgent.ids profile))
       by apply sublist_nil_l
    |apply it_ids_sublist in E2 as (added2 & profile & Ht2 & _ & Hprofile & H2);
     assert (H2' : sublist (ids_of (inr c2)) (ITSetupAgent.ids profile))
       by (unfold ids_of; simpl; now rewrite Ht2, Hc);
     clear H2; rename H2' into H2];
    (destruct (BaseAgent.passes TrainingAgent.impl 5 copy) as [e3|c3] eqn:E3;
     [exists profile, []; split; [exact Hprofile|]; split; [simpl; tauto|];
      repeat apply sublist_app; auto using sublist_nil_l
     |apply training_ids_sublist in E3 as (added3 & path & Ht3 & _ & Hpath & H3);
      exists profile, path; split; [exact Hprofile|]; split; [exact Hpath|];
      repeat apply sublist_app; auto;
      unfold ids_of; simpl; now rewrite Ht3, Hc]).
Qed.

End PlanIds.

Section Reachable.
Import Js EmployeeStore Routes.

Lemma snd_run_agent (env : Orchestrator.Env) (o : Orchestrator.t)
    (k : Orchestrator.AgentKey) (copy : Context) :
  Agent.impl (snd (Orchestrator.run_agent env o k copy))
  = Agent.impl (Orchestrator.agent o k).
Proof.
  unfold Orchestrator.run_agent. now destruct (BaseAgent.run _ _ _ _) as [[r s] tr].
Qed.

Lemma after_in_states (env : Orchestrator.Env) (s1 s2 s3 s4 : BaseAgent.State)
    (copy : Context) :
  exists t1 t2 t3 t4,
    Orchestrator.after env (Orchestrator.in_states s1 s2 s3 s4) copy
    = Orchestrator.in_states t1 t2 t3 t4.
Proof.
  unfold Orchestrator.after, Orchestrator.run_agent.
  cbn [Orchestrator.agent Orchestrator.in_states Orchestrator.hr Orchestrator.it
       Orchestrator.training Orchestrator.buddy Agent.impl Agent.state].
  destruct (BaseAgent.run _ HRAgent.impl _ _) as [[r1 t1] tr1].
  destruct (BaseAgent.run _ ITSetupAgent.impl _ _) as [[r2 t2] tr2].
  destruct (BaseAgent.run _ TrainingAgent.impl _ _) as [[r3 t3] tr3].
  destruct (BaseAgent.run _ (BuddyAgent.impl _) _ _) as [[r4 t4] tr4].
  now exists t1, t2, t3, t4.
Qed.

Lemma set_keys_NoDup (id : string) (e : Stored.t) (employees : Employees) :
  NoDup (List.map fst employees) ->
  NoDup (List.map fst (employees_set id e employees)).
Proof.
  intros H. rewrite set_present. destruct (assoc employees id) eqn:E; [exact H|].
  apply NoDup_app. split; [exact H|]. split; [|apply NoDup_singleton].
  intros x Hx Hx'. apply list_elem_of_singleton in Hx'. subst x.
  apply list_elem_of_In, in_map_iff in Hx as ([k v] & Hk & Hin). simpl in Hk.
  subst k. clear H. induction employees as [|[k' v'] r IH]; [destruct Hin|].
  simpl in E. destruct (String.eqb_spec k' id) as [->|Hne]; [discriminate|].
  destruct Hin as [[= -> ->]|Hin]; [congruence|]. now apply IH.
Qed.

Lemma set_sound (id : string) (e : Stored.t) (employees : Employees) :
  sound_entry (id, e) -> Forall sound_entry employees ->
  Forall sound_entry (employees_set id e employees).
Proof.
  intros He. induction 1 as [|[k v] r Hv Hr IH]; simpl.
  - constructor; [exact He|constructor].
  - destruct (String.eqb k id); constructor; auto.
Qed.

Lemma assoc_sound (id : string) (e : Stored.t) (employees : Employees) :
  Forall sound_entry employees -> assoc employees id = Some e ->
  sound_entry (id, e).
Proof.
  induction 1 as [|[k v] r Hv _ IH]; simpl; [discriminate|].
  destruct (String.eqb_spec k id) as [->|Hne]; [|exact IH].
  now intros [= <-].
Qed.

Lemma plan_consistent (s1 s2 s3 s4 : BaseAgent.State) (env : Orchestrator.Env)
    (employeeData : obj) (plan : Orchestrator.Plan.t) (o' : Orchestrator.t) :
  Orchestrator.onboard (Orchestrator.in_states s1 s2 s3 s4) env employeeData
  = (Fulfilled plan, o') ->
  consistent plan.
Proof.
  intros H. pose proof (plan_known _ _ _ _ _ _ _ _ H) as Hk.
  destruct (plan_ids_sublist _ _ _ _ _ _ _ _ H) as (profile & path & Hp & Hr & Hs).
  apply onboard_inv in H as (copy & _ & _ & ->).
  unfold consistent. cbn [Orchestrator.plan_of Orchestrator.Plan.summary
    Orchestrator.Plan.employee Orchestrator.summary_of Summary.totalTasks
    Summary.completed Summary.inProgress Summary.pending tasks].
  repeat (split; [reflexivity|]). split; [exact Hk|].
  eapply sublist_NoDup; [|exact Hs]. now apply ids_NoDup.
Qed.

Lemma with_status_known (status : string) (t : Task.t) :
  In status statuses -> known_status (with_status status t).
Proof. intros H. exact H. Qed.

Lemma recount_consistent (plan : Orchestrator.Plan.t) (status : string)
    (pre post : list Task.t) (t : Task.t) :
  consistent plan -> In status statuses ->
  tasks (Orchestrator.Plan.employee plan) = (pre ++ t :: post)%list ->
  consistent (recount (with_tasks plan (pre ++ with_status status t :: post))).
Proof.
  intros (Ht & _ & _ & _ & Hk & Hn) Hs Hts. unfold consistent.
  cbn [recount with_tasks Orchestrator.Plan.summary Orchestrator.Plan.employee
       Summary.totalTasks Summary.completed Summary.inProgress Summary.pending
       tasks].
  rewrite Hts in *.
  split; [rewrite Ht, !length_app; reflexivity|].
  repeat (split; [reflexivity|]).
  split.
  - apply Forall_app in Hk as [Hpre Hpost]. apply Forall_app. split; [exact Hpre|].
    inversion Hpost; subst. constructor; [now apply with_status_known|assumption].
  - rewrite map_app in *. exact Hn.
Qed.

Lemma serve_inv (s : Server) (r : Request) : Inv s -> Inv (serve s r).
Proof.
  intros ((s1 & s2 & s3 & s4 & Ho) & Hn & Hs). destruct r as [rt body|id taskId body];
    cbn [serve].
  - destruct (truthy (get body "firstName")) eqn:Hf.
    2:{ unfold post_onboard. rewrite Hf. cbn [negb orb snd].
        split; [eauto|]. split; assumption. }
    destruct (truthy (get body "lastName")) eqn:Hl.
    2:{ unfold post_onboard. rewrite Hf, Hl. cbn [negb orb snd].
        split; [eauto|]. split; assumption. }
    rewrite (post_onboard_named rt s body Hf Hl). cbv zeta.
    set (e := createEmployee (uuid rt) (today rt) (createdAt rt) (onboard_data body)).
    assert (Hnew : forall plan, consistent plan ->
              sound_entry (uuid rt, Stored.mk (delete "onboardingPlan" e) (Some plan))).
    { intros plan Hplan. split; [reflexivity|]. now intros plan' [= <-]. }
    assert (Hnone : sound_entry (uuid rt, Stored.mk (delete "onboardingPlan" e) None)).
    { split; [reflexivity|]. discriminate. }
    destruct (Orchestrator.onboard (orchestrator s) (env rt) e) as [[|err|plan] o']
      eqn:Eo; cbn [snd orchestrator employees].
    + rewrite Ho in Eo. unfold e in Eo. rewrite onboard_created in Eo. cbv zeta in Eo.
      destruct (allSettled _ _);
        [destruct (Orchestrator.printable _); discriminate|]. injection Eo as <-.
      split; [apply after_in_states|].
      split; [now apply set_keys_NoDup|now apply set_sound].
    + rewrite Ho in Eo. unfold e in Eo. rewrite onboard_created in Eo. cbv zeta in Eo.
      destruct (allSettled _ _); [|discriminate].
      destruct (Orchestrator.printable _); [discriminate|]. injection Eo as _ <-.
      split; [apply after_in_states|].
      split; [now apply set_keys_NoDup|now apply set_sound].
    + rewrite Ho in Eo. pose proof (plan_consistent _ _ _ _ _ _ _ _ Eo) as Hplan.
      unfold e in Eo. rewrite onboard_created in Eo. cbv zeta in Eo.
      destruct (allSettled _ _); [|discriminate].
      destruct (Orchestrator.printable _); [|discriminate]. injection Eo as _ <-.
      split; [apply after_in_states|].
      split; [now do 2 apply set_keys_NoDup|].
      apply set_sound; [now apply Hnew|now apply set_sound].
  - destruct (get body "status") as [| | | |status| |] eqn:Hst;
      try (unfold patch_task; rewrite Hst; cbn [snd];
           split; [eauto|]; split; assumption).
    destruct (existsb (String.eqb status) statuses) eqn:E.
    2:{ unfold patch_task. rewrite Hst, E. cbn [snd].
        split; [eauto|]. split; assumption. }
    apply in_statuses in E.
    rewrite (patch_task_valid s id taskId status body Hst E).
    destruct (assoc (employees s) id) as [emp|] eqn:He;
      [|cbn [snd]; split; [eauto|]; split; assumption].
    destruct (Stored.onboardingPlan emp) as [plan|] eqn:Hplan;
      [|cbn [snd]; split; [eauto|]; split; assumption].
    destruct (find_and_set taskId status _) as [[task ts]|] eqn:Hfs;
      [|cbn [snd]; split; [eauto|]; split; assumption].
    cbn [snd orchestrator employees].
    split; [eauto|]. split; [now apply set_keys_NoDup|].
    apply set_sound; [|exact Hs].
    destruct (assoc_sound _ _ _ Hs He) as [Hid Hc]. split; [exact Hid|].
    intros plan' [= <-]. cbn [snd Stored.onboardingPlan] in *.
    apply find_and_set_Some in Hfs as (pre & t & post & Hts & _ & _ & -> & ->).
    apply recount_consistent; auto.
Qed.

Lemma reachable_inv (requests : list Request) : Inv (serve_all start requests).
Proof.
  unfold serve_all. assert (H : Inv start).
  { split; [now exists BaseAgent.new, BaseAgent.new, BaseAgent.new, BaseAgent.new|].
    split; constructor. }
  revert H. generalize start. induction requests as [|r requests IH]; intros s H;
    [exact H|].
  simpl. apply IH. now apply serve_inv.
Qed.

End Reachable.

(** X17.  After any sequence of requests to the onboarding and task
    routes, served one after the other by a server that has just
    started: the ids of the store are distinct, every employee carries
    the id it is stored under, and every stored plan has distinct task
    ids, tasks of status pending, in_progress or completed only, and a
    summary that agrees with the tasks, so that the total is the number
    of tasks and completed, inProgress and pending add up to it. *)
Theorem X17_stored_plans_stay_consistent (requests : list Routes.Request) :
  let s := Routes.serve_all Routes.start requests in
  NoDup (List.map fst (Routes.employees s))
  /\ Forall sound_entry (Routes.employees s)
  /\ Forall (fun e =>
               forall plan,
                 Stored.onboardingPlan (snd e) = Some plan ->
                 let summary := Orchestrator.Plan.summary plan in
                 (Summary.completed summary + Summary.inProgress summary
                  + Summary.pending summary = Summary.totalTasks summary)%nat
                 /\ Summary.totalTasks summary
                    = length (tasks (Orchestrator.Plan.employee plan)))
            (Routes.employees s).
Proof.
  intros s. destruct (reachable_inv requests) as (_ & Hn & Hs). fold s in Hn, Hs.
  split; [exact Hn|]. split; [exact Hs|].
  eapply Forall_impl; [exact Hs|]. intros e [_ He] plan Hplan.
  destruct (He plan Hplan) as (Ht & Hc & Hi & Hp & Hk & _). cbv zeta.
  split; [|exact Ht]. rewrite Hc, Hi, Hp, Ht. now apply counts_add_up.
Qed.

(** X18.  After any such sequence of requests the list route answers 200
    with one row for each employee of the store, in the order of
    insertion; the ids of the rows are distinct and no row has more
    completed tasks than tasks. *)
Theorem X18_employee_list (requests : list Routes.Request) :
  let s := Routes.serve_all Routes.start requests in
  exists rows,
    Routes.get_employees s = Routes.mkResponse 200 (Routes.list_body rows)
    /\ List.map Routes.Row.id rows
       = List.map (fun e => VStr (fst e)) (Routes.employees s)
    /\ NoDup (List.map Routes.Row.id rows)
    /\ Forall (fun row =>
                 (Routes.Row.tasksCompleted row <= Routes.Row.tasksTotal row)%nat)
              rows.
Proof.
  intros s. destruct (reachable_inv requests) as (_ & Hn & Hs). fold s in Hn, Hs.
  eexists. split; [reflexivity|].
  unfold EmployeeStore.getAllEmployees. rewrite !map_map.
  assert (Hids : List.map (fun x => Routes.Row.id (Routes.row (snd x)))
                          (Routes.employees s)
                 = List.map (fun e => VStr (fst e)) (Routes.employees s)).
  { apply map_ext_in. intros e He. rewrite List.Forall_forall in Hs.
    apply Hs. exact He. }
  split; [exact Hids|]. split.
  - rewrite Hids. rewrite <- (map_map fst VStr).
    apply NoDup_fmap_2; [|exact Hn]. now intros x y [= ->].
  - apply List.Forall_forall. intros row Hrow.
    apply in_map_iff in Hrow as (e & <- & He).
    rewrite List.Forall_forall in Hs. destruct (Hs e He) as [_ Hc].
    unfold Routes.row. cbn [Routes.Row.tasksCompleted Routes.Row.tasksTotal].
    destruct (Stored.onboardingPlan (snd e)) as [plan|]; [|lia].
    destruct (Hc plan eq_refl) as (Ht & Hcm & _ & _ & Hk & _).
    rewrite Hcm, Ht. unfold count.
    pose proof (filter_length (Orchestrator.has_status "completed")
                  (tasks (Orchestrator.Plan.employee plan))). lia.
Qed.

(* ================================================================== *)
(** * 25. New employees                                               *)
(* ================================================================== *)

Section FreshRuns.
Import Js JsP.

Lemma filterP_all {A} (f : A -> Phase bool) (l : list A) :
  Forall (fun x => outcome (f x) = inr true) l ->
  outcome (filterP f l) = inr l.
Proof.
  induction 1 as [|x r Hx _ IH]; [reflexivity|].
  simpl. rewrite (outcome_bind _ _ _ _ _ Hx), (outcome_bind _ _ _ _ _ IH).
  reflexivity.
Qed.

Lemma hr_fresh (n : nat) (c : Context) :
  fresh (props (employee c)) ->
  exists c',
    BaseAgent.passes HRAgent.impl (S n) c = inr c'
    /\ tasks (employee c')
       = (tasks (employee c)
          ++ List.map HRAgent.document_task HRAgent.requiredDocs
          ++ List.map HRAgent.policy_task HRAgent.policies
          ++ [HRAgent.benefits_task])%list.
Proof.
  intros (Hd & Hp & _ & _ & _ & Hf).
  rewrite !List.Forall_cons_iff in Hf. destruct Hf as (Hb & _).
  destruct c as [[fields ts] hp ip tp bp]. cbn [employee props tasks] in *.
  cbn [BaseAgent.passes]. unfold BaseAgent.pass.
  cbn [BaseAgent.perceive BaseAgent.decide BaseAgent.act BaseAgent.reflect
       HRAgent.impl].
  unfold HRAgent.perceive. cbn [employee props]. rewrite Hd.
  cbn. rewrite Hp. cbn. rewrite Hb. cbn.
  eexists. split; [reflexivity|]. cbn. rewrite <- !app_assoc. reflexivity.
Qed.

Lemma includes_empty (l : list string) :
  outcome (ITSetupAgent.not_in (VArr []) l) = inr l.
Proof.
  apply filterP_all. apply List.Forall_forall. intros x _. reflexivity.
Qed.

(** [act] of the IT agent goes through when the accounts are an array. *)
Lemma it_act_runs (actions : list ITSetupAgent.Action) (c : Context)
    (accounts : list val) :
  get (props (employee c)) "accounts" = VArr accounts ->
  exists c', outcome (ITSetupAgent.act c actions) = inr c'.
Proof.
  unfold ITSetupAgent.act. revert c accounts.
  induction actions as [|a actions IH]; intros c accounts Ha; simpl; [eauto|].
  assert (H : exists c1 acc1,
            outcome (ITSetupAgent.act_on c a) = inr c1
            /\ get (props (employee c1)) "accounts" = VArr acc1).
  { destruct a as [email|software|hardware|access]; simpl.
    - do 2 eexists. split; [reflexivity|]. simpl.
      rewrite !get_insert. simpl. exact Ha.
    - rewrite push_tasks_props, Ha. simpl.
      do 2 eexists. split; [reflexivity|]. simpl. rewrite get_insert. reflexivity.
    - do 2 eexists. split; [reflexivity|]. rewrite push_tasks_props. exact Ha.
    - do 2 eexists. split; [reflexivity|]. rewrite push_tasks_props. exact Ha. }
  destruct H as (c1 & acc1 & H1 & Ha1).
  rewrite (outcome_bind _ _ _ _ _ H1). now apply (IH c1 acc1).
Qed.

Lemma it_fresh (n : nat) (c : Context) (department first last : string)
    (profile : Profile.t) :
  fresh (props (employee c)) ->
  or (get (props (employee c)) "department") (VStr "default") = VStr department ->
  ITSetupAgent.profile_for (toLowerCase department) = Some profile ->
  outcome (opt_lower (get (props (employee c)) "firstName")) = inr first ->
  outcome (opt_lower (get (props (employee c)) "lastName")) = inr last ->
  exists c',
    BaseAgent.passes ITSetupAgent.impl (S n) c = inr c'
    /\ tasks (employee c')
       = (tasks (employee c)
          ++ ITSetupAgent.email_task (first +:+ "." +:+ last +:+ "@company.com")
          :: List.map ITSetupAgent.software_task (Profile.software profile)
          ++ List.map ITSetupAgent.hardware_task (Profile.hardware profile)
          ++ List.map ITSetupAgent.access_task (Profile.access profile))%list.
Proof.
  intros (_ & _ & _ & Ha & Hh & Hf) Hd Hp H1 H2.
  rewrite !List.Forall_cons_iff in Hf. destruct Hf as (_ & He & _).
  set (pc := mkContext (employee c) (hrPerception c)
               (Some (ITPerception.mk (Some profile) (toLowerCase department)
                        (VArr []) (VArr [])))
               (trainingPerception c) (buddyPerception c)).
  assert (Hperceive : outcome (ITSetupAgent.perceive c) = inr pc).
  { unfold ITSetupAgent.perceive, lower_or. rewrite Hd. cbn.
    rewrite Hp, Ha, Hh. reflexivity. }
  set (actions :=
         ([ITSetupAgent.provision_email (first +:+ "." +:+ last +:+ "@company.com")]
          ++ (if (0 <? length (Profile.software profile))%nat
              then [ITSetupAgent.assign_software (Profile.software profile)]
              else [])
          ++ (if (0 <? length (Profile.hardware profile))%nat
              then [ITSetupAgent.request_hardware (Profile.hardware profile)]
              else [])
          ++ [ITSetupAgent.configure_access (Profile.access profile)])%list).
  assert (Hdecide : outcome (BaseAgent.decide ITSetupAgent.impl pc) = inr actions).
  { cbn [BaseAgent.decide ITSetupAgent.impl].
    unfold ITSetupAgent.decide. cbn [itPerception pc employee].
    rewrite He.
    erewrite outcome_bind
      by (erewrite outcome_bind by exact H1;
          erewrite outcome_bind by exact H2; reflexivity).
    cbn [ITPerception.profile ITPerception.existingAccounts
         ITPerception.existingHardware].
    rewrite (outcome_bind _ _ _ _ _ (includes_empty (Profile.software profile))).
    rewrite (outcome_bind _ _ _ _ _ (includes_empty (Profile.hardware profile))).
    reflexivity. }
  destruct (it_act_runs actions pc [] Ha) as (c1 & Hact).
  exists c1. split.
  - cbn [BaseAgent.passes]. unfold BaseAgent.pass.
    cbn [BaseAgent.perceive ITSetupAgent.impl].
    rewrite Hperceive. cbv beta iota. rewrite Hdecide.
    change actions
      with (ITSetupAgent.provision_email (first +:+ "." +:+ last +:+ "@company.com")
            :: ((if (0 <? length (Profile.software profile))%nat
                 then [ITSetupAgent.assign_software (Profile.software profile)]
                 else [])
                ++ (if (0 <? length (Profile.hardware profile))%nat
                    then [ITSetupAgent.request_hardware (Profile.hardware profile)]
                    else [])
                ++ [ITSetupAgent.configure_access (Profile.access profile)])%list)
      in *.
    cbv beta iota. cbn [BaseAgent.act BaseAgent.reflect ITSetupAgent.impl].
    rewrite Hact. reflexivity.
  - rewrite (it_act_tasks _ _ _ Hact). unfold actions.
    rewrite !flat_map_app, software_tasks, hardware_tasks. simpl.
    now rewrite app_nil_r.
Qed.

Lemma completed_none (l : list TrainingModule.t) :
  outcome (filterP (fun m => let* b := includes (VArr []) (TrainingModule.id m) in
                             ret (negb b)) l) = inr l.
Proof.
  apply filterP_all. apply List.Forall_forall. intros x _. reflexivity.
Qed.

(** [act] of the Training agent always goes through. *)
Lemma training_act_runs (actions : list TrainingAgent.Action) (c : Context) :
  exists c', outcome (TrainingAgent.act c actions) = inr c'.
Proof.
  unfold TrainingAgent.act. revert c.
  induction actions as [|a actions IH]; intros c; simpl; [eauto|].
  assert (H : exists c1, outcome (TrainingAgent.act_on c a) = inr c1)
    by (destruct a; simpl; eauto).
  destruct H as (c1 & H1). rewrite (outcome_bind _ _ _ _ _ H1). apply IH.
Qed.

Lemma training_fresh (n : nat) (c : Context) (department : string)
    (path : list TrainingModule.t) :
  fresh (props (employee c)) ->
  or (get (props (employee c)) "department") (VStr "default") = VStr department ->
  TrainingAgent.rolePath_for (toLowerCase department) = Some path ->
  exists c',
    BaseAgent.passes TrainingAgent.impl (S n) c = inr c'
    /\ tasks (employee c')
       = (tasks (employee c)
          ++ List.map (TrainingAgent.module_task "high" 7 "Week 1 Training")
               TrainingAgent.companyWideModules
          ++ List.map (TrainingAgent.module_task "medium" 14 "Week 2 Training")
               path
          ++ [TrainingAgent.manager_task; TrainingAgent.team_intro_task])%list.
Proof.
  intros (_ & _ & Hc & _ & _ & Hf) Hd Hp.
  rewrite !List.Forall_cons_iff in Hf. destruct Hf as (_ & _ & Hm & Ht & _).
  set (pc := mkContext (employee c) (hrPerception c) (itPerception c)
               (Some (TrainingPerception.mk TrainingAgent.companyWideModules
                        (Some path) (VArr []) (toLowerCase department)))
               (buddyPerception c)).
  assert (Hperceive : outcome (BaseAgent.perceive TrainingAgent.impl c) = inr pc).
  { cbn [BaseAgent.perceive TrainingAgent.impl].
    unfold TrainingAgent.perceive, lower_or. rewrite Hd. cbn.
    rewrite Hp, Hc. reflexivity. }
  set (actions :=
         [TrainingAgent.assign_modules (TrainingAgent.companyWideModules ++ path);
          TrainingAgent.schedule_manager_meeting;
          TrainingAgent.schedule_team_intro]).
  assert (Hdecide : outcome (BaseAgent.decide TrainingAgent.impl pc) = inr actions).
  { cbn [BaseAgent.decide TrainingAgent.impl].
    unfold TrainingAgent.decide.
    cbn [trainingPerception pc employee TrainingPerception.roleModules
         TrainingPerception.companyWideModules TrainingPerception.completedModules].
    rewrite (outcome_bind _ _ _ _ _
               (completed_none (TrainingAgent.companyWideModules ++ path))).
    rewrite Hm, Ht. reflexivity. }
  destruct (training_act_runs actions pc) as (c1 & Hact).
  exists c1. split.
  - cbn [BaseAgent.passes]. unfold BaseAgent.pass.
    rewrite Hperceive. cbv beta iota. rewrite Hdecide. unfold actions in *.
    cbv beta iota. cbn [BaseAgent.act BaseAgent.reflect TrainingAgent.impl].
    rewrite Hact. reflexivity.
  - rewrite (training_act_tasks _ _ _ Hact). unfold actions. simpl.
    reflexivity.
Qed.

Lemma buddy_fresh (pool : list Buddy.t) (n : nat) (c : Context)
    (department : string) :
  pool <> [] ->
  fresh (props (employee c)) ->
  or (get (props (employee c)) "department") (VStr EmptyString) = VStr department ->
  exists c' best,
    BaseAgent.passes (BuddyAgent.impl pool) (S n) c = inr c'
    /\ head (BuddyAgent.sort_by_score
               (List.map (BuddyAgent.score_buddy (toLowerCase department)) pool))
       = Some best
    /\ tasks (employee c')
       = (tasks (employee c)
          ++ BuddyAgent.intro_task best
          :: List.map BuddyAgent.checkin_task BuddyAgent.checkIns)%list
    /\ get (props (employee c')) "buddy" = Scored.to_val best.
Proof.
  intros Hpool (_ & _ & _ & _ & _ & Hf) Hd.
  rewrite !List.Forall_cons_iff in Hf. destruct Hf as (_ & _ & _ & _ & Hc & Hb & _).
  destruct (sort_by_score_head
              (List.map (BuddyAgent.score_buddy (toLowerCase department)) pool))
    as (pre & best & post & _ & Hhead & _).
  { destruct pool; [congruence|discriminate]. }
  set (scored := BuddyAgent.sort_by_score
                   (List.map (BuddyAgent.score_buddy (toLowerCase department)) pool))
    in *.
  set (pc := mkContext (employee c) (hrPerception c) (itPerception c)
               (trainingPerception c)
               (Some (BuddyPerception.mk (firstn 3 scored) false))).
  assert (Hperceive : outcome (BaseAgent.perceive (BuddyAgent.impl pool) c) = inr pc).
  { cbn [BaseAgent.perceive BuddyAgent.impl].
    unfold BuddyAgent.perceive, lower_or. rewrite Hd. cbn. rewrite Hb. reflexivity. }
  assert (Hdecide : outcome (BaseAgent.decide (BuddyAgent.impl pool) pc)
                    = inr [BuddyAgent.assign_buddy (Some best);
                           BuddyAgent.schedule_check_ins]).
  { pose proof (decide_unassigned pc (firstn 3 scored) eq_refl) as Hdec.
    rewrite firstn_head, Hhead in Hdec. cbn [pc employee] in Hdec.
    rewrite Hc in Hdec. exact Hdec. }
  destruct (act_assign pc best false) as (c1 & Hact & Hbuddy).
  exists c1, best. split; [|split; [exact Hhead|split; [|exact Hbuddy]]].
  - cbn [BaseAgent.passes]. unfold BaseAgent.pass.
    rewrite Hperceive. cbv beta iota. rewrite Hdecide.
    cbv beta iota. cbn [BaseAgent.act BaseAgent.reflect BuddyAgent.impl].
    rewrite Hact.
    destruct (outcome (BuddyAgent.reflect c1)) as [e|r] eqn:Hr.
    + exfalso. unfold BuddyAgent.reflect in Hr. rewrite Hbuddy in Hr.
      cbn in Hr. discriminate.
    + now rewrite (buddy_reflect_complete _ _ Hr).
  - rewrite (buddy_act_tasks _ _ _ Hact). simpl. reflexivity.
Qed.

End FreshRuns.

Section Rejections.
Import Js JsP.

Lemma lower_or_inr (v : val) (dflt s : string) :
  outcome (lower_or v dflt) = inr s ->
  exists d, or v (VStr dflt) = VStr d /\ s = toLowerCase d.
Proof.
  unfold lower_or. destruct (or v (VStr dflt)); simpl; try discriminate.
  intros [= <-]. eauto.
Qed.

Lemma or_string (v : val) (dflt : string) :
  (exists d, or v (VStr dflt) = VStr d)
  <-> (truthy v = false \/ exists s, v = VStr s).
Proof.
  unfold or. destruct (truthy v) eqn:E.
  - split; [intros [d ->]; eauto|]. intros [H|[s ->]]; [discriminate|eauto].
  - split; [auto|eauto].
Qed.

Lemma opt_lower_returns (v : val) :
  (exists s, outcome (opt_lower v) = inr s)
  <-> (v = VUndef \/ v = VNull \/ exists s, v = VStr s).
Proof.
  destruct v; simpl; split; eauto;
    try (intros [s H]; discriminate);
    intros [H|[H|[s H]]]; discriminate.
Qed.

Lemma profile_for_None (department : string) :
  ITSetupAgent.profile_for department = None
  <-> In department object_prototype_members.
Proof.
  unfold ITSetupAgent.profile_for, literal_lookup.
  destruct (assoc ITSetupAgent.roleProfiles department) as [p|] eqn:E.
  - split; [discriminate|]. intros H. exfalso. revert E.
    simpl in H.
    repeat (destruct H as [<-|H]; [vm_compute; discriminate|]). destruct H.
  - destruct (existsb (String.eqb department) object_prototype_members) eqn:Ex.
    + split; [|reflexivity]. intros _.
      apply existsb_exists in Ex as (x & Hx & Heq).
      apply String.eqb_eq in Heq. now subst.
    + split; [discriminate|]. intros H.
      assert (existsb (String.eqb department) object_prototype_members = true).
      { apply existsb_exists. exists department. split; [exact H|].
        apply String.eqb_refl. }
      congruence.
Qed.

Lemma rolePath_for_None (department : string) :
  TrainingAgent.rolePath_for department = None
  <-> In department object_prototype_members.
Proof.
  unfold TrainingAgent.rolePath_for, literal_lookup.
  destruct (assoc TrainingAgent.roleModules department) as [p|] eqn:E.
  - split; [discriminate|]. intros H. exfalso. revert E.
    simpl in H.
    repeat (destruct H as [<-|H]; [vm_compute; discriminate|]). destruct H.
  - destruct (existsb (String.eqb department) object_prototype_members) eqn:Ex.
    + split; [|reflexivity]. intros _.
      apply existsb_exists in Ex as (x & Hx & Heq).
      apply String.eqb_eq in Heq. now subst.
    + split; [discriminate|]. intros H.
      assert (existsb (String.eqb department) object_prototype_members = true).
      { apply existsb_exists. exists department. split; [exact H|].
        apply String.eqb_refl. }
      congruence.
Qed.

Lemma buddy_fulfilled (pool : list Buddy.t) (n : nat) (c c' : Context) :
  BaseAgent.passes (BuddyAgent.impl pool) (S n) c = inr c' ->
  exists d, or (get (props (employee c)) "department") (VStr EmptyString) = VStr d.
Proof.
  intros H.
  apply (single_pass (BuddyAgent.impl pool) BuddyAgent.action_tasks
           (buddy_perceive_employee pool) buddy_act_tasks buddy_reflect_complete)
    in H as (pc & actions & Hp & _).
  cbn [BaseAgent.perceive BuddyAgent.impl] in Hp. unfold BuddyAgent.perceive in Hp.
  apply outcome_bind_inr in Hp as (department & Hd & _).
  apply lower_or_inr in Hd as (d & Hd & _). eauto.
Qed.

Lemma training_fulfilled (n : nat) (c c' : Context) :
  BaseAgent.passes TrainingAgent.impl (S n) c = inr c' ->
  exists d path,
    or (get (props (employee c)) "department") (VStr "default") = VStr d
    /\ TrainingAgent.rolePath_for (toLowerCase d) = Some path.
Proof.
  intros H.
  apply (single_pass TrainingAgent.impl TrainingAgent.action_tasks
           training_perceive_employee training_act_tasks
           training_reflect_complete) in H as (pc & actions & Hp & Hd & _).
  destruct (training_perceive_path _ _ Hp) as (department & Hl & Hpp).
  apply lower_or_inr in Hl as (d & Hor & ->).
  cbn [BaseAgent.decide TrainingAgent.impl] in Hd.
  unfold TrainingAgent.decide in Hd. rewrite Hpp in Hd.
  cbn [TrainingPerception.roleModules] in Hd.
  destruct (TrainingAgent.rolePath_for (toLowerCase d)) as [path|] eqn:E;
    [eauto|].
  discriminate Hd.
Qed.

Lemma it_fulfilled (n : nat) (c c' : Context) :
  truthy (get (props (employee c)) "emailProvisioned") = false ->
  BaseAgent.passes ITSetupAgent.impl (S n) c = inr c' ->
  exists d profile first last,
    or (get (props (employee c)) "department") (VStr "default") = VStr d
    /\ ITSetupAgent.profile_for (toLowerCase d) = Some profile
    /\ outcome (opt_lower (get (props (employee c)) "firstName")) = inr first
    /\ outcome (opt_lower (get (props (employee c)) "lastName")) = inr last.
Proof.
  intros He H.
  apply (single_pass ITSetupAgent.impl ITSetupAgent.action_tasks
           it_perceive_employee it_act_tasks it_reflect_complete)
    in H as (pc & actions & Hp & Hd & _).
  destruct (it_perceive_profile _ _ Hp) as (department & Hl & Hpp).
  apply it_perceive_employee in Hp.
  apply lower_or_inr in Hl as (d & Hor & ->).
  cbn [BaseAgent.decide ITSetupAgent.impl] in Hd.
  unfold ITSetupAgent.decide in Hd. rewrite Hpp, Hp, He in Hd.
  apply outcome_bind_inr in Hd as (actions1 & H1 & Hd).
  apply outcome_bind_inr in H1 as (first & Hfirst & H1).
  apply outcome_bind_inr in H1 as (last & Hlast & _).
  cbn [ITPerception.profile] in Hd.
  destruct (ITSetupAgent.profile_for (toLowerCase d)) as [profile|] eqn:E;
    [|discriminate Hd].
  exists d, profile, first, last. auto.
Qed.

End Rejections.

(** X19.  For an employee for whom nothing has been done yet and a pool
    that is not empty: the HR run is always fulfilled; the Buddy run is
    fulfilled exactly when the department is falsy or a string; the
    Training run exactly when, in addition, the department in lower case
    (default for a falsy one) is not the name of a member every object
    inherits, such as constructor; the IT run exactly when, in addition
    to both, the first and the last name are each undefined, null or a
    string.  On every other input the run throws. *)
Theorem X19_which_runs_are_rejected
    (pool : list Buddy.t) (n : nat) (c : Context) :
  fresh (props (employee c)) ->
  pool <> [] ->
  let department := Js.get (props (employee c)) "department" in
  let textual := Js.truthy department = false \/ exists s, department = VStr s in
  let inherited :=
    exists d, Js.or department (VStr "default") = VStr d
              /\ In (Js.toLowerCase d) object_prototype_members in
  let nameable v := v = VUndef \/ v = VNull \/ exists s, v = VStr s in
  let fulfilled a := exists c', BaseAgent.passes a (S n) c = inr c' in
  fulfilled HRAgent.impl
  /\ (fulfilled (BuddyAgent.impl pool) <-> textual)
  /\ (fulfilled TrainingAgent.impl <-> textual /\ ~ inherited)
  /\ (fulfilled ITSetupAgent.impl
      <-> textual /\ ~ inherited
          /\ nameable (Js.get (props (employee c)) "firstName")
          /\ nameable (Js.get (props (employee c)) "lastName")).
Proof.
  intros Hfresh Hpool department textual inherited nameable fulfilled.
  assert (Hemail : Js.truthy (Js.get (props (employee c)) "emailProvisioned") = false).
  { destruct Hfresh as (_ & _ & _ & _ & _ & Hf).
    rewrite !List.Forall_cons_iff in Hf. tauto. }
  split; [|split; [|split]].
  - destruct (hr_fresh n c Hfresh) as (c' & H & _). now exists c'.
  - split.
    + intros [c' H]. apply buddy_fulfilled in H. now apply or_string in H.
    + intros H. apply (or_string _ EmptyString) in H as [d Hd].
      destruct (buddy_fresh pool n c d Hpool Hfresh Hd) as (c' & best & H & _).
      now exists c'.
  - split.
    + intros [c' H]. apply training_fulfilled in H as (d & path & Hd & Hp).
      split; [apply (or_string _ "default"); eauto|].
      intros (d' & Hd' & Hin). fold department in Hd.
      assert (d' = d) by congruence. subst d'.
      apply rolePath_for_None in Hin. congruence.
    + intros [Ht Hn]. apply (or_string _ "default") in Ht as [d Hd].
      destruct (TrainingAgent.rolePath_for (Js.toLowerCase d)) as [path|] eqn:Hp.
      * destruct (training_fresh n c d path Hfresh Hd Hp) as (c' & H & _).
        now exists c'.
      * destruct Hn. exists d. split; [exact Hd|]. now apply rolePath_for_None.
  - split.
    + intros [c' H].
      apply (it_fulfilled n c c' Hemail) in H
        as (d & profile & first & last & Hd & Hp & H1 & H2).
      split; [apply (or_string _ "default"); eauto|]. split.
      * intros (d' & Hd' & Hin). fold department in Hd.
        assert (d' = d) by congruence. subst d'.
        apply profile_for_None in Hin. congruence.
      * split; apply opt_lower_returns; eauto.
    + intros (Ht & Hn & H1 & H2).
      apply (or_string _ "default") in Ht as [d Hd].
      apply opt_lower_returns in H1 as [first H1].
      apply opt_lower_returns in H2 as [last H2].
      destruct (ITSetupAgent.profile_for (Js.toLowerCase d)) as [profile|] eqn:Hp.
      * destruct (it_fresh n c d first last profile Hfresh Hd Hp H1 H2)
          as (c' & H & _). now exists c'.
      * destruct Hn. exists d. split; [exact Hd|]. now apply profile_for_None.
Qed.

Section NewEmployeePlan.
Import Js.

Lemma copyFor_fresh (env : Orchestrator.Env) (e : obj) :
  fresh e ->
  exists copy,
    outcome (Orchestrator.copyFor
               (context_of (Orchestrator.initial_employee env e))) = inr copy
    /\ fresh (props (employee copy))
    /\ tasks (employee copy) = []
    /\ get (props (employee copy)) "department" = get e "department"
    /\ get (props (employee copy)) "firstName" = get e "firstName"
    /\ get (props (employee copy)) "lastName" = get e "lastName".
Proof.
  intros (Hd & Hp & Hc & Ha & Hh & Hf).
  rewrite !List.Forall_cons_iff in Hf.
  destruct Hf as (F1 & F2 & F3 & F4 & F5 & F6 & _).
  unfold Orchestrator.copyFor.
  cbn [employee context_of props Orchestrator.initial_employee].
  rewrite !get_insert. cbn [String.eqb Ascii.eqb Bool.eqb].
  rewrite Ha, Hh. cbn.
  eexists. split; [reflexivity|].
  cbn [employee with_employee props tasks context_of].
  unfold fresh. rewrite !List.Forall_cons_iff.
  rewrite !get_insert, !get_delete. cbn [String.eqb Ascii.eqb Bool.eqb].
  rewrite Hd, Hp, Hc. cbn.
  repeat split; try assumption; constructor.
Qed.

Lemma count_map_status {A} (s : string) (f : A -> Task.t) (l : list A) (b : bool) :
  (forall x, Orchestrator.has_status s (f x) = b) ->
  count (Orchestrator.has_status s) (List.map f l) = if b then length l else 0%nat.
Proof.
  intros H. unfold count. induction l as [|x l IH]; simpl; [now destruct b|].
  rewrite H. destruct b; simpl; now rewrite IH.
Qed.

Lemma count_app {A} (f : A -> bool) (l k : list A) :
  count f (l ++ k) = (count f l + count f k)%nat.
Proof. unfold count. now rewrite List.filter_app, length_app. Qed.

End NewEmployeePlan.

(** X20.  For an employee for whom nothing has been done yet, with
    strings as names and a department that has a profile and a role path
    (an unknown department has the default ones), [onboard] on the
    orchestrator of the constructor in any state is fulfilled once the
    four runs settle, and the plan lists the complete catalogs: the task
    ids are those of HR, of the profile, of the role path and of Buddy,
    in this order.  There are 24 tasks plus one for each software,
    hardware and access entry of the profile and each module of the
    path.  Completed are the email task and the software and access
    tasks, in progress the hardware tasks, pending the 23 others and the
    modules of the path.  The email task is for the first name, a dot
    and the last name, in lower case, at company.com; the department
    and the names are taken to be ASCII strings, on which
    [Js.toLowerCase] is the toLowerCase of the engine. *)
Theorem X20_plan_of_a_new_employee
    (s1 s2 s3 s4 : BaseAgent.State) (env : Orchestrator.Env) (e : obj)
    (department first last : string) (profile : Profile.t)
    (path : list TrainingModule.t) :
  fresh e ->
  Js.or (Js.get e "department") (VStr "default") = VStr department ->
  ITSetupAgent.profile_for (Js.toLowerCase department) = Some profile ->
  TrainingAgent.rolePath_for (Js.toLowerCase department) = Some path ->
  Js.get e "firstName" = VStr first ->
  Js.get e "lastName" = VStr last ->
  Js.is_ascii department = true ->
  Js.is_ascii first = true ->
  Js.is_ascii last = true ->
  Permutation (Orchestrator.settled env) [0; 1; 2; 3]%nat ->
  exists plan o',
    Orchestrator.onboard (Orchestrator.in_states s1 s2 s3 s4) env e
    = (Fulfilled plan, o')
    /\ List.map Task.id (tasks (Orchestrator.Plan.employee plan))
       = (HRAgent.ids ++ ITSetupAgent.ids profile ++ TrainingAgent.ids path
          ++ BuddyAgent.ids)%list
    /\ Summary.totalTasks (Orchestrator.Plan.summary plan)
       = (24 + length (Profile.software profile)
          + length (Profile.hardware profile)
          + length (Profile.access profile) + length path)%nat
    /\ Summary.completed (Orchestrator.Plan.summary plan)
       = (1 + length (Profile.software profile)
          + length (Profile.access profile))%nat
    /\ Summary.inProgress (Orchestrator.Plan.summary plan)
       = length (Profile.hardware profile)
    /\ Summary.pending (Orchestrator.Plan.summary plan) = (23 + length path)%nat
    /\ In (ITSetupAgent.email_task
             (Js.toLowerCase first +:+ "." +:+ Js.toLowerCase last
              +:+ "@company.com"))
          (tasks (Orchestrator.Plan.employee plan)).
Proof.
  intros Hfresh Hd Hprofile Hpath Hfirst Hlast _ _ _ Hsettled.
  destruct (copyFor_fresh env e Hfresh)
    as (copy & Hcopy & Hf & Ht & Hdep & Hfn & Hln).
  assert (Hprint : Orchestrator.printable
                     (Orchestrator.merged (Orchestrator.initial_employee env e)
                        (Orchestrator.outcomes env
                           (Orchestrator.in_states s1 s2 s3 s4) copy)) = true).
  { rewrite merged_printable.
    - unfold Orchestrator.printable. cbn [props Orchestrator.initial_employee].
      rewrite !get_insert. cbn [String.eqb Ascii.eqb Bool.eqb].
      rewrite !get_delete. cbn [String.eqb Ascii.eqb Bool.eqb].
      now rewrite Hfirst, Hlast.
    - intros k Hk.
      apply (copyFor_props _ _ k Hcopy); intros ->; simpl in Hk;
        intuition discriminate. }
  rewrite <- Hdep in Hd. rewrite <- Hfn in Hfirst. rewrite <- Hln in Hlast.
  assert (Hbd : exists d, Js.or (Js.get (props (employee copy)) "department")
                                (VStr EmptyString) = VStr d
                          /\ True).
  { assert (H : exists d, Js.or (Js.get (props (employee copy)) "department")
                                (VStr "default") = VStr d) by eauto.
    apply or_string in H. apply (or_string _ EmptyString) in H as [d H]. eauto. }
  destruct Hbd as (bd & Hbd & _).
  destruct (hr_fresh 4 copy Hf) as (c1 & H1 & T1).
  destruct (it_fresh 4 copy department (Js.toLowerCase first) (Js.toLowerCase last)
              profile Hf Hd Hprofile)
    as (c2 & H2 & T2);
    [rewrite Hfirst; reflexivity|rewrite Hlast; reflexivity|].
  destruct (training_fresh 4 copy department path Hf Hd Hpath) as (c3 & H3 & T3).
  destruct (buddy_fresh BuddyAgent.buddyPool 4 copy bd ltac:(discriminate) Hf Hbd)
    as (c4 & best & H4 & _ & T4 & _).
  rewrite Ht in T1, T2, T3, T4. cbn [app] in T1, T2, T3, T4.
  do 2 eexists.
  split; [apply (onboard_fulfilled _ env e copy Hcopy Hsettled Hprint)|].
  unfold Orchestrator.plan_of, Orchestrator.outcomes, Orchestrator.keys.
  cbn [Orchestrator.Plan.employee Orchestrator.Plan.summary tasks List.map
       Orchestrator.summary_of Summary.totalTasks Summary.completed
       Summary.inProgress Summary.pending].
  rewrite merge_mergedTasks, !run_agent_passes.
  cbn [Orchestrator.agent Orchestrator.in_states Orchestrator.hr Orchestrator.it
       Orchestrator.training Orchestrator.buddy Agent.impl].
  unfold BaseAgent.MAX_ITERATIONS. rewrite H1, H2, H3, H4.
  cbn [Orchestrator.tasks_of]. rewrite T1, T2, T3, T4.
  split.
  { rewrite !map_app. cbn [List.map]. rewrite !map_app, !map_map.
    unfold HRAgent.ids, ITSetupAgent.ids, TrainingAgent.ids, BuddyAgent.ids.
    cbn [List.map app]. rewrite !map_app, <- !app_assoc. reflexivity. }
  split.
  { rewrite !length_app. cbn [length]. rewrite !length_app, !length_map.
    cbn [length HRAgent.requiredDocs HRAgent.policies
         TrainingAgent.companyWideModules BuddyAgent.checkIns]. lia. }
  assert (Hcount : forall s,
            count (Orchestrator.has_status s)
              ((List.map HRAgent.document_task HRAgent.requiredDocs
                ++ List.map HRAgent.policy_task HRAgent.policies
                ++ [HRAgent.benefits_task])
               ++ (ITSetupAgent.email_task
                     (Js.toLowerCase first +:+ "." +:+ Js.toLowerCase last
                      +:+ "@company.com")
                   :: List.map ITSetupAgent.software_task (Profile.software profile)
                   ++ List.map ITSetupAgent.hardware_task (Profile.hardware profile)
                   ++ List.map ITSetupAgent.access_task (Profile.access profile))
               ++ (List.map (TrainingAgent.module_task "high" 7 "Week 1 Training")
                     TrainingAgent.companyWideModules
                   ++ List.map
                        (TrainingAgent.module_task "medium" 14 "Week 2 Training")
                        path
                   ++ [TrainingAgent.manager_task; TrainingAgent.team_intro_task])
               ++ BuddyAgent.intro_task best
               :: List.map BuddyAgent.checkin_task BuddyAgent.checkIns)%list
            = ((if String.eqb "pending" s then 23 + length path else 0)
               + (if String.eqb "completed" s
                  then 1 + length (Profile.software profile)
                       + length (Profile.access profile)
                  else 0)
               + (if String.eqb "in_progress" s
                  then length (Profile.hardware profile) else 0))%nat).
  { intros s.
    change (ITSetupAgent.email_task ?x :: ?l)
      with ([ITSetupAgent.email_task x] ++ l)%list.
    change (BuddyAgent.intro_task best :: ?l)
      with ([BuddyAgent.intro_task best] ++ l)%list.
    rewrite !count_app.
    rewrite (count_map_status s HRAgent.document_task _ (String.eqb "pending" s))
      by reflexivity.
    rewrite (count_map_status s HRAgent.policy_task _ (String.eqb "pending" s))
      by reflexivity.
    rewrite (count_map_status s ITSetupAgent.software_task _
               (String.eqb "completed" s)) by reflexivity.
    rewrite (count_map_status s ITSetupAgent.hardware_task _
               (String.eqb "in_progress" s)) by reflexivity.
    rewrite (count_map_status s ITSetupAgent.access_task _
               (String.eqb "completed" s)) by reflexivity.
    rewrite (count_map_status s (TrainingAgent.module_task _ _ _) _
               (String.eqb "pending" s)) by reflexivity.
    rewrite (count_map_status s (TrainingAgent.module_task _ _ _) _
               (String.eqb "pending" s)) by reflexivity.
    rewrite (count_map_status s BuddyAgent.checkin_task _
               (String.eqb "pending" s)) by reflexivity.
    unfold count, Orchestrator.has_status.
    cbn [List.filter Task.status HRAgent.benefits_task ITSetupAgent.email_task
         TrainingAgent.manager_task TrainingAgent.team_intro_task
         BuddyAgent.intro_task].
    destruct (String.eqb "pending" s), (String.eqb "completed" s),
      (String.eqb "in_progress" s);
      cbn [length HRAgent.requiredDocs HRAgent.policies
           TrainingAgent.companyWideModules BuddyAgent.checkIns]; lia. }
  rewrite !Hcount. cbn [String.eqb Ascii.eqb Bool.eqb].
  split; [lia|]. split; [lia|]. split; [lia|].
  apply in_or_app. right. apply in_or_app. left. now left.
Qed.

(** X21.  In a pool whose ratings are numbers of one decimal from 0 to
    10 that differ by less than 3.0, as those of the built-in pool are,
    and for an employee whose department is written in ASCII, a member
    of the department of the employee (put in lower case) is preferred
    to every member of another department: if the pool has such a
    member, the buddy assigned to an employee without a buddy is one of
    them, and its score is its rating plus 3. *)
Theorem X21_buddy_of_the_same_department
    (pool : list Buddy.t) (context : Context) (dept : string) :
  Forall Buddy.rated pool ->
  Js.is_ascii dept = true ->
  (forall b1 b2, In b1 pool -> In b2 pool ->
                 Buddy.rating b1 < Buddy.rating b2 + 30) ->
  Js.or (Js.get (props (employee context)) "department") (VStr EmptyString)
  = VStr dept ->
  Js.truthy (Js.get (props (employee context)) "buddy") = false ->
  (exists b, In b pool /\ Buddy.department b = Js.toLowerCase dept) ->
  exists c best actions,
    outcome (BuddyAgent.perceive pool context) = inr c
    /\ outcome (BuddyAgent.decide c)
       = inr (BuddyAgent.assign_buddy (Some best) :: actions)
    /\ In (Scored.buddy best) pool
    /\ Buddy.department (Scored.buddy best) = Js.toLowerCase dept
    /\ Scored.score best = Buddy.rating (Scored.buddy best) + 30.
Proof.
  intros _ _ Hspread Hdept Hbuddy (b & Hb & Hbd).
  destruct (sort_by_score_head
              (List.map (BuddyAgent.score_buddy (Js.toLowerCase dept)) pool))
    as (pre & best & post & Hsplit & Hhead & Hpre & Hpost).
  { destruct pool; [destruct Hb|discriminate]. }
  eexists _, best, _. split; [|split].
  - unfold BuddyAgent.perceive, JsP.lower_or. rewrite Hdept. cbn. reflexivity.
  - erewrite decide_unassigned by (cbn; rewrite Hbuddy; reflexivity).
    rewrite firstn_head, Hhead. reflexivity.
  - assert (Hin : In best (List.map (BuddyAgent.score_buddy (Js.toLowerCase dept))
                             pool)).
    { rewrite Hsplit. apply in_or_app. right. now left. }
    apply in_map_iff in Hin as (b0 & <- & Hb0).
    split; [exact Hb0|].
    assert (Hmax : Scored.score (BuddyAgent.score_buddy (Js.toLowerCase dept) b)
                   <= Scored.score
                        (BuddyAgent.score_buddy (Js.toLowerCase dept) b0)).
    { assert (Hinb : In (BuddyAgent.score_buddy (Js.toLowerCase dept) b)
                        (pre ++ BuddyAgent.score_buddy (Js.toLowerCase dept) b0
                         :: post)%list)
        by (rewrite <- Hsplit; now apply in_map).
      apply in_app_or in Hinb as [Hin|[<-|Hin]].
      - rewrite List.Forall_forall in Hpre. specialize (Hpre _ Hin). lia.
      - lia.
      - rewrite List.Forall_forall in Hpost. now apply Hpost. }
    unfold BuddyAgent.score_buddy in *. cbn [Scored.buddy Scored.score] in *.
    rewrite Hbd, String.eqb_refl in Hmax.
    destruct (String.eqb_spec (Buddy.department b0) (Js.toLowerCase dept)) as [E|E].
    + split; [exact E|reflexivity].
    + specialize (Hspread b0 b Hb0 Hb). lia.
Qed.

Section TimelineSections.
Import Orchestrator.

Lemma bucket_section (t : Task.t) : In (bucket t) sections.
Proof.
  unfold bucket. destruct (Task.dueInDays t) as [d|]; [|simpl; tauto].
  repeat match goal with
         | |- context [if ?b then _ else _] => destruct b
         end; simpl; tauto.
Qed.

Lemma in_bucket_lengths (ts : list Task.t) :
  list_sum (List.map (fun b => length (in_bucket b ts)) sections) = length ts.
Proof.
  induction ts as [|t ts IH]; [reflexivity|].
  unfold in_bucket in *. cbn [List.filter sections List.map list_sum] in *.
  pose proof (bucket_section t) as Hb. simpl in Hb.
  destruct Hb as [<-|[<-|[<-|[<-|[<-|[<-|[]]]]]]];
    cbn [String.eqb Ascii.eqb Bool.eqb List.map length];
    unfold list_sum in *; cbn [fold_right] in *; lia.
Qed.

End TimelineSections.

(** X22.  The timeline has no section other than Immediate, Day 1-3,
    Week 1, Week 2, Month 1 and Month 2-3; the six sections together
    hold as many entries as there are tasks; and no section the timeline
    holds is empty. *)
Theorem X22_timeline_sections (ts : list Task.t) :
  (forall b, is_Some (Orchestrator.buildTimeline ts !! b) -> In b sections)
  /\ list_sum
       (List.map (fun b => length (default [] (Orchestrator.buildTimeline ts !! b)))
                 sections)
     = length ts
  /\ (forall b entries,
        Orchestrator.buildTimeline ts !! b = Some entries -> entries <> []).
Proof.
  assert (Hb : forall b,
      Orchestrator.buildTimeline ts !! b
      = match Orchestrator.in_bucket b ts with [] => None | l => Some l end).
  { intros b. unfold Orchestrator.buildTimeline. rewrite timeline_fold.
    rewrite lookup_empty. reflexivity. }
  split; [|split].
  - intros b [l Hl]. rewrite Hb in Hl.
    destruct (Orchestrator.in_bucket b ts) as [|x r] eqn:E; [discriminate|].
    unfold Orchestrator.in_bucket in E.
    destruct (List.filter _ ts) as [|t r'] eqn:F; [discriminate|].
    assert (Hin : In t (List.filter
                          (fun t => String.eqb (Orchestrator.bucket t) b) ts))
      by (rewrite F; now left).
    apply filter_In in Hin as [_ Heq]. apply String.eqb_eq in Heq. subst b.
    apply bucket_section.
  - rewrite <- (in_bucket_lengths ts). f_equal. apply map_ext. intros b.
    rewrite Hb. now destruct (Orchestrator.in_bucket b ts).
  - intros b entries H. rewrite Hb in H.
    destruct (Orchestrator.in_bucket b ts); [discriminate|]. now injection H as <-.
Qed.

(* ================================================================== *)
(** * 26. The further theorems at work on sample requests             *)
(* ================================================================== *)

Lemma scenario_classified :
  outcome (ClfModel.classify Sample.epoch Sample.next_day
             "2026-01-05T09:00:00.000Z" Sample.complete_but_startDate)
  = inr Scenario.classified.
Proof. vm_compute. reflexivity. Qed.

Lemma fresh_ana : fresh Sample.ana.
Proof.
  unfold fresh. do 5 (split; [vm_compute; reflexivity|]).
  repeat (constructor; [vm_compute; reflexivity|]). constructor.
Qed.

Lemma fresh_heir : fresh (props (employee (Sample.copy Sample.env Scenario.heir))).
Proof.
  unfold fresh. do 5 (split; [vm_compute; reflexivity|]).
  repeat (constructor; [vm_compute; reflexivity|]). constructor.
Qed.

Lemma numbered_copy :
  outcome (Orchestrator.copyFor
             (context_of (Orchestrator.initial_employee Sample.env Sample.numbered)))
  = inr (Sample.copy Sample.env Sample.numbered).
Proof. vm_compute. reflexivity. Qed.

Lemma later_copy :
  outcome (Orchestrator.copyFor
             (context_of (Orchestrator.initial_employee Sample.later Sample.ana)))
  = inr (Sample.copy Sample.later Sample.ana).
Proof. vm_compute. reflexivity. Qed.

(** X2 on a profile of the engineering department with every field but
    the start date. *)
Lemma X2_classify_intensity_days_witness :
  exists intensity days,
    Classification.onboardingIntensity Scenario.classified = Some intensity
    /\ Classification.estimatedCompletionDays Scenario.classified = Some days
    /\ 2 <= intensity <= 5
    /\ 30 <= days <= 75.
Proof.
  destruct (X2_classify_intensity_days Sample.epoch Sample.next_day
              "2026-01-05T09:00:00.000Z" Sample.complete_but_startDate
              Scenario.classified scenario_classified)
    as (baseIntensity & baseDays & intensity & days & _ & _ & Hi & Hd & _ & _
        & Hri & Hrd).
  exists intensity, days. auto.
Defined.

(** X6 on a start date that was the day before. *)
Lemma X6_startDate_thresholds_witness :
  ClfModel.startDate_penalty Sample.epoch Sample.next_day (VStr "2026-01-04") = 3.
Proof.
  exact (X6_startDate_thresholds Sample.epoch Sample.next_day (VStr "2026-01-04") 0
           eq_refl eq_refl).
Defined.

(** X9 on the store with one employee, whose second task is marked as
    completed. *)
Lemma X9_updateTaskStatus_found_witness :
  exists emp plan pre t post,
    EmployeeStore.getEmployee (Routes.employees Scenario.filed) "e-1" = Some emp
    /\ Stored.onboardingPlan emp = Some plan
    /\ tasks (Orchestrator.Plan.employee plan) = (pre ++ t :: post)%list
    /\ Task.id t = "t-0"
    /\ EmployeeStore.getEmployee
         (snd (EmployeeStore.updateTaskStatus (Routes.employees Scenario.filed)
                 "e-1" "t-0" "completed")) "e-1"
       = Some (Stored.mk (Stored.fields emp)
                 (Some (EmployeeStore.with_tasks plan
                          (pre ++ EmployeeStore.with_status "completed" t :: post)))).
Proof.
  destruct (X9_updateTaskStatus_found (Routes.employees Scenario.filed)
              (snd (EmployeeStore.updateTaskStatus (Routes.employees Scenario.filed)
                      "e-1" "t-0" "completed"))
              "e-1" "t-0" "completed"
              (EmployeeStore.with_status "completed" Sample.due_today))
    as (emp & plan & pre & t & post & He & Hp & Hts & _ & Hid & Ht & Hget & _).
  - vm_compute. reflexivity.
  - exists emp, plan, pre, t, post. rewrite <- Ht. auto.
Defined.

(** X10 on two requests to a server that has just started: the sample
    request, and the same with an object for a first name that has a
    property toString of its own. *)
Lemma X10_post_onboard_answers_witness :
  (exists response,
      fst (Routes.post_onboard Scenario.rt Routes.start Sample.body)
      = Some response
      /\ Routes.status response = 200)
  /\ (exists response,
        fst (Routes.post_onboard Scenario.rt Routes.start
               (<["firstName" := VObj (<["toString" := VNum 10]> ∅)]> Sample.body))
        = Some response
        /\ Routes.status response = 500).
Proof.
  split.
  - destruct (X10_post_onboard_answers Scenario.rt Routes.start Sample.body
                BaseAgent.new BaseAgent.new BaseAgent.new BaseAgent.new eq_refl)
      as (_ & Hnone & Hr).
    assert (Hex : exists response,
               fst (Routes.post_onboard Scenario.rt Routes.start Sample.body)
               = Some response).
    { destruct (fst (Routes.post_onboard Scenario.rt Routes.start Sample.body))
        as [response|] eqn:E; [now exists response|].
      exfalso. exact (Hnone eq_refl sample_settled). }
    destruct Hex as (response & E). exists response. split; [exact E|].
    apply (Hr response E). split; intros [F|F]; vm_compute in F; discriminate.
  - destruct (X10_post_onboard_answers Scenario.rt Routes.start
                (<["firstName" := VObj (<["toString" := VNum 10]> ∅)]> Sample.body)
                BaseAgent.new BaseAgent.new BaseAgent.new BaseAgent.new eq_refl)
      as (_ & Hnone & Hr).
    assert (Hex : exists response,
               fst (Routes.post_onboard Scenario.rt Routes.start
                      (<["firstName" := VObj (<["toString" := VNum 10]> ∅)]>
                         Sample.body))
               = Some response).
    { destruct (fst (Routes.post_onboard Scenario.rt Routes.start
                       (<["firstName" := VObj (<["toString" := VNum 10]> ∅)]>
                          Sample.body)))
        as [response|] eqn:E; [now exists response|].
      exfalso. exact (Hnone eq_refl sample_settled). }
    destruct Hex as (response & E). exists response. split; [exact E|].
    apply (Hr response E). split.
    + intros [F|F]; vm_compute in F; discriminate.
    + left. vm_compute. reflexivity.
Defined.

(** X11 on the sample request, sent to a server that has just started. *)
Lemma X11_post_onboard_stores_plan_witness :
  exists plan s' fields,
    Routes.post_onboard Scenario.rt Routes.start Sample.body
    = (Some (Routes.mkResponse 200
               (Routes.onboard_body (VStr "e-1")
                  (Routes.written (Routes.orchestrator s') plan))), s')
    /\ Routes.get_employee s' "e-1"
       = Routes.mkResponse 200
           (Routes.employee_body fields
              (Some (Routes.written (Routes.orchestrator s') plan)))
    /\ Js.get fields "firstName" = VStr "Ana"
    /\ Js.get fields "email" = VNull.
Proof.
  destruct (X11_post_onboard_stores_plan Scenario.rt Routes.start Sample.body
              BaseAgent.new BaseAgent.new BaseAgent.new BaseAgent.new)
    as (plan & s' & fields & Hpost & _ & Hget & _ & Hfirst & Hemail & _).
  - reflexivity.
  - vm_compute. reflexivity.
  - vm_compute. reflexivity.
  - vm_compute. reflexivity.
  - vm_compute. reflexivity.
  - exact sample_settled.
  - exists plan, s', fields. auto.
Defined.

(** X13 on the server with one employee, whose second task is marked as
    completed. *)
Lemma X13_patch_task_updates_witness :
  exists s' emp plan plan',
    Routes.patch_task Scenario.filed "e-1" "t-0" Scenario.completed_body
    = (Routes.mkResponse 200
         (Routes.task_body (EmployeeStore.with_status "completed" Sample.due_today)),
       s')
    /\ EmployeeStore.getEmployee (Routes.employees Scenario.filed) "e-1" = Some emp
    /\ Stored.onboardingPlan emp = Some plan
    /\ EmployeeStore.getEmployee (Routes.employees s') "e-1"
       = Some (Stored.mk (Stored.fields emp) (Some plan'))
    /\ Orchestrator.Plan.timeline plan' = Orchestrator.Plan.timeline plan
    /\ Summary.agentSummaries (Orchestrator.Plan.summary plan')
       = Summary.agentSummaries (Orchestrator.Plan.summary plan).
Proof.
  assert (H : Routes.patch_task Scenario.filed "e-1" "t-0" Scenario.completed_body
              = (Routes.mkResponse 200
                   (Routes.task_body
                      (EmployeeStore.with_status "completed" Sample.due_today)),
                 snd (Routes.patch_task Scenario.filed "e-1" "t-0"
                        Scenario.completed_body))).
  { apply injective_projections; [vm_compute; reflexivity|reflexivity]. }
  destruct (X13_patch_task_updates Scenario.filed _ "e-1" "t-0"
              Scenario.completed_body _ H)
    as (status & emp & plan & plan' & pre & t & post & _ & He & Hp & _ & _ & _ & _
        & Hget & _ & _ & _ & _ & _ & _ & Hsum & _ & Htl & _).
  exists (snd (Routes.patch_task Scenario.filed "e-1" "t-0" Scenario.completed_body)),
    emp, plan, plan'.
  exact (conj H (conj He (conj Hp (conj Hget (conj Htl Hsum))))).
Defined.

(** X15 on two calls in a row: the IT run of the first is rejected, the
    second is for the sample request, on which no run is rejected. *)
Lemma X15_error_status_sticks_witness :
  exists summary,
    Summary.agentSummaries (Orchestrator.Plan.summary Scenario.plan_ana) !! "it"
    = Some summary
    /\ AgentSummary.status summary = "error".
Proof.
  destruct (X15_error_status_sticks Orchestrator.new Scenario.after_numbered
              Scenario.after_ana Sample.env Sample.later Sample.numbered Sample.ana
              Scenario.plan_numbered Scenario.plan_ana Orchestrator.key_it
              (TypeError "toLowerCase is not a function"))
    as (summary & Hs & He & _).
  - apply (onboard_fulfilled Orchestrator.new Sample.env Sample.numbered
             (Sample.copy Sample.env Sample.numbered) numbered_copy sample_settled).
    vm_compute. reflexivity.
  - vm_compute. reflexivity.
  - apply (onboard_fulfilled Scenario.after_numbered Sample.later Sample.ana
             (Sample.copy Sample.later Sample.ana) later_copy
             (Permutation_refl _)).
    vm_compute. reflexivity.
  - exists summary. auto.
Defined.

(** X16 on the sample request: the email of the plan is the null of the
    input. *)
Lemma X16_last_overlay_wins_witness :
  Js.get (props (Orchestrator.Plan.employee Sample.plan1)) "email" = VNull.
Proof.
  apply (X16_last_overlay_wins BaseAgent.new BaseAgent.new BaseAgent.new
           BaseAgent.new Sample.env Sample.ana (Sample.copy Sample.env Sample.ana)
           (Sample.returned Sample.ana Orchestrator.key_buddy) Sample.plan1
           Sample.o1).
  - exact (onboard_fulfilled Orchestrator.new Sample.env Sample.ana
             (Sample.copy Sample.env Sample.ana) sample_copy sample_settled sample_printable).
  - exact sample_copy.
  - vm_compute. reflexivity.
  - discriminate.
  - discriminate.
  - vm_compute. reflexivity.
Defined.

(** X19 on a new employee of the department Constructor: the HR run is
    fulfilled, the Training run is rejected. *)
Lemma X19_which_runs_are_rejected_witness :
  (exists c', BaseAgent.passes HRAgent.impl 5
                (Sample.copy Sample.env Scenario.heir) = inr c')
  /\ ~ (exists c', BaseAgent.passes TrainingAgent.impl 5
                     (Sample.copy Sample.env Scenario.heir) = inr c').
Proof.
  pose proof (X19_which_runs_are_rejected BuddyAgent.buddyPool 4
                (Sample.copy Sample.env Scenario.heir) fresh_heir
                ltac:(discriminate)) as H.
  cbv zeta in H. destruct H as (Hhr & _ & Htraining & _).
  split; [exact Hhr|].
  intros Hf. apply Htraining in Hf as [_ Hn]. apply Hn.
  exists "Constructor". split; [vm_compute; reflexivity|].
  vm_compute. tauto.
Defined.

(** X20 on the sample request. *)
Lemma X20_plan_of_a_new_employee_witness :
  exists plan o',
    Orchestrator.onboard Orchestrator.new Sample.env Sample.ana
    = (Fulfilled plan, o')
    /\ List.map Task.id (tasks (Orchestrator.Plan.employee plan))
       = (HRAgent.ids ++ ITSetupAgent.ids ITSetupAgent.engineering
          ++ TrainingAgent.ids TrainingAgent.engineering ++ BuddyAgent.ids)%list
    /\ Summary.inProgress (Orchestrator.Plan.summary plan)
       = length (Profile.hardware ITSetupAgent.engineering)
    /\ In (ITSetupAgent.email_task "ana.lopez@company.com")
          (tasks (Orchestrator.Plan.employee plan)).
Proof.
  destruct (X20_plan_of_a_new_employee BaseAgent.new BaseAgent.new BaseAgent.new
              BaseAgent.new Sample.env Sample.ana "Engineering" "Ana" "Lopez"
              ITSetupAgent.engineering TrainingAgent.engineering)
    as (plan & o' & H & Hids & _ & _ & Hi & _ & Hemail).
  - exact fresh_ana.
  - vm_compute. reflexivity.
  - vm_compute. reflexivity.
  - vm_compute. reflexivity.
  - vm_compute. reflexivity.
  - vm_compute. reflexivity.
  - reflexivity.
  - reflexivity.
  - reflexivity.
  - exact sample_settled.
  - exists plan, o'. auto.
Defined.

(** X21 on the built-in pool and an engineer without a buddy. *)
Lemma X21_buddy_of_the_same_department_witness :
  exists c best actions,
    outcome (BuddyAgent.perceive BuddyAgent.buddyPool Sample.engineer) = inr c
    /\ outcome (BuddyAgent.decide c)
       = inr (BuddyAgent.assign_buddy (Some best) :: actions)
    /\ Buddy.department (Scored.buddy best) = "engineering".
Proof.
  destruct (X21_buddy_of_the_same_department BuddyAgent.buddyPool Sample.engineer
              "engineering")
    as (c & best & actions & Hp & Hd & _ & Hdep & _).
  - exact buddyPool_rated.
  - reflexivity.
  - intros b1 b2 H1 H2. simpl in H1, H2.
    repeat (destruct H1 as [<-|H1]; [|]); try contradiction;
      repeat (destruct H2 as [<-|H2]; [|]); try contradiction;
      vm_compute; reflexivity.
  - vm_compute. reflexivity.
  - vm_compute. reflexivity.
  - exists (Buddy.mk "b1" "Sarah Chen" "engineering" "senior" 49).
    split; [now left|reflexivity].
  - exists c, best, actions. auto.
Defined.
